(** * PLC40_InformationStickers_AutoGenerate: a shallow embedding

    The script copies worksheet cells into named shapes of a presentation.
    This development embeds
    [src/PLC40_InformationStickers_AutoGenerate.py]: [safe_cell],
    [attach_office], [coords_for_position], [apply_coords],
    [apply_font_size], [safe_shape], the start-up of [main]
    (lines 127-153) and its row loop (lines 156-263).

    Python values are modelled as the interpreter has them: [int] is [Z],
    [float] is an IEEE binary64 ([spec_float] of the Standard Library, with
    every operation rounding to nearest, ties to even), [str] is [string].
    The two Office applications are external.  A [world] record holds the
    worksheet cells, the rejections the spreadsheet host will answer the
    reads with, the slides with their shapes, and the trace of everything
    the script did.  A [host] says which of the calls the row loop makes
    outside every [try] raise: the call for the number of slides, the call
    for a slide, the printing of a line.  [main_on h] is the row loop
    against the host [h], and [main] is the row loop against the host
    that answers all of them.  A [desktop] says what each call of the
    start-up answers. *)

From Stdlib Require Import ZArith List String Ascii Bool Lia.
From Stdlib Require Import SpecFloat DecimalString.
Import ListNotations.
Open Scope string_scope.
Open Scope list_scope.
Open Scope Z_scope.

(** ** Exceptions and results *)

(** The exception classes the script can meet.  All of them derive from
    [Exception], so an [except Exception] clause catches every one. *)
Inductive exc_class : Set :=
| RuntimeError
| ZeroDivisionError
| OverflowError
| ValueError
| IndexError
| com_error.

(** An exception: its class and what [str(e)] returns. *)
Record exn : Set := mkExn { exc_type : exc_class; exc_str : string }.

Inductive result (A : Type) : Type :=
| Ok (a : A)
| Raise (e : exn).
Arguments Ok {A} a.
Arguments Raise {A} e.

Definition rbind {A B} (r : result A) (k : A -> result B) : result B :=
  match r with
  | Ok a => k a
  | Raise e => Raise e
  end.

(** ** Python's [range] *)

Definition py_range (lo hi : Z) : list Z :=
  map (fun i => lo + Z.of_nat i) (seq 0 (Z.to_nat (hi - lo))).

(** ** Python floats *)

Module PyFloat.

(** A rational [num/den] scaled by [2^-e], as a fraction. *)
Definition scale (n d : positive) (e : Z) : Z * Z :=
  if 0 <=? e then (Zpos n, Zpos d * 2 ^ e) else (Zpos n * 2 ^ (- e), Zpos d).

(** [num/den] rounded to the nearest integer, ties to even
    ([0 <= num], [0 < den]). *)
Definition rne_div (num den : Z) : Z :=
  let q := num / den in
  match 2 * (num mod den) ?= den with
  | Lt => q
  | Gt => q + 1
  | Eq => if Z.even q then q else q + 1
  end.

(** The binary64 nearest to [n/d] (ties to even), with sign [neg];
    [None] when the rounded value is beyond the largest finite float.
    This is the rounding of [float(int)], of [int / int], of a decimal
    literal and of the string-to-float step of [round]. *)
Definition nearest (neg : bool) (n d : positive) : option spec_float :=
  let e1 := Z.log2 (Zpos n) - Z.log2 (Zpos d) - 53 in
  let '(a1, b1) := scale n d e1 in
  let e2 := if 2 ^ 53 * b1 <=? a1 then e1 + 1 else e1 in
  let e := Z.max e2 (-1074) in
  let '(a, b) := scale n d e in
  let m := rne_div a b in
  if m =? 0 then Some (S754_zero neg)
  else
    let '(m', e') := if m =? 2 ^ 53 then (2 ^ 52, e + 1) else (m, e) in
    if 971 <? e' then None else Some (S754_finite neg (Z.to_pos m') e').

(** A decimal literal [n/d] of the source, e.g. [450.43] is
    [lit 45043 100]; a literal beyond the float range reads as infinity. *)
Definition lit (n d : positive) : spec_float :=
  match nearest false n d with
  | Some f => f
  | None => S754_infinity false
  end.

(** [float(z)] for an int [z]. *)
Definition of_int (z : Z) : result spec_float :=
  match z with
  | Z0 => Ok (S754_zero false)
  | Zpos p =>
      match nearest false p 1 with
      | Some f => Ok f
      | None => Raise (mkExn OverflowError "int too large to convert to float")
      end
  | Zneg p =>
      match nearest true p 1 with
      | Some f => Ok f
      | None => Raise (mkExn OverflowError "int too large to convert to float")
      end
  end.

(** [a / b] for ints: the exact quotient, correctly rounded. *)
Definition truediv (a b : Z) : result spec_float :=
  match b, a with
  | Z0, _ => Raise (mkExn ZeroDivisionError "division by zero")
  | _, Z0 => Ok (S754_zero (b <? 0))
  | _, _ =>
      match nearest (xorb (a <? 0) (b <? 0))
              (Z.to_pos (Z.abs a)) (Z.to_pos (Z.abs b)) with
      | Some f => Ok f
      | None =>
          Raise (mkExn OverflowError
                   "integer division result too large for a float")
      end
  end.

(** The exact value of a finite float's magnitude [m * 2^e], as a
    fraction. *)
Definition frac (m : positive) (e : Z) : Z * Z :=
  if 0 <=? e then (Zpos m * 2 ^ e, 1) else (Zpos m, 2 ^ (- e)).

(** [math.ceil(x)]. *)
Definition ceil (x : spec_float) : result Z :=
  match x with
  | S754_zero _ => Ok 0
  | S754_infinity _ =>
      Raise (mkExn OverflowError "cannot convert float infinity to integer")
  | S754_nan => Raise (mkExn ValueError "cannot convert float NaN to integer")
  | S754_finite s m e =>
      let '(n, d) := frac m e in
      Ok (if s then - (n / d) else - ((- n) / d))
  end.

(** [x.is_integer()]. *)
Definition is_integer (x : spec_float) : bool :=
  match x with
  | S754_zero _ => true
  | S754_infinity _ | S754_nan => false
  | S754_finite _ m e => let '(n, d) := frac m e in n mod d =? 0
  end.

(** [int(x)]: truncation towards zero. *)
Definition to_int (x : spec_float) : result Z :=
  match x with
  | S754_zero _ => Ok 0
  | S754_infinity _ =>
      Raise (mkExn OverflowError "cannot convert float infinity to integer")
  | S754_nan => Raise (mkExn ValueError "cannot convert float NaN to integer")
  | S754_finite s m e =>
      let '(n, d) := frac m e in
      Ok (if s then - (n / d) else n / d)
  end.

(** [x + y]: IEEE addition, as the Standard Library specifies it. *)
Definition add (x y : spec_float) : spec_float := SFadd 53 1024 x y.

Definition eqb (x y : spec_float) : bool :=
  match x, y with
  | S754_zero a, S754_zero b => Bool.eqb a b
  | S754_infinity a, S754_infinity b => Bool.eqb a b
  | S754_nan, S754_nan => true
  | S754_finite a m e, S754_finite b m' e' =>
      Bool.eqb a b && Pos.eqb m m' && Z.eqb e e'
  | _, _ => false
  end.

(** *** [round(x, 2)]

    CPython prints the exact value of [x] with two digits after the point
    (ties to even) and reads that decimal string back, correctly
    rounded; infinities and NaN round to themselves. *)
Definition round2 (x : spec_float) : result spec_float :=
  match x with
  | S754_finite s m e =>
      let '(n, d) := frac m e in
      let k := rne_div (n * 100) d in
      if k =? 0 then Ok (S754_zero s)
      else
        match nearest s (Z.to_pos k) 100 with
        | Some f => Ok f
        | None =>
            Raise (mkExn OverflowError "rounded value too large to represent")
        end
  | _ => Ok x
  end.

(** *** [repr(x)], which is also [str(x)]

    The shortest decimal string that reads back as [x]; among the
    strings of that length the one nearest to [x], ties to the even last
    digit.  The digits are then laid out in positional notation when the
    decimal point position is in [-3 .. 16], else in exponent notation. *)

(** [n/d * 10^j] as a fraction. *)
Definition dscale (n d : Z) (j : Z) : Z * Z :=
  if 0 <=? j then (n * 10 ^ j, d) else (n, d * 10 ^ (- j)).

Definition nb_digits (k : Z) : Z :=
  Z.of_nat (Decimal.nb_digits (N.to_uint (Z.to_N k))).

(** The [t] with [10^(t-1) <= n/d < 10^t]. *)
Definition dec_exponent (n d : Z) : Z :=
  let l := nb_digits n - nb_digits d in
  let '(a, b) := dscale n d (- l) in
  if b <=? a then l + 1 else l.

(** Does the decimal [c * 10^j] read back as [x]? *)
Definition reads_back (x : spec_float) (c j : Z) : bool :=
  let '(a, b) := dscale c 1 j in
  match nearest false (Z.to_pos a) (Z.to_pos b) with
  | Some y => eqb x y
  | None => false
  end.

(** The decimal with [p] significant digits chosen for the positive
    float [x = n/d], if one reads back: the coefficient and the exponent
    of its unit. *)
Definition candidate (x : spec_float) (n d t p : Z) : option (Z * Z) :=
  let '(a, b) := dscale n d (p - t) in
  let lo := a / b in
  let r := a mod b in
  if r =? 0 then Some (lo, t - p)
  else
    match reads_back x lo (t - p), reads_back x (lo + 1) (t - p) with
    | true, true =>
        match 2 * r ?= b with
        | Lt => Some (lo, t - p)
        | Gt => Some (lo + 1, t - p)
        | Eq => Some (if Z.even lo then lo else lo + 1, t - p)
        end
    | true, false => Some (lo, t - p)
    | false, true => Some (lo + 1, t - p)
    | false, false => None
    end.

(** Try [p], [p+1], ... significant digits; 17 always suffice for a
    binary64, and the 17-digit rounding is what is left when the fuel
    ends. *)
Fixpoint shortest (fuel : nat) (x : spec_float) (n d t p : Z) : Z * Z :=
  match fuel with
  | O => let '(a, b) := dscale n d (p - t) in (rne_div a b, t - p)
  | S fuel' =>
      match candidate x n d t p with
      | Some c => c
      | None => shortest fuel' x n d t (p + 1)
      end
  end.

Fixpoint strip_zeros (fuel : nat) (c : Z) : Z :=
  match fuel with
  | O => c
  | S fuel' => if c mod 10 =? 0 then strip_zeros fuel' (c / 10) else c
  end.

(** The digits of the shortest decimal of a positive finite float and
    the position of its decimal point: the value is
    [0.d1d2...dn * 10^decpt]. *)
Definition digits (m : positive) (e : Z) : string * Z :=
  let '(n, d) := frac m e in
  let t := dec_exponent n d in
  let '(c, j) := shortest 16 (S754_finite false m e) n d t 1 in
  let ds := NilZero.string_of_uint (N.to_uint (Z.to_N (strip_zeros 17 c))) in
  (ds, nb_digits c + j).

Fixpoint zeros (k : nat) : string :=
  match k with
  | O => EmptyString
  | S k' => String "0" (zeros k')
  end.

Definition str_int (z : Z) : string := NilZero.string_of_int (Z.to_int z).

Definition layout (ds : string) (decpt : Z) : string :=
  let n := Z.of_nat (String.length ds) in
  if (decpt <=? -4) || (16 <? decpt) then
    let ex := decpt - 1 in
    let mant :=
      match ds with
      | String c EmptyString => ds
      | String c rest => String c (String "." rest)
      | EmptyString => ds
      end in
    let sgn := if ex <? 0 then "-" else "+" in
    let pad := if Z.abs ex <? 10 then "0" else "" in
    (mant ++ "e" ++ sgn ++ pad ++ str_int (Z.abs ex))%string
  else if decpt <=? 0 then
    ("0." ++ zeros (Z.to_nat (- decpt)) ++ ds)%string
  else if n <=? decpt then
    (ds ++ zeros (Z.to_nat (decpt - n)) ++ ".0")%string
  else
    (substring 0 (Z.to_nat decpt) ds ++ "."
       ++ substring (Z.to_nat decpt) (Z.to_nat (n - decpt)) ds)%string.

Definition repr (x : spec_float) : string :=
  match x with
  | S754_nan => "nan"
  | S754_infinity s => if s then "-inf" else "inf"
  | S754_zero s => if s then "-0.0" else "0.0"
  | S754_finite s m e =>
      let '(ds, decpt) := digits m e in
      ((if s then "-" else "") ++ layout ds decpt)%string
  end.

End PyFloat.

(** ** Static configuration (lines 45-60) *)

Definition stickers_per_slide : Z := 6.
Definition total_stickers : Z := 120.

(** ** Index mapper (lines 157-166) *)

(** [math.ceil(sticker_index / stickers_per_slide)] *)
Definition slide_index_of (sticker_index : Z) : result Z :=
  rbind (PyFloat.truediv sticker_index stickers_per_slide) PyFloat.ceil.

(** [((sticker_index - 1) % stickers_per_slide) + 1] *)
Definition pos_in_slide_of (sticker_index : Z) : Z :=
  ((sticker_index - 1) mod stickers_per_slide) + 1.

(** ** Strings

    A Python [str] is modelled by a [string] whose characters are the code
    points 0-255. *)

(** [c.isspace()] on that range: TAB, LF, VT, FF, CR, the four separators
    FS, GS, RS, US, the space, NEL and the no-break space. *)
Definition is_space (c : ascii) : bool :=
  let n := Z.of_nat (nat_of_ascii c) in
  ((9 <=? n) && (n <=? 13)) || ((28 <=? n) && (n <=? 32))
  || (n =? 133) || (n =? 160).

Fixpoint lstrip (s : string) : string :=
  match s with
  | EmptyString => EmptyString
  | String c r => if is_space c then lstrip r else s
  end.

Fixpoint rstrip (s : string) : string :=
  match s with
  | EmptyString => EmptyString
  | String c r =>
      match rstrip r with
      | EmptyString => if is_space c then EmptyString else String c EmptyString
      | r' => String c r'
      end
  end.

(** [s.strip()] *)
Definition strip (s : string) : string := rstrip (lstrip s).

(** [needle in hay] for strings. *)
Fixpoint str_contains (needle hay : string) : bool :=
  String.prefix needle hay
  || match hay with
     | EmptyString => false
     | String _ r => str_contains needle r
     end.

(** [x in l] for a list of strings. *)
Definition str_in (x : string) (l : list string) : bool :=
  existsb (String.eqb x) l.

(** [f"{n:02d}"]: decimal, zero-padded on the left to a width of at
    least two. *)
Definition fmt_02d (n : Z) : string :=
  let s := PyFloat.str_int (Z.abs n) in
  let pad := if (String.length s <? 2)%nat then "0" else "" in
  if n <? 0 then ("-" ++ s)%string else (pad ++ s)%string.

(** ** Cell values and the value formatter *)

(** What [ws.Cells(row, col).Value] can return: nothing, a boolean, an
    integer, a double, a string, or another object (a date, a currency
    amount) of which only [str()] matters here. *)
Inductive pyval : Type :=
| VNone
| VBool (b : bool)
| VInt (z : Z)
| VFloat (x : spec_float)
| VStr (s : string)
| VObj (s : string).

(** [str(val)] *)
Definition py_str (val : pyval) : string :=
  match val with
  | VNone => "None"
  | VBool b => if b then "True" else "False"
  | VInt z => PyFloat.str_int z
  | VFloat x => PyFloat.repr x
  | VStr s => s
  | VObj s => s
  end.

(** [isinstance(val, (int, float))]; [bool] is a subclass of [int]. *)
Definition is_number (val : pyval) : bool :=
  match val with
  | VBool _ | VInt _ | VFloat _ => true
  | _ => false
  end.

(** [float(val)], [int(val)] and [str(round(val, 2))] for a number. *)
Definition py_float (val : pyval) : result spec_float :=
  match val with
  | VBool b => PyFloat.of_int (if b then 1 else 0)
  | VInt z => PyFloat.of_int z
  | VFloat x => Ok x
  | _ => Raise (mkExn ValueError "could not convert to float")
  end.

Definition py_int (val : pyval) : result Z :=
  match val with
  | VBool b => Ok (if b then 1 else 0)
  | VInt z => Ok z
  | VFloat x => PyFloat.to_int x
  | _ => Raise (mkExn ValueError "invalid literal for int()")
  end.

Definition str_round2 (val : pyval) : result string :=
  match val with
  | VBool b => Ok (PyFloat.str_int (if b then 1 else 0))
  | VInt z => Ok (PyFloat.str_int z)
  | VFloat x => rbind (PyFloat.round2 x) (fun r => Ok (PyFloat.repr r))
  | _ => Raise (mkExn ValueError "type doesn't define __round__ method")
  end.

(** The block "CLEAN VALUE" of [main] (lines 180-189, repeated at
    212-220 and 241-249): the text written for a cell value. *)
Definition clean_value (val : pyval) : result string :=
  match val with
  | VNone => Ok ""
  | _ =>
      if negb (str_in (strip (py_str val)) [""; "nan"; "None"]) then
        if is_number val then
          rbind (py_float val) (fun x =>
            if PyFloat.is_integer x then
              rbind (py_int val) (fun z => Ok (PyFloat.str_int z))
            else str_round2 val)
        else Ok (strip (py_str val))
      else Ok ""
  end.

(** ** Numbers of the layout tables *)

(** A Python number: the layout tables mix ints and floats. *)
Inductive pynum : Type :=
| PInt (z : Z)
| PFloat (x : spec_float).

(** [a + b] *)
Definition py_add (a b : pynum) : result pynum :=
  match a, b with
  | PInt x, PInt y => Ok (PInt (x + y))
  | PFloat x, PFloat y => Ok (PFloat (PyFloat.add x y))
  | PFloat x, PInt y =>
      rbind (PyFloat.of_int y) (fun fy => Ok (PFloat (PyFloat.add x fy)))
  | PInt x, PFloat y =>
      rbind (PyFloat.of_int x) (fun fx => Ok (PFloat (PyFloat.add fx y)))
  end.

(** [l[i]] with Python's negative indices and [IndexError]. *)
Definition py_index {A} (l : list A) (i : Z) : result A :=
  let n := Z.of_nat (List.length l) in
  let j := if i <? 0 then i + n else i in
  if (0 <=? j) && (j <? n) then
    match nth_error l (Z.to_nat j) with
    | Some a => Ok a
    | None => Raise (mkExn IndexError "list index out of range")
    end
  else Raise (mkExn IndexError "list index out of range").

(** Lines 48-60. *)
Definition FORCE_COORDS : bool := false.

Definition BASE_LEFTS : list pynum := [PInt 2; PInt 507].
Definition BASE_TOPS : list pynum := [PInt 63; PInt 245; PInt 420].

Definition POINT_SIZE : pynum * pynum :=
  (PFloat (PyFloat.lit 45043 100), PFloat (PyFloat.lit 3402 100)).
Definition LOTO_SIZE : pynum * pynum :=
  (PFloat (PyFloat.lit 3203 100), PFloat (PyFloat.lit 4110 100)).
Definition CABINET_SIZE : pynum * pynum :=
  (PFloat (PyFloat.lit 13412 100), PFloat (PyFloat.lit 2183 100)).

Definition POINT_FONT_SIZE : pynum := PInt 20.
Definition LOTO_FONT_SIZE : pynum := PInt 22.
Definition CABINET_FONT_SIZE : pynum := PInt 10.

(** [coords_for_position] (lines 87-94). *)
Definition coords_for_position (pos_index : Z) (size : pynum * pynum)
  : result (pynum * pynum * pynum * pynum) :=
  let idx := pos_index - 1 in
  let col := idx mod 2 in
  let row := idx / 2 in
  rbind (py_index BASE_LEFTS col) (fun left_ =>
  rbind (py_index BASE_TOPS row) (fun top_ =>
  let '(width, height) := size in
  Ok (left_, top_, width, height))).

(** ** The two hosts *)

(** The accesses to a shape that the presentation host may refuse. *)
Inductive com_op : Set :=
| GetOrientation   (* shp.TextFrame.Orientation *)
| SetText          (* shp.TextFrame.TextRange.Text = ... *)
| SetLeft | SetTop | SetWidth | SetHeight
| SetFontSize.     (* shp.TextFrame.TextRange.Font.Size = ... *)

(** A shape: its name, geometry, text frame, and the accesses the host
    refuses for it ([fault op = Some e]: the access raises [e]).  A shape
    without a text frame, or one whose text range has no font, is a shape
    whose text accesses are refused. *)
Record shape : Type := mkShape {
  shp_name : string;
  shp_left : pynum;
  shp_top : pynum;
  shp_width : pynum;
  shp_height : pynum;
  shp_orientation : Z;
  shp_text : string;
  shp_font_size : pynum;
  shp_fault : com_op -> option exn
}.

(** A reference to a shape object: the position of its slide and its
    position on the slide.  The script holds such references in [shp]. *)
Record ref : Set := mkRef { ref_slide : nat; ref_shape : nat }.

(** A property assignment on a shape. *)
Inductive setting : Type :=
| Text (s : string)
| Left (x : pynum)
| Top (x : pynum)
| Width (x : pynum)
| Height (x : pynum)
| FontSize (x : pynum).

Definition op_of (st : setting) : com_op :=
  match st with
  | Text _ => SetText
  | Left _ => SetLeft
  | Top _ => SetTop
  | Width _ => SetWidth
  | Height _ => SetHeight
  | FontSize _ => SetFontSize
  end.

Definition assign (st : setting) (s : shape) : shape :=
  match st with
  | Text v =>
      mkShape (shp_name s) (shp_left s) (shp_top s) (shp_width s)
        (shp_height s) (shp_orientation s) v (shp_font_size s) (shp_fault s)
  | Left v =>
      mkShape (shp_name s) v (shp_top s) (shp_width s)
        (shp_height s) (shp_orientation s) (shp_text s) (shp_font_size s)
        (shp_fault s)
  | Top v =>
      mkShape (shp_name s) (shp_left s) v (shp_width s)
        (shp_height s) (shp_orientation s) (shp_text s) (shp_font_size s)
        (shp_fault s)
  | Width v =>
      mkShape (shp_name s) (shp_left s) (shp_top s) v
        (shp_height s) (shp_orientation s) (shp_text s) (shp_font_size s)
        (shp_fault s)
  | Height v =>
      mkShape (shp_name s) (shp_left s) (shp_top s) (shp_width s)
        v (shp_orientation s) (shp_text s) (shp_font_size s) (shp_fault s)
  | FontSize v =>
      mkShape (shp_name s) (shp_left s) (shp_top s) (shp_width s)
        (shp_height s) (shp_orientation s) (shp_text s) v (shp_fault s)
  end.

(** The lines the script prints. *)
Inductive line : Type :=
| MissingSlide (slide_index : Z) (sticker_str : string)          (* line 162 *)
| MissingShape (name : string) (slide_index : Z)       (* lines 174, 209, 238 *)
| SetLine (name : string) (data_row col : Z) (val_text : string)
                                                       (* lines 191, 222, 251 *)
| Done.                                                          (* line 263 *)


(** What the script does to the outside, in order. *)
Inductive event : Type :=
| Sleep (delay : spec_float)                  (* time.sleep(delay) *)
| ReadCell (row col : Z)                      (* ws.Cells(row, col).Value *)
| FindShape (slide_index : Z) (name : string) (* slide.Shapes(name) *)
| SetProp (r : ref) (st : setting)            (* a property assignment *)
| Print (l : line).

(** The world: the worksheet cells; the answers of the spreadsheet host to
    the coming reads ([Some e]: the read raises [e]; [None], or no answer
    left: the read returns the cell); the slides of the presentation; the
    trace so far, oldest event first. *)
Record world : Type := mkWorld {
  cells : Z -> Z -> pyval;
  rejections : list (option exn);
  slides : list (list shape);
  trace : list event
}.

Fixpoint update_nth {A} (i : nat) (f : A -> A) (l : list A) : list A :=
  match l, i with
  | [], _ => []
  | a :: l', O => f a :: l'
  | a :: l', S i' => a :: update_nth i' f l'
  end.

(** The effect of an event on the slides: an assignment the host accepts
    changes one field of one shape; nothing else changes anything. *)
Definition attempt (st : setting) (s : shape) : shape :=
  match shp_fault s (op_of st) with
  | Some _ => s
  | None => assign st s
  end.

Definition apply_event (ev : event) (sl : list (list shape))
  : list (list shape) :=
  match ev with
  | SetProp r st =>
      update_nth (ref_slide r) (update_nth (ref_shape r) (attempt st)) sl
  | _ => sl
  end.

Definition replay (evs : list event) (sl : list (list shape))
  : list (list shape) :=
  fold_left (fun s ev => apply_event ev s) evs sl.

Definition get_shape (r : ref) (sl : list (list shape)) : option shape :=
  match nth_error sl (ref_slide r) with
  | Some shapes => nth_error shapes (ref_shape r)
  | None => None
  end.

(** ** The script as a state-and-exception computation *)

Definition M (A : Type) : Type := world -> result A * world.

Definition ret {A} (a : A) : M A := fun w => (Ok a, w).

Definition bind {A B} (m : M A) (k : A -> M B) : M B :=
  fun w =>
    match m w with
    | (Ok a, w') => k a w'
    | (Raise e, w') => (Raise e, w')
    end.

Definition raise {A} (e : exn) : M A := fun w => (Raise e, w).

Definition lift {A} (r : result A) : M A := fun w => (r, w).

(** [try: body / except Exception: pass] *)
Definition try_pass (body : M unit) : M unit :=
  fun w =>
    match body w with
    | (Raise _, w') => (Ok tt, w')
    | r => r
    end.

Declare Scope py_scope.
Delimit Scope py_scope with py.
Notation "x <- m ;; k" := (bind m (fun x => k))
  (at level 100, m at next level, right associativity) : py_scope.
Notation "' p <- m ;; k" := (bind m (fun x => let 'p := x in k))
  (at level 100, p pattern, m at next level, right associativity) : py_scope.
Notation "m ;; k" := (bind m (fun _ => k))
  (at level 100, right associativity) : py_scope.
Open Scope py_scope.

(** [for x in l: body x] *)
Fixpoint for_each {A} (l : list A) (body : A -> M unit) : M unit :=
  match l with
  | [] => ret tt
  | x :: l' => body x ;; for_each l' body
  end.

Definition emit (ev : event) : M unit :=
  fun w => (Ok tt, mkWorld (cells w) (rejections w) (slides w)
                     (trace w ++ [ev])).

(** *** Calls in no [try]

    The row loop asks the presentation host for the number of slides
    (line 161) and for a slide (line 165), and prints its lines, outside
    every [try]: what such a call raises leaves [main]. *)
Inductive request : Type :=
| SlidesCount                   (* ppt_pres.Slides.Count *)
| SlidesItem (slide_index : Z)  (* ppt_pres.Slides(slide_index) *)
| Console (l : line).           (* print(...) *)

(** What these calls meet: [h tr k = Some e] when, after the events [tr],
    the call [k] raises [e]. *)
Definition host : Type := list event -> request -> option exn.

(** The presentation host that answers every call, with a console that
    takes every line. *)
Definition answering : host := fun _ _ => None.

(** [print(...)] *)
Definition print (h : host) (l : line) : M unit :=
  fun w =>
    match h (trace w) (Console l) with
    | Some e => (Raise e, w)
    | None => emit (Print l) w
    end.

(** [try: body / except Exception as e: handler e] *)
Definition try_except {A} (body : M A) (handler : exn -> M A) : M A :=
  fun w =>
    match body w with
    | (Raise e, w') => handler e w'
    | r => r
    end.

(** *** Host calls *)

(** [ws.Cells(row, col).Value]: the host either rejects the call or
    returns the cell. *)
Definition cell_value (row col : Z) : M pyval :=
  fun w =>
    let tr := trace w ++ [ReadCell row col] in
    match rejections w with
    | Some e :: rest => (Raise e, mkWorld (cells w) rest (slides w) tr)
    | None :: rest =>
        (Ok (cells w row col), mkWorld (cells w) rest (slides w) tr)
    | [] => (Ok (cells w row col), mkWorld (cells w) [] (slides w) tr)
    end.

Definition gone : exn := mkExn com_error "The object does not exist.".

(** Whether the host accepts access [op] on the shape behind [r]. *)
Definition access (r : ref) (op : com_op) (sl : list (list shape))
  : result shape :=
  match get_shape r sl with
  | None => Raise gone
  | Some s =>
      match shp_fault s op with
      | Some e => Raise e
      | None => Ok s
      end
  end.

(** [shp.TextFrame.Orientation] *)
Definition com_get_orientation (r : ref) : M Z :=
  fun w => (rbind (access r GetOrientation (slides w))
              (fun s => Ok (shp_orientation s)), w).

(** A property assignment [shp.<property> = value]. *)
Definition com_set (r : ref) (st : setting) : M unit :=
  fun w =>
    (rbind (access r (op_of st) (slides w)) (fun _ => Ok tt),
     mkWorld (cells w) (rejections w)
       (apply_event (SetProp r st) (slides w))
       (trace w ++ [SetProp r st])).

(** [ppt_pres.Slides.Count] *)
Definition slides_count (h : host) : M Z :=
  fun w =>
    match h (trace w) SlidesCount with
    | Some e => (Raise e, w)
    | None => (Ok (Z.of_nat (List.length (slides w))), w)
    end.

(** [ppt_pres.Slides(slide_index)]: the slide, known by its number. *)
Definition get_slide (h : host) (slide_index : Z) : M Z :=
  fun w =>
    match h (trace w) (SlidesItem slide_index) with
    | Some e => (Raise e, w)
    | None =>
        if (1 <=? slide_index)
           && (slide_index <=? Z.of_nat (List.length (slides w)))
        then (Ok slide_index, w)
        else (Raise (mkExn com_error "Slides.Item : Integer out of range."),
              w)
    end.

(** The shapes of the slide of that number, when there is one. *)
Definition slide_shapes {A} (sl : list (list A)) (slide : Z)
  : option (list A) :=
  if 1 <=? slide then nth_error sl (Z.to_nat (slide - 1)) else None.

(** The host is taken to look a shape up by its exact name and to answer
    the first one. *)
Fixpoint find_shape (name : string) (shapes : list shape) : option nat :=
  match shapes with
  | [] => None
  | s :: rest =>
      if String.eqb (shp_name s) name then Some O
      else option_map S (find_shape name rest)
  end.

(** *** [safe_cell] (lines 10-21) *)

Definition exhausted (retries row col : Z) : exn :=
  mkExn RuntimeError
    ("Excel did not respond after " ++ PyFloat.str_int retries
       ++ " retries for cell (" ++ PyFloat.str_int row ++ ", "
       ++ PyFloat.str_int col ++ ")")%string.

(** [time.sleep(secs)] for a float, as CPython 3.11 converts its
    argument: NaN is refused; the seconds are scaled to nanoseconds in
    binary64 and rounded away from zero to an integer, which must fit a
    signed 64-bit integer; a negative length is refused.  (A length of
    exactly [2^63] nanoseconds passes the range test and wraps to the least
    integer on conversion, so it is refused as negative.) *)
Definition sleep_error (secs : spec_float) : option exn :=
  match secs with
  | S754_nan => Some (mkExn ValueError "Invalid value NaN (not a number)")
  | _ =>
      let d := SFmul 53 1024 secs (PyFloat.lit 1000000000 1) in
      let top := PyFloat.lit 9223372036854775808 1 in
      if SFleb (SFopp top) d && SFleb d top then
        if SFltb d (S754_zero false) || SFeqb d top then
          Some (mkExn ValueError "sleep length must be non-negative")
        else None
      else
        Some (mkExn OverflowError
                "timestamp too large to convert to C _PyTime_t")
  end.

Definition sleep (secs : spec_float) : M unit :=
  match sleep_error secs with
  | Some e => raise e
  | None => emit (Sleep secs)
  end.

Fixpoint safe_cell_loop (n : nat) (row col retries : Z) (delay : spec_float)
  : M pyval :=
  match n with
  | O => raise (exhausted retries row col)
  | S n' =>
      try_except (cell_value row col) (fun e =>
        if str_contains "Call was rejected by callee" (exc_str e) then
          sleep delay ;; safe_cell_loop n' row col retries delay
        else raise e)
  end.

Definition safe_cell (row col : Z) (retries : Z) (delay : spec_float)
  : M pyval :=
  safe_cell_loop (Z.to_nat retries) row col retries delay.

(** The defaults [retries=5, delay=0.2], which every call of [main] uses. *)
Definition default_retries : Z := 5.
Definition default_delay : spec_float := PyFloat.lit 2 10.

(** *** [apply_coords] (lines 96-101) *)
Definition apply_coords (shp : ref) (coords : pynum * pynum * pynum * pynum)
  : M unit :=
  let '(left_, top_, width, height) := coords in
  com_set shp (Left left_) ;;
  com_set shp (Top top_) ;;
  com_set shp (Width width) ;;
  com_set shp (Height height).

(** *** [apply_font_size] (lines 103-112) *)
Definition apply_font_size (shp : ref) (size_pt : pynum) : M unit :=
  try_pass (com_set shp (FontSize size_pt)).

(** *** [safe_shape] (lines 114-119): the shape of that name on the slide,
    or [None]. *)

Definition not_found : exn :=
  mkExn com_error "Shapes.Item : Item not found in the Shapes collection.".

(** [slide.Shapes(name)] *)
Definition shapes_item (slide : Z) (name : string) : M ref :=
  emit (FindShape slide name) ;;
  fun w =>
    match slide_shapes (slides w) slide with
    | Some shapes =>
        match find_shape name shapes with
        | Some j => (Ok (mkRef (Z.to_nat (slide - 1)) j), w)
        | None => (Raise not_found, w)
        end
    | None => (Raise gone, w)
    end.

Definition safe_shape (slide : Z) (name : string) : M (option ref) :=
  try_except (shp <- shapes_item slide name ;; ret (Some shp))
    (fun _ => ret None).

(** *** The text write of [main] (lines 193-198, 224-228, 253-257) *)
Definition write_text (shp : ref) (val_text : string) : M unit :=
  try_pass (
    o <- com_get_orientation shp ;;
    if negb ((o =? 3) || (o =? 4)) then com_set shp (Text val_text)
    else ret tt).

(** *** The row loop of [main] (lines 156-263) *)

Section Main.

(** The presentation host and the console. *)
Variable h : host.

(** The flag of line 48; the script ships with [FORCE_COORDS]. *)
Variable force_coords : bool.

(** What the three blocks of a sticker share: find the shape, warn when
    it is missing, else read the cell, clean the value, print the line
    and write the text; [after] is what the block does then. *)
Definition fill_on (slide slide_index : Z) (name : string) (data_row col : Z)
           (after : ref -> M unit) : M unit :=
  shp <- safe_shape slide name ;;
  match shp with
  | None => print h (MissingShape name slide_index)
  | Some shp =>
      val <- safe_cell data_row col default_retries default_delay ;;
      val_text <- lift (clean_value val) ;;
      print h (SetLine name data_row col val_text) ;;
      write_text shp val_text ;;
      after shp
  end.

(** Lines 168-203. *)
Definition points_on (slide slide_index : Z) (sticker_str : string)
           (data_row pos_in_slide : Z) : M unit :=
  for_each (combine (py_range 9 13) (py_range 1 5)) (fun '(col, point_num) =>
    let idx_str := fmt_02d point_num in
    let name := ("Point " ++ sticker_str ++ "." ++ idx_str)%string in
    fill_on slide slide_index name data_row col (fun shp =>
      if force_coords then
        ' (left_, top_, width, height) <-
          lift (coords_for_position pos_in_slide CABINET_SIZE) ;;
        width40 <- lift (py_add width (PInt 40)) ;;
        apply_coords shp (left_, top_, width40, height)
      else ret tt)).

(** Lines 205-232. *)
Definition loto_amount_on (slide slide_index : Z) (sticker_str : string)
           (data_row pos_in_slide : Z) : M unit :=
  let name := ("LOTO Amount " ++ sticker_str)%string in
  fill_on slide slide_index name data_row 13 (fun shp =>
    if force_coords then
      coords <- lift (coords_for_position pos_in_slide LOTO_SIZE) ;;
      apply_coords shp coords ;;
      apply_font_size shp LOTO_FONT_SIZE
    else ret tt).

(** Lines 234-261. *)
Definition cabinet_on (slide slide_index : Z) (sticker_str : string)
           (data_row pos_in_slide : Z) : M unit :=
  let name := ("Cabinet " ++ sticker_str)%string in
  fill_on slide slide_index name data_row 14 (fun shp =>
    (if force_coords then
       coords <- lift (coords_for_position pos_in_slide CABINET_SIZE) ;;
       apply_coords shp coords
     else ret tt) ;;
    apply_font_size shp CABINET_FONT_SIZE).

(** The body of the row loop. *)
Definition sticker_on (data_row : Z) : M unit :=
  let sticker_index := data_row - 2 in
  let sticker_str := fmt_02d sticker_index in
  slide_index <- lift (slide_index_of sticker_index) ;;
  count <- slides_count h ;;
  if count <? slide_index then
    print h (MissingSlide slide_index sticker_str)
  else
    slide <- get_slide h slide_index ;;
    let pos_in_slide := pos_in_slide_of sticker_index in
    points_on slide slide_index sticker_str data_row pos_in_slide ;;
    loto_amount_on slide slide_index sticker_str data_row pos_in_slide ;;
    cabinet_on slide slide_index sticker_str data_row pos_in_slide.

Definition main_on : M unit :=
  for_each (py_range 3 (total_stickers + 3)) sticker_on ;;
  print h Done.

End Main.

(** The row loop when the presentation host answers every call and the
    console takes every line. *)
Definition fill : Z -> Z -> string -> Z -> Z -> (ref -> M unit) -> M unit :=
  fill_on answering.
Definition points : bool -> Z -> Z -> string -> Z -> Z -> M unit :=
  points_on answering.
Definition loto_amount : bool -> Z -> Z -> string -> Z -> Z -> M unit :=
  loto_amount_on answering.
Definition cabinet : bool -> Z -> Z -> string -> Z -> Z -> M unit :=
  cabinet_on answering.
Definition sticker : bool -> Z -> M unit := sticker_on answering.
Definition main : bool -> M unit := main_on answering.

(** ** Predicates used in the statements *)

(** The values the spreadsheet host hands over: its integers fit the
    64-bit integer types of the host interface, its doubles are binary64
    numbers. *)
Definition host_value (v : pyval) : Prop :=
  match v with
  | VInt z => - 2 ^ 63 <= z < 2 ^ 64
  | VFloat x => valid_binary 53 1024 x = true
  | _ => True
  end.

(** The sentinel test of the formatter. *)
Definition sentinel (v : pyval) : bool :=
  str_in (strip (py_str v)) [""; "nan"; "None"].

(** A first character that is neither white space nor the first character
    of ["nan"] or ["None"]. *)
Definition plain_head (s : string) : bool :=
  match s with
  | EmptyString => false
  | String c _ =>
      negb (is_space c) && negb (Ascii.eqb c "n") && negb (Ascii.eqb c "N")
  end.

(** The rejection [safe_cell] retries on. *)
Definition transient (e : exn) : bool :=
  str_contains "Call was rejected by callee" (exc_str e).

(** The events of [k] rejected attempts on a cell: a read and a sleep
    each. *)
Definition retry_events (row col : Z) (delay : spec_float) (k : nat)
  : list event :=
  List.concat (repeat [ReadCell row col; Sleep delay] k).

(** The delays slept and the cells read in a trace. *)
Definition sleeps (tr : list event) : list spec_float :=
  flat_map (fun ev => match ev with Sleep d => [d] | _ => [] end) tr.

Definition reads (tr : list event) : list (Z * Z) :=
  flat_map (fun ev => match ev with ReadCell r c => [(r, c)] | _ => [] end) tr.

(** ** What a run depends on

    The script reads nothing back from a shape but its name, its text
    orientation and whether the host accepts an access; it only assigns the
    other fields.  The frame of the slides is what is left when the
    assigned fields are blanked. *)
Definition erase_shape (s : shape) : shape :=
  mkShape (shp_name s) (PInt 0) (PInt 0) (PInt 0) (PInt 0)
    (shp_orientation s) "" (PInt 0) (shp_fault s).

Definition frame (sl : list (list shape)) : list (list shape) :=
  map (map erase_shape) sl.

(** [spec c fr rj m Q]: started on cells [c], on slides of frame [fr] and
    with the host answers [rj], the computation [m] has one outcome
    whatever the assigned fields hold: a result [r], events [evs] appended
    to the trace and replayed on the slides, and the answers [rj'] left;
    and [Q r evs rj'] holds. *)
Definition spec {A} (c : Z -> Z -> pyval) (fr : list (list shape))
           (rj : list (option exn)) (m : M A)
           (Q : result A -> list event -> list (option exn) -> Prop) : Prop :=
  exists r evs rj',
    Q r evs rj'
    /\ forall sl tr,
        frame sl = fr ->
        m (mkWorld c rj sl tr)
        = (r, mkWorld c rj' (replay evs sl) (tr ++ evs)).

(** A computation whose outcome is determined in that way. *)
Definition regular {A} (m : M A) : Prop :=
  forall c fr rj, spec c fr rj m (fun _ _ _ => True).

(** An event that assigns nothing. *)
Definition silent (ev : event) : Prop :=
  match ev with
  | SetProp _ _ => False
  | _ => True
  end.

(** The shape found on a slide of the frame, as [safe_shape] finds it. *)
Definition lookup (fr : list (list shape)) (slide : Z) (name : string)
  : option ref :=
  match slide_shapes fr slide with
  | Some shapes =>
      option_map (mkRef (Z.to_nat (slide - 1))) (find_shape name shapes)
  | None => None
  end.

(** The events of a cell read: reads of that cell, and sleeps. *)
Definition cell_event (row col : Z) (ev : event) : Prop :=
  match ev with
  | ReadCell r c => r = row /\ c = col
  | Sleep _ => True
  | _ => False
  end.

(** An assignment to the shape behind [shp]. *)
Definition sets (shp : ref) (ev : event) : Prop :=
  match ev with
  | SetProp r _ => r = shp
  | _ => False
  end.

(** The events of one field of a sticker once its shape was looked up:
    reads of the bound cell and sleeps, the two lines naming the field,
    and assignments to the shape found under the field's name. *)
Definition field_event (target : option ref) (slide_index : Z)
           (name : string) (row col : Z) (ev : event) : Prop :=
  match ev with
  | FindShape _ _ => False
  | ReadCell r c => r = row /\ c = col
  | Sleep _ => True
  | SetProp r _ => target = Some r
  | Print (SetLine nm r c _) => nm = name /\ r = row /\ c = col
  | Print (MissingShape nm s) => nm = name /\ s = slide_index
  | Print _ => False
  end.

(** The events of one field: the lookup of the shape by its name on the
    slide, then events of that field only. *)
Definition field_group (fr : list (list shape)) (slide : Z) (name : string)
           (row col : Z) (evs : list event) : Prop :=
  exists rest,
    evs = FindShape slide name :: rest
    /\ Forall (field_event (lookup fr slide name) slide name row col) rest.

(** Every cell holds a value the host can hand over. *)
Definition host_cells (c : Z -> Z -> pyval) : Prop :=
  forall row col, host_value (c row col).

(** The host accepts the four geometry assignments on every shape. *)
Definition geometry_accepted (fr : list (list shape)) : Prop :=
  forall r s, get_shape r fr = Some s ->
    shp_fault s SetLeft = None /\ shp_fault s SetTop = None
    /\ shp_fault s SetWidth = None /\ shp_fault s SetHeight = None.

(** What keeps the geometry writes of a sticker at position [pos] from
    failing: the position is on the grid and, when the flag is on, the
    host accepts the assignments. *)
Definition geometry_fine (force_coords : bool) (fr : list (list shape))
           (pos : Z) : Prop :=
  1 <= pos <= 6 /\ (force_coords = true -> geometry_accepted fr).

(** The events of one sticker [n] whose slide exists: the six fields in
    order, each looked up on the slide [ceil(n/6)] under its name and
    bound to its column of row [n + 2]. *)
Definition sticker_events (fr : list (list shape)) (n : Z)
           (evs : list event) : Prop :=
  let s := (n + 5) / 6 in
  let nn := fmt_02d n in
  let row := n + 2 in
  exists g1 g2 g3 g4 g5 g6,
    evs = g1 ++ g2 ++ g3 ++ g4 ++ g5 ++ g6
    /\ field_group fr s ("Point " ++ nn ++ ".01")%string row 9 g1
    /\ field_group fr s ("Point " ++ nn ++ ".02")%string row 10 g2
    /\ field_group fr s ("Point " ++ nn ++ ".03")%string row 11 g3
    /\ field_group fr s ("Point " ++ nn ++ ".04")%string row 12 g4
    /\ field_group fr s ("LOTO Amount " ++ nn)%string row 13 g5
    /\ field_group fr s ("Cabinet " ++ nn)%string row 14 g6.

(** ** Sample worlds *)

(** The rejection of a busy host, as [str(e)] shows it. *)
Definition rejected : exn :=
  mkExn com_error "(-2147418111, 'Call was rejected by callee.', None, None)".

Definition no_fault : com_op -> option exn := fun _ => None.

(** A horizontal, empty text box of 12 points. *)
Definition text_box (name : string) : shape :=
  mkShape name (PInt 0) (PInt 0) (PInt 0) (PInt 0) 1 "" (PInt 12) no_fault.

(** A worksheet holding a label in every cell, and a host that rejects
    the first three calls. *)
Definition busy_world : world :=
  mkWorld (fun _ _ => VStr "Valve 7") [Some rejected; Some rejected;
                                       Some rejected; None] [] [].

Definition label_cells : Z -> Z -> pyval := fun _ _ => VStr "Valve 7".



(** One slide holding the cabinet label of sticker 1. *)
Definition cabinet_world : world :=
  mkWorld label_cells [] [[text_box "Cabinet 01"]] [].

(** One slide holding one shape of each kind for sticker 1. *)
Definition three_fields_world : world :=
  mkWorld label_cells []
    [[text_box "Point 01.01"; text_box "LOTO Amount 01";
      text_box "Cabinet 01"]] [].


(** Twenty empty slides. *)
Definition empty_deck : world :=
  mkWorld label_cells [] (repeat [] 20) [].

(** Three slides; the third holds the six shapes of sticker 13. *)
Definition sticker_13_world : world :=
  mkWorld label_cells []
    [[]; [];
     [text_box "Point 13.01"; text_box "Point 13.02"; text_box "Point 13.03";
      text_box "Point 13.04"; text_box "LOTO Amount 13";
      text_box "Cabinet 13"]] [].

(** The lines of a trace, and the lines that name a shape. *)
Definition lines (tr : list event) : list line :=
  flat_map (fun ev => match ev with Print l => [l] | _ => [] end) tr.


(** The shape lookups of a trace. *)
Definition finds (tr : list event) : list (Z * string) :=
  flat_map (fun ev => match ev with FindShape s n => [(s, n)] | _ => [] end)
    tr.

(** ** Further notions for the properties of the whole script *)

(** The six shape names of sticker [n], as lines 171, 206 and 235 build
    them. *)
Definition field_names (n : Z) : list string :=
  let nn := fmt_02d n in
  [("Point " ++ nn ++ "." ++ fmt_02d 1)%string;
   ("Point " ++ nn ++ "." ++ fmt_02d 2)%string;
   ("Point " ++ nn ++ "." ++ fmt_02d 3)%string;
   ("Point " ++ nn ++ "." ++ fmt_02d 4)%string;
   ("LOTO Amount " ++ nn)%string;
   ("Cabinet " ++ nn)%string].

(** A list of strings without a repetition. *)
Fixpoint distinct (l : list string) : bool :=
  match l with
  | [] => true
  | x :: r => negb (str_in x r) && distinct r
  end.

(** The corner of the grid slot of a sticker: its slide, left and top. *)
Definition corner (n : Z) : result (Z * pynum * pynum) :=
  rbind (slide_index_of n) (fun s =>
  rbind (coords_for_position (pos_in_slide_of n) CABINET_SIZE)
    (fun '(l, t, _, _) => Ok (s, l, t))).

Definition pynum_eqb (a b : pynum) : bool :=
  match a, b with
  | PInt x, PInt y => x =? y
  | PFloat x, PFloat y => PyFloat.eqb x y
  | _, _ => false
  end.

(** The assignments of [apply_coords]. *)
Definition is_geometry (st : setting) : bool :=
  match st with
  | Left _ | Top _ | Width _ | Height _ => true
  | _ => false
  end.

Definition geometry_event (ev : event) : Prop :=
  match ev with
  | SetProp _ st => is_geometry st = true
  | _ => False
  end.

(** The rectangle of a shape. *)
Definition geometry_of (s : shape) : pynum * pynum * pynum * pynum :=
  (shp_left s, shp_top s, shp_width s, shp_height s).

(** What the pass over sticker [n] may do: sleep the default delay, read
    its row in the columns 9 to 14, look up one of its six names on its
    slide, print a line about its slide or one of its names, write the
    formatted value of one of its cells as a text, set the cabinet font
    size, and, under the flag only, set a coordinate or the count font
    size.  It never prints the closing line. *)
Definition allowed (force_coords : bool) (c : Z -> Z -> pyval) (n : Z)
           (ev : event) : Prop :=
  match ev with
  | Sleep d => d = default_delay
  | ReadCell r col => r = n + 2 /\ 9 <= col <= 14
  | FindShape s name => s = (n + 5) / 6 /\ In name (field_names n)
  | SetProp _ (Text v) =>
      exists col, 9 <= col <= 14 /\ clean_value (c (n + 2) col) = Ok v
  | SetProp _ (FontSize x) =>
      x = CABINET_FONT_SIZE \/ (force_coords = true /\ x = LOTO_FONT_SIZE)
  | SetProp _ _ => force_coords = true
  | Print Done => False
  | Print (MissingSlide s nn) => s = (n + 5) / 6 /\ nn = fmt_02d n
  | Print (MissingShape name s) =>
      In name (field_names n) /\ s = (n + 5) / 6
  | Print (SetLine name r col v) =>
      In name (field_names n) /\ r = n + 2 /\ 9 <= col <= 14
      /\ clean_value (c r col) = Ok v
  end.

(** What a run may do before its closing line: what the pass over one of
    its stickers may do. *)
Definition allowed_in_run (force_coords : bool) (c : Z -> Z -> pyval)
           (ev : event) : Prop :=
  exists n, 1 <= n <= total_stickers /\ allowed force_coords c n ev.

(** A string without white space. *)
Fixpoint plain (s : string) : bool :=
  match s with
  | EmptyString => true
  | String c r => negb (is_space c) && plain r
  end.

(** Why a run can fail when the presentation host answers: a cell of the
    source range was rejected five times in a row, or the spreadsheet host
    answered a read with an exception that is not the transient
    rejection. *)
Definition cause (e : exn) (rj : list (option exn)) : Prop :=
  (exists row col,
      3 <= row <= total_stickers + 2 /\ 9 <= col <= 14
      /\ e = exhausted default_retries row col
      /\ exists pre es post,
          rj = pre ++ map Some es ++ post
          /\ List.length es = Z.to_nat default_retries
          /\ Forall (fun e0 => transient e0 = true) es)
  \/ (transient e = false /\ In (Some e) rj).



(** An exception of the presentation host or of the console. *)
Definition refusal (h : host) (e : exn) : Prop :=
  exists tr k, h tr k = Some e.

(** [follows h m' m]: [m'] does what [m] does, unless it is cut short by
    an exception of [h]. *)
Definition follows {A} (h : host) (m' m : M A) : Prop :=
  forall w,
    m' w = m w \/ exists e w', m' w = (Raise e, w') /\ refusal h e.

(** [outcome c fr rj m Pa]: [m] uses up host answers from the front, its
    value satisfies [Pa], and its failures have a [cause]. *)
Definition outcome {A} (c : Z -> Z -> pyval) (fr : list (list shape))
           (rj : list (option exn)) (m : M A) (Pa : A -> Prop) : Prop :=
  spec c fr rj m (fun r _ rj' =>
    (exists pre, rj = pre ++ rj')
    /\ match r with
       | Ok a => Pa a
       | Raise e => cause e rj
       end).

(** A worksheet host that rejects five reads in a row, and a slide with
    the first point label. *)
Definition stuck_world : world :=
  mkWorld label_cells (repeat (Some rejected) 5) [[text_box "Point 01.01"]] [].


(** A presentation host that is busy when asked for the second slide. *)
Definition busy_at_slide_2 : host :=
  fun _ k =>
    match k with
    | SlidesItem 2 => Some rejected
    | _ => None
    end.

(** ** Start-up: [attach_office] (lines 75-85) and lines 127-153 of [main] *)

(** Lines 42-43. *)
Definition excel_file_path : string :=
  "C:\LOTO PLACARDS FC08\LOTO Updating Tool FCO8.xlsm".
Definition ppt_file_url : string :=
  "C:\LOTO PLACARDS FC08\PLC30 - Inbound 1\03. LOTO Information Sticker\PLC30 LOTO Information 114 Stickers_Template.pptx".

(** An application object of an Office host: the instance and whether
    its window is shown. *)
Record application : Set := mkApp { app_instance : Z; app_visible : bool }.

(** A workbook: its sheets by name, each sheet being its cells. *)
Definition workbook : Type := string -> result (Z -> Z -> pyval).

(** The desktop: what each host call of the start-up answers. *)
Record desktop : Type := mkDesktop {
  rebuild : option exn;                    (* gencache.Rebuild() *)
  active_object : string -> result application;    (* win32.GetActiveObject(progid) *)
  ensure_dispatch : string -> result application;  (* gencache.EnsureDispatch(progid) *)
  show : application -> option exn;                (* app.Visible = True *)
  workbooks_open : application -> string -> result workbook;
                                           (* excel.Workbooks.Open(path) *)
  active_workbook : application -> result workbook;  (* excel.ActiveWorkbook *)
  presentations_open : application -> string -> result (list (list shape));
                             (* ppt.Presentations.Open(url, WithWindow=True) *)
  answers : list (option exn)              (* the answers to the cell reads *)
}.

(** The host calls of the start-up, in the order they are made. *)
Inductive call : Set :=
| Rebuild
| GetActiveObject (progid : string)
| EnsureDispatch (progid : string)
| SetVisible (progid : string)  (* app.Visible = True, on the one launched *)
| WorkbooksOpen (path : string)
| ActiveWorkbook
| Sheets (name : string)
| PresentationsOpen (url : string).

(** The error of line 85. *)
Definition attach_failed (app_name : string) (e : exn) : exn :=
  mkExn RuntimeError
    ("Failed to start/attach to " ++ app_name ++ ": " ++ exc_str e)%string.

(** [attach_office] (lines 75-85): the running instance, else a launched
    one made visible. *)
Definition attach_office (d : desktop) (app_name : string)
           (cs : list call) : result application * list call :=
  let progid := (app_name ++ ".Application")%string in
  let cs1 := cs ++ [GetActiveObject progid] in
  match active_object d progid with
  | Ok a => (Ok a, cs1)
  | Raise _ =>
      let cs2 := cs1 ++ [EnsureDispatch progid] in
      match ensure_dispatch d progid with
      | Raise e => (Raise (attach_failed app_name e), cs2)
      | Ok a =>
          let cs3 := cs2 ++ [SetVisible progid] in
          match show d a with
          | Some e => (Raise (attach_failed app_name e), cs3)
          | None => (Ok (mkApp (app_instance a) true), cs3)
          end
      end
  end.

(** The errors of lines 139-142 and 151-153. *)
Definition workbook_failed (e : exn) : exn :=
  mkExn RuntimeError
    ("Failed to open workbook. If it's on SharePoint/OneDrive, "
       ++ "sync locally or ensure Office is authenticated. "
       ++ exc_str e)%string.

Definition presentation_failed (e : exn) : exn :=
  mkExn RuntimeError
    ("Failed to open PowerPoint file. Ensure path/URL is reachable by PowerPoint: "
       ++ exc_str e)%string.

Definition sheet_name : string := "Info_Tags_PLC30_FCO8".

(** Lines 127-153 of [main]: the worksheet and the slides the row loop
    works on. *)
Definition startup (d : desktop)
  : result ((Z -> Z -> pyval) * list (list shape)) * list call :=
  let cs0 := [Rebuild] in
  match rebuild d with
  | Some e => (Raise e, cs0)
  | None =>
      match attach_office d "Excel" cs0 with
      | (Raise e, cs1) => (Raise e, cs1)
      | (Ok excel, cs1) =>
          let opened :=
            if String.eqb excel_file_path "" then
              (active_workbook d excel, cs1 ++ [ActiveWorkbook])
            else
              (workbooks_open d excel excel_file_path,
               cs1 ++ [WorkbooksOpen excel_file_path]) in
          match opened with
          | (Raise e, cs2) => (Raise (workbook_failed e), cs2)
          | (Ok wb, cs2) =>
              let cs3 := cs2 ++ [Sheets sheet_name] in
              match wb sheet_name with
              | Raise e => (Raise e, cs3)
              | Ok ws =>
                  match attach_office d "PowerPoint" cs3 with
                  | (Raise e, cs4) => (Raise e, cs4)
                  | (Ok ppt, cs4) =>
                      let cs5 := cs4 ++ [PresentationsOpen ppt_file_url] in
                      match presentations_open d ppt ppt_file_url with
                      | Raise e => (Raise (presentation_failed e), cs5)
                      | Ok pres => (Ok (ws, pres), cs5)
                      end
                  end
              end
          end
      end
  end.

(** [main] as a whole: the start-up, then the row loop on what was
    opened. *)
Definition script (h : host) (force_coords : bool) (d : desktop)
  : result unit * list call * option world :=
  match startup d with
  | (Ok (ws, pres), cs) =>
      let '(r, w) :=
        main_on h force_coords (mkWorld ws (answers d) pres []) in
      (r, cs, Some w)
  | (Raise e, cs) => (Raise e, cs, None)
  end.

(** A call to the presentation host. *)
Definition powerpoint_call (k : call) : bool :=
  match k with
  | GetActiveObject p | EnsureDispatch p | SetVisible p =>
      String.eqb p "PowerPoint.Application"
  | PresentationsOpen _ => true
  | _ => false
  end.

(** The calls of one [attach_office]. *)
Definition attach_calls (app_name : string) (cs : list call) : Prop :=
  let progid := (app_name ++ ".Application")%string in
  cs = [GetActiveObject progid]
  \/ cs = [GetActiveObject progid; EnsureDispatch progid; SetVisible progid].

(** A desktop without Office: nothing runs and nothing can be started. *)
Definition class_not_registered : exn :=
  mkExn com_error "(-2147221005, 'Invalid class string', None, None)".

Definition bare_desktop : desktop :=
  mkDesktop None (fun _ => Raise class_not_registered)
    (fun _ => Raise class_not_registered) (fun _ => None)
    (fun _ _ => Raise class_not_registered)
    (fun _ => Raise class_not_registered)
    (fun _ _ => Raise class_not_registered) [].

(** A desktop with Excel running and PowerPoint to be launched, whose
    worksheet host rejects five reads in a row. *)
Definition stuck_desktop : desktop :=
  mkDesktop None
    (fun progid =>
       if String.eqb progid "Excel.Application" then Ok (mkApp 1 true)
       else Raise class_not_registered)
    (fun _ => Ok (mkApp 2 false))
    (fun _ => None)
    (fun _ _ => Ok (fun name =>
                      if String.eqb name sheet_name then Ok label_cells
                      else Raise class_not_registered))
    (fun _ => Raise class_not_registered)
    (fun _ _ => Ok [[text_box "Point 01.01"]])
    (repeat (Some rejected) 5).

(** * Properties *)

(** ** Ranges *)

Lemma In_py_range (lo hi n : Z) : In n (py_range lo hi) <-> lo <= n < hi.
Proof.
  unfold py_range. rewrite in_map_iff. split.
  - intros (i & <- & Hi). apply in_seq in Hi. lia.
  - intros H. exists (Z.to_nat (n - lo)). split; [lia|].
    apply in_seq. lia.
Qed.

(** A property checked on every element of a range holds on the range. *)
Lemma range_forallb (lo hi : Z) (p : Z -> bool) :
  forallb p (py_range lo hi) = true ->
  forall n, lo <= n < hi -> p n = true.
Proof.
  intros H n Hn. rewrite forallb_forall in H. apply H, In_py_range, Hn.
Qed.

(** ** Index mapper *)

(** The float division and [math.ceil] of line 159 give the integer
    ceiling on every index up to 720. *)
Lemma slide_index_of_ok (n : Z) :
  1 <= n <= 720 -> slide_index_of n = Ok ((n + 5) / 6).
Proof.
  intros H.
  assert (C : forallb (fun k => match slide_index_of k with
                                | Ok s => s =? (k + 5) / 6
                                | Raise _ => false
                                end) (py_range 1 721) = true)
    by (vm_compute; reflexivity).
  pose proof (range_forallb _ _ _ C n ltac:(lia)) as Hn. cbv beta in Hn.
  destruct (slide_index_of n) as [s|e]; [|discriminate].
  apply Z.eqb_eq in Hn. now subst.
Qed.

(** C1. For every sticker index [n] in [1 .. total_stickers], with six
    stickers per slide, the slide number computed by line 159 is the
    ceiling of [n/6] (the integer [s] with [6(s-1) < n <= 6s]), and the
    position computed by line 166 is [((n-1) mod 6) + 1], which lies in
    [1..6]; index 1 gives slide 1 position 1, index 6 slide 1 position 6,
    index 7 slide 2 position 1. *)
Theorem index_mapper (n : Z) (H : 1 <= n <= total_stickers) :
  stickers_per_slide = 6
  /\ (exists s, slide_index_of n = Ok s /\ 6 * (s - 1) < n <= 6 * s)
  /\ pos_in_slide_of n = ((n - 1) mod 6) + 1
  /\ 1 <= pos_in_slide_of n <= 6
  /\ (slide_index_of 1 = Ok 1 /\ pos_in_slide_of 1 = 1)
  /\ (slide_index_of 6 = Ok 1 /\ pos_in_slide_of 6 = 6)
  /\ (slide_index_of 7 = Ok 2 /\ pos_in_slide_of 7 = 1).
Proof.
  unfold total_stickers in H.
  split; [reflexivity|]. split.
  - exists ((n + 5) / 6). split; [apply slide_index_of_ok; lia|].
    pose proof (Z.div_mod (n + 5) 6 ltac:(lia)).
    pose proof (Z.mod_pos_bound (n + 5) 6 ltac:(lia)). lia.
  - unfold pos_in_slide_of, stickers_per_slide.
    pose proof (Z.mod_pos_bound (n - 1) 6 ltac:(lia)).
    repeat split; try lia; vm_compute; reflexivity.
Qed.

Lemma index_mapper_witness :
  1 <= 13 <= total_stickers
  /\ exists s, slide_index_of 13 = Ok s /\ 6 * (s - 1) < 13 <= 6 * s.
Proof.
  assert (H : 1 <= 13 <= total_stickers) by (unfold total_stickers; lia).
  split; [exact H|]. apply (index_mapper 13 H).
Defined.

(** ** Grid coordinates *)

(** C8. For every position [p] in [1..6] and every size [(w, h)],
    [coords_for_position p (w, h)] is
    [(BASE_LEFTS[(p-1) mod 2], BASE_TOPS[(p-1) div 2], w, h)]; so positions
    1 and 2 differ only in [left] and positions 1 and 3 only in [top]. *)
Theorem coords_for_position_grid (p : Z) (w h : pynum) (H : 1 <= p <= 6) :
  (exists l t,
      nth_error BASE_LEFTS (Z.to_nat ((p - 1) mod 2)) = Some l
      /\ nth_error BASE_TOPS (Z.to_nat ((p - 1) / 2)) = Some t
      /\ coords_for_position p (w, h) = Ok (l, t, w, h))
  /\ coords_for_position 1 (PInt 10, PInt 20)
     = Ok (PInt 2, PInt 63, PInt 10, PInt 20)
  /\ coords_for_position 2 (PInt 10, PInt 20)
     = Ok (PInt 507, PInt 63, PInt 10, PInt 20)
  /\ coords_for_position 1 (w, h) = Ok (PInt 2, PInt 63, w, h)
  /\ coords_for_position 3 (w, h) = Ok (PInt 2, PInt 245, w, h).
Proof.
  split; [|repeat split].
  assert (D : p = 1 \/ p = 2 \/ p = 3 \/ p = 4 \/ p = 5 \/ p = 6) by lia.
  destruct D as [-> | [-> | [-> | [-> | [-> | ->]]]]];
    eexists; eexists; repeat split.
Qed.

Lemma coords_for_position_grid_witness :
  1 <= 4 <= 6
  /\ exists l t,
      nth_error BASE_LEFTS (Z.to_nat ((4 - 1) mod 2)) = Some l
      /\ nth_error BASE_TOPS (Z.to_nat ((4 - 1) / 2)) = Some t
      /\ coords_for_position 4 (PInt 10, PInt 20)
         = Ok (l, t, PInt 10, PInt 20).
Proof.
  assert (H : 1 <= 4 <= 6) by lia.
  split; [exact H|]. apply (coords_for_position_grid 4 (PInt 10) (PInt 20) H).
Defined.

(** ** Rounding to the nearest float *)

Lemma digits2_pos_bound (m : positive) :
  Zpos m < 2 ^ Zpos (digits2_pos m).
Proof.
  induction m as [m IH | m IH |]; cbn [digits2_pos].
  - rewrite Pos2Z.inj_succ, Z.pow_succ_r by lia. lia.
  - rewrite Pos2Z.inj_succ, Z.pow_succ_r by lia. lia.
  - reflexivity.
Qed.

(** The mantissa of a binary64 is below [2^53]. *)
Lemma valid_mantissa (s : bool) (m : positive) (e : Z) :
  valid_binary 53 1024 (S754_finite s m e) = true -> Zpos m < 2 ^ 53.
Proof.
  cbn [valid_binary]. unfold bounded, canonical_mantissa, fexp.
  intros H. apply andb_true_iff in H. destruct H as [H _].
  apply Z.eqb_eq in H.
  assert (D : Zpos (digits2_pos m) <= 53) by lia.
  pose proof (digits2_pos_bound m) as B.
  eapply Z.lt_le_trans; [exact B|].
  apply Z.pow_le_mono_r; lia.
Qed.

(** [nearest] overflows only far away: a quotient below [2^1000] always
    has a nearest float. *)
Lemma nearest_bounded (neg : bool) (n d : positive) :
  Zpos n < 2 ^ 1000 * Zpos d -> exists f, PyFloat.nearest neg n d = Some f.
Proof.
  intros H. unfold PyFloat.nearest.
  assert (L : Z.log2 (Zpos n) - Z.log2 (Zpos d) <= 1000).
  { assert (Z.log2 (Zpos n) <= Z.log2 (Zpos d * 2 ^ 1000))
      by (apply Z.log2_le_mono; lia).
    rewrite Z.log2_mul_pow2 in H0 by lia. lia. }
  set (e1 := Z.log2 (Zpos n) - Z.log2 (Zpos d) - 53) in *.
  destruct (PyFloat.scale n d e1) as [a1 b1].
  set (e2 := if 2 ^ 53 * b1 <=? a1 then e1 + 1 else e1).
  assert (E2 : e2 <= 948) by (subst e2; destruct (2 ^ 53 * b1 <=? a1); lia).
  set (e := Z.max e2 (-1074)).
  assert (E : e <= 948) by (subst e; lia).
  destruct (PyFloat.scale n d e) as [a b].
  destruct (PyFloat.rne_div a b =? 0); [eauto|].
  destruct (PyFloat.rne_div a b =? 2 ^ 53).
  - assert (F : (971 <? e + 1) = false) by (apply Z.ltb_ge; lia).
    rewrite F. eauto.
  - assert (F : (971 <? e) = false) by (apply Z.ltb_ge; lia).
    rewrite F. eauto.
Qed.

(** The float nearest to an integer is an integer. *)
Lemma nearest_int_is_integer (neg : bool) (n : positive) (f : spec_float) :
  PyFloat.nearest neg n 1 = Some f -> PyFloat.is_integer f = true.
Proof.
  unfold PyFloat.nearest.
  set (e1 := Z.log2 (Zpos n) - Z.log2 1 - 53).
  destruct (PyFloat.scale n 1 e1) as [a1 b1].
  set (e2 := if 2 ^ 53 * b1 <=? a1 then e1 + 1 else e1).
  set (e := Z.max e2 (-1074)).
  unfold PyFloat.scale.
  destruct (0 <=? e) eqn:He.
  - (* the unit of the float is at least one *)
    apply Z.leb_le in He.
    set (m := PyFloat.rne_div (Zpos n) (1 * 2 ^ e)).
    destruct (m =? 0); [intros [= <-]; reflexivity|].
    destruct (m =? 2 ^ 53).
    + destruct (971 <? e + 1); [discriminate|]. intros [= <-].
      cbn [PyFloat.is_integer]. unfold PyFloat.frac.
      replace (0 <=? e + 1) with true by (symmetry; apply Z.leb_le; lia).
      rewrite Z.mod_1_r. reflexivity.
    + destruct (971 <? e); [discriminate|]. intros [= <-].
      cbn [PyFloat.is_integer]. unfold PyFloat.frac.
      replace (0 <=? e) with true by (symmetry; apply Z.leb_le; lia).
      rewrite Z.mod_1_r. reflexivity.
  - (* the integer is below [2^53]: it is scaled exactly *)
    apply Z.leb_gt in He.
    assert (P : 0 < 2 ^ (- e)) by (apply Z.pow_pos_nonneg; lia).
    remember (Zpos n * 2 ^ (- e)) as k eqn:Hk.
    assert (NP : 2 ^ (- e) <= k) by nia.
    assert (D : k mod 2 ^ (- e) = 0) by (subst k; apply Z.mod_mul; lia).
    assert (M : PyFloat.rne_div k 1 = k).
    { unfold PyFloat.rne_div. rewrite Z.mod_1_r, Z.div_1_r. reflexivity. }
    clear Hk. rewrite M.
    destruct (k =? 0); [intros [= <-]; reflexivity|].
    destruct (k =? 2 ^ 53) eqn:T.
    + destruct (971 <? e + 1); [discriminate|]. intros [= <-].
      apply Z.eqb_eq in T.
      cbn [PyFloat.is_integer]. unfold PyFloat.frac.
      destruct (0 <=? e + 1) eqn:He1.
      * rewrite Z.mod_1_r. reflexivity.
      * apply Z.leb_gt in He1.
        assert (B : - e <= 53).
        { apply (Z.pow_le_mono_r_iff 2); [lia|lia|]. lia. }
        assert (S : 4503599627370496
                    = 2 ^ (52 + (e + 1)) * 2 ^ (- (e + 1))).
        { rewrite <- Z.pow_add_r by lia.
          replace (52 + (e + 1) + - (e + 1)) with 52 by lia. reflexivity. }
        rewrite S, Z.mod_mul by (apply Z.pow_nonzero; lia). reflexivity.
    + destruct (971 <? e); [discriminate|]. intros [= <-].
      cbn [PyFloat.is_integer]. unfold PyFloat.frac.
      replace (0 <=? e) with false by (symmetry; apply Z.leb_gt; lia).
      rewrite Z2Pos.id by lia.
      rewrite D. reflexivity.
Qed.

Lemma of_int_is_integer (z : Z) (x : spec_float) :
  PyFloat.of_int z = Ok x -> PyFloat.is_integer x = true.
Proof.
  destruct z as [|p|p]; cbn [PyFloat.of_int].
  - intros [= <-]. reflexivity.
  - destruct (PyFloat.nearest false p 1) eqn:N; [|discriminate].
    intros [= <-]. eapply nearest_int_is_integer, N.
  - destruct (PyFloat.nearest true p 1) eqn:N; [|discriminate].
    intros [= <-]. eapply nearest_int_is_integer, N.
Qed.

Lemma of_int_bounded (z : Z) :
  - 2 ^ 1000 < z < 2 ^ 1000 -> exists x, PyFloat.of_int z = Ok x.
Proof.
  intros H. destruct z as [|p|p]; cbn [PyFloat.of_int]; [eauto| |].
  - destruct (nearest_bounded false p 1) as [f ->]; [lia|eauto].
  - destruct (nearest_bounded true p 1) as [f ->]; [lia|eauto].
Qed.

(** A float that is not an integer has a negative exponent. *)
Lemma not_integer_exponent (s : bool) (m : positive) (e : Z) :
  PyFloat.is_integer (S754_finite s m e) = false -> e < 0.
Proof.
  cbn [PyFloat.is_integer]. unfold PyFloat.frac.
  destruct (0 <=? e) eqn:He; [|intros _; apply Z.leb_gt, He].
  rewrite Z.mod_1_r. discriminate.
Qed.

(** [round(x, 2)] never overflows on a float that is not an integer. *)
Lemma round2_total (x : spec_float) :
  valid_binary 53 1024 x = true ->
  PyFloat.is_integer x = false ->
  exists r, PyFloat.round2 x = Ok r.
Proof.
  intros V I. destruct x as [s|s| |s m e]; cbn [PyFloat.round2]; eauto.
  pose proof (valid_mantissa _ _ _ V) as B.
  pose proof (not_integer_exponent _ _ _ I) as E.
  unfold PyFloat.frac.
  replace (0 <=? e) with false by (symmetry; apply Z.leb_gt; lia).
  set (k := PyFloat.rne_div (Zpos m * 100) (2 ^ (- e))).
  destruct (k =? 0) eqn:K0; [eauto|].
  assert (P : 2 <= 2 ^ (- e)).
  { change 2 with (2 ^ 1) at 1. apply Z.pow_le_mono_r; lia. }
  assert (Q : 0 <= Zpos m * 100 / 2 ^ (- e) <= Zpos m * 100).
  { split; [apply Z.div_pos; lia|].
    apply Z.div_le_upper_bound; [lia|]. nia. }
  assert (K : 0 <= k <= Zpos m * 100 + 1).
  { subst k. unfold PyFloat.rne_div.
    destruct (2 * ((Zpos m * 100) mod 2 ^ (- e)) ?= 2 ^ (- e));
      [destruct (Z.even _)| |]; lia. }
  apply Z.eqb_neq in K0.
  destruct (nearest_bounded s (Z.to_pos k) 100) as [f ->]; [|eauto].
  rewrite Z2Pos.id by lia.
  assert (2 ^ 53 * 100 + 1 < 2 ^ 1000 * 100) by (vm_compute; reflexivity).
  lia.
Qed.

(** ** What the formatter's sentinel test sees *)

Lemma plain_head_not_sentinel (s : string) :
  plain_head s = true ->
  str_in (strip s) [""; "nan"; "None"] = false.
Proof.
  destruct s as [|c r]; [discriminate|]. cbn [plain_head]. intros H.
  apply andb_true_iff in H. destruct H as [H HN].
  apply andb_true_iff in H. destruct H as [Hs Hn].
  apply negb_true_iff in Hs, Hn, HN.
  unfold strip. cbn [lstrip]. rewrite Hs. cbn [rstrip].
  assert (E : exists r', match rstrip r with
                         | EmptyString =>
                             if is_space c then EmptyString
                             else String c EmptyString
                         | String a s => String c (String a s)
                         end = String c r').
  { destruct (rstrip r); [rewrite Hs|]; eauto. }
  destruct E as [r' ->].
  unfold str_in. cbn [existsb String.eqb]. rewrite Hn, HN. reflexivity.
Qed.

Lemma plain_head_app (s t : string) :
  plain_head s = true -> plain_head (s ++ t) = true.
Proof. destruct s; [discriminate|]. intros H. exact H. Qed.

Lemma uint_plain_head (u : Decimal.uint) :
  plain_head (NilZero.string_of_uint u) = true.
Proof. destruct u; reflexivity. Qed.

Lemma str_int_plain_head (z : Z) : plain_head (PyFloat.str_int z) = true.
Proof.
  unfold PyFloat.str_int. destruct z as [|p|p]; cbn; try reflexivity.
  apply uint_plain_head.
Qed.

Lemma layout_plain_head (ds : string) (decpt : Z) :
  plain_head ds = true -> plain_head (PyFloat.layout ds decpt) = true.
Proof.
  intros H. unfold PyFloat.layout.
  destruct ((decpt <=? -4) || (16 <? decpt)).
  - apply plain_head_app.
    destruct ds as [|c [|c' r]]; [discriminate|exact H|exact H].
  - destruct (decpt <=? 0) eqn:D0; [reflexivity|].
    destruct (Z.of_nat (String.length ds) <=? decpt).
    + apply plain_head_app, H.
    + apply Z.leb_gt in D0. apply plain_head_app.
      destruct ds as [|c r]; [discriminate|].
      destruct (Z.to_nat decpt) eqn:N; [lia|]. exact H.
Qed.

(** The text of a float other than NaN passes the sentinel test. *)
Lemma repr_plain_head (x : spec_float) :
  x <> S754_nan -> plain_head (PyFloat.repr x) = true.
Proof.
  intros N. destruct x as [[]|[]| |s m e]; try reflexivity; [congruence|].
  cbn [PyFloat.repr]. unfold PyFloat.digits.
  destruct (PyFloat.frac m e) as [n d].
  destruct (PyFloat.shortest _ _ _ _ _ _) as [c j].
  destruct s; [reflexivity|].
  apply layout_plain_head, uint_plain_head.
Qed.

(** The text of an int has no decimal point. *)
Lemma uint_no_point (u : Decimal.uint) :
  str_contains "." (NilEmpty.string_of_uint u) = false.
Proof. induction u; cbn; auto. Qed.

Lemma str_int_no_point (z : Z) :
  str_contains "." (PyFloat.str_int z) = false.
Proof.
  unfold PyFloat.str_int.
  destruct z as [|p|p]; cbn [Z.to_int NilZero.string_of_int];
    [reflexivity| |].
  - unfold NilZero.string_of_uint.
    destruct (Pos.to_uint p) eqn:E; try apply uint_no_point. reflexivity.
  - unfold NilZero.string_of_uint. cbn [str_contains String.prefix].
    destruct (Pos.to_uint p) eqn:E; try apply uint_no_point. reflexivity.
Qed.

(** ** Value formatter *)

Lemma clean_value_number (v : pyval) :
  is_number v = true -> sentinel v = false ->
  clean_value v
  = rbind (py_float v) (fun x =>
      if PyFloat.is_integer x then
        rbind (py_int v) (fun z => Ok (PyFloat.str_int z))
      else str_round2 v).
Proof.
  unfold sentinel, clean_value. intros N S.
  destruct v; try discriminate; rewrite S; reflexivity.
Qed.

Lemma number_sentinel (v : pyval) (x : spec_float) :
  is_number v = true -> py_float v = Ok x -> x <> S754_nan ->
  sentinel v = false.
Proof.
  unfold sentinel. intros N F X. apply plain_head_not_sentinel.
  destruct v as [|[]|z|y|s|s]; try discriminate; try reflexivity.
  - apply str_int_plain_head.
  - cbn in F. injection F as ->. apply repr_plain_head, X.
Qed.

Lemma integer_to_int (x : spec_float) :
  PyFloat.is_integer x = true -> exists z, PyFloat.to_int x = Ok z.
Proof.
  destruct x as [s|s| |s m e]; try discriminate; cbn [PyFloat.to_int].
  - eauto.
  - destruct (PyFloat.frac m e). eauto.
Qed.

Lemma clean_value_integral (raw : pyval) (x : spec_float) :
  is_number raw = true -> py_float raw = Ok x ->
  PyFloat.is_integer x = true ->
  exists z, py_int raw = Ok z /\ clean_value raw = Ok (PyFloat.str_int z).
Proof.
  intros N F I.
  assert (X : x <> S754_nan) by (intros ->; discriminate).
  rewrite (clean_value_number raw N (number_sentinel raw x N F X)), F.
  cbn [rbind]. rewrite I.
  destruct raw as [|b|z|y|s|s]; try discriminate; cbn [py_int]; eauto.
  cbn in F. injection F as ->.
  destruct (integer_to_int x I) as [z ->]. eauto.
Qed.

Lemma clean_value_rounded (raw : pyval) (x : spec_float) :
  host_value raw ->
  is_number raw = true -> py_float raw = Ok x ->
  x <> S754_nan -> PyFloat.is_integer x = false ->
  exists r, PyFloat.round2 x = Ok r /\ clean_value raw = Ok (PyFloat.repr r).
Proof.
  intros H N F X I.
  rewrite (clean_value_number raw N (number_sentinel raw x N F X)), F.
  cbn [rbind]. rewrite I.
  destruct raw as [|b|z|y|s|s]; try discriminate.
  - destruct b; cbn in F; injection F as <-; discriminate.
  - apply of_int_is_integer in F. congruence.
  - cbn in F. injection F as ->. cbn in H.
    destruct (round2_total x H I) as [r R].
    exists r. cbn [str_round2]. rewrite R. auto.
Qed.

Lemma clean_value_sentinel (raw : pyval) :
  raw = VNone \/ sentinel raw = true -> clean_value raw = Ok "".
Proof.
  unfold sentinel, clean_value. intros [-> | S]; [reflexivity|].
  destruct raw; try reflexivity; rewrite S; reflexivity.
Qed.

Lemma clean_value_other (raw : pyval) :
  is_number raw = false -> raw <> VNone -> sentinel raw = false ->
  clean_value raw = Ok (strip (py_str raw)).
Proof.
  unfold sentinel, clean_value. intros N V S.
  destruct raw; try discriminate; try congruence; rewrite S; reflexivity.
Qed.

(** The formatter has a text for every value of the host. *)
Lemma clean_value_total (raw : pyval) :
  host_value raw -> exists text, clean_value raw = Ok text.
Proof.
  intros H.
  destruct (sentinel raw) eqn:S; [rewrite clean_value_sentinel; eauto|].
  destruct (is_number raw) eqn:N.
  - assert (F : exists x, py_float raw = Ok x).
    { destruct raw as [|[]|z|y|s|s]; try discriminate; cbn [py_float];
        eauto; try (apply of_int_bounded; lia).
      cbn in H. apply of_int_bounded.
      assert (2 ^ 64 < 2 ^ 1000) by (vm_compute; reflexivity).
      assert (- 2 ^ 1000 < - 2 ^ 63) by (vm_compute; reflexivity). lia. }
    destruct F as [x F].
    destruct (PyFloat.is_integer x) eqn:I.
    + destruct (clean_value_integral raw x N F I) as (z & _ & ->). eauto.
    + assert (X : x <> S754_nan).
      { intros ->. destruct raw as [|[]|z|y|s|s]; try discriminate.
        - apply of_int_is_integer in F. discriminate.
        - cbn in F. injection F as ->. discriminate. }
      destruct (clean_value_rounded raw x H N F X I) as (r & _ & ->). eauto.
  - rewrite clean_value_other; eauto. intros ->. discriminate.
Qed.

(** C2. The value formatter never fails and is a function of the raw
    value: [None], and any value whose trimmed string form is [""],
    ["nan"] or ["None"], gives the empty string; a number with an integral
    value gives the text of that integer, which has no decimal point; a
    number that is not integral gives the text of the value rounded to two
    decimal places; any other value gives its trimmed string form.  So
    [format(None) = ""], [format("nan") = ""], [format(4.0) = "4"],
    [format(4.5) = "4.5"], [format(4.567) = "4.57"],
    [format(" abc ") = "abc"]. *)
Theorem clean_value_spec (raw : pyval) (H : host_value raw) :
  (exists text, clean_value raw = Ok text)
  /\ (raw = VNone \/ sentinel raw = true -> clean_value raw = Ok "")
  /\ (forall x, is_number raw = true -> py_float raw = Ok x ->
        PyFloat.is_integer x = true ->
        exists z, py_int raw = Ok z
                  /\ clean_value raw = Ok (PyFloat.str_int z)
                  /\ str_contains "." (PyFloat.str_int z) = false)
  /\ (forall x, is_number raw = true -> py_float raw = Ok x ->
        x <> S754_nan -> PyFloat.is_integer x = false ->
        exists r, PyFloat.round2 x = Ok r
                  /\ clean_value raw = Ok (PyFloat.repr r))
  /\ (is_number raw = false -> raw <> VNone -> sentinel raw = false ->
        clean_value raw = Ok (strip (py_str raw)))
  /\ clean_value VNone = Ok ""
  /\ clean_value (VStr "nan") = Ok ""
  /\ clean_value (VFloat (PyFloat.lit 4 1)) = Ok "4"
  /\ clean_value (VFloat (PyFloat.lit 45 10)) = Ok "4.5"
  /\ clean_value (VFloat (PyFloat.lit 4567 1000)) = Ok "4.57"
  /\ clean_value (VStr " abc ") = Ok "abc".
Proof.
  split; [exact (clean_value_total raw H)|].
  split; [exact (clean_value_sentinel raw)|].
  split.
  { intros x N F I. destruct (clean_value_integral raw x N F I) as (z & P & C).
    exists z. repeat split; auto. apply str_int_no_point. }
  split; [intros x; exact (clean_value_rounded raw x H)|].
  split; [exact (clean_value_other raw)|].
  repeat split; vm_compute; reflexivity.
Qed.

Lemma clean_value_spec_witness :
  host_value (VFloat (PyFloat.lit 4567 1000))
  /\ exists r, PyFloat.round2 (PyFloat.lit 4567 1000) = Ok r
               /\ clean_value (VFloat (PyFloat.lit 4567 1000))
                  = Ok (PyFloat.repr r).
Proof.
  assert (V : host_value (VFloat (PyFloat.lit 4567 1000)))
    by (vm_compute; reflexivity).
  split; [exact V|].
  apply (clean_value_spec (VFloat (PyFloat.lit 4567 1000)) V);
    [reflexivity|reflexivity|discriminate|vm_compute; reflexivity].
Defined.

(** ** Cell reader *)

Lemma sleeps_app (a b : list event) : sleeps (a ++ b) = sleeps a ++ sleeps b.
Proof. apply flat_map_app. Qed.

Lemma reads_app (a b : list event) : reads (a ++ b) = reads a ++ reads b.
Proof. apply flat_map_app. Qed.

Lemma sleeps_retry_events (row col : Z) (delay : spec_float) (k : nat) :
  sleeps (retry_events row col delay k) = repeat delay k.
Proof.
  unfold retry_events. induction k as [|k IH]; [reflexivity|].
  cbn [repeat List.concat]. rewrite sleeps_app, IH. reflexivity.
Qed.

Lemma reads_retry_events (row col : Z) (delay : spec_float) (k : nat) :
  reads (retry_events row col delay k) = repeat (row, col) k.
Proof.
  unfold retry_events. induction k as [|k IH]; [reflexivity|].
  cbn [repeat List.concat]. rewrite reads_app, IH. reflexivity.
Qed.

(** Each rejected attempt costs one read and one sleep and leaves the loop
    with one iteration less. *)
Lemma sleep_default : sleep_error default_delay = None.
Proof. vm_compute. reflexivity. Qed.

Lemma safe_cell_loop_retry (row col retries : Z) (delay : spec_float)
      (es : list exn) :
  sleep_error delay = None ->
  Forall (fun e => transient e = true) es ->
  forall n c tail sl tr,
    safe_cell_loop (List.length es + n) row col retries delay
      (mkWorld c (map Some es ++ tail) sl tr)
    = safe_cell_loop n row col retries delay
        (mkWorld c tail sl
           (tr ++ retry_events row col delay (List.length es))).
Proof.
  intros SL. induction 1 as [|e es He _ IH]; intros n c tail sl tr.
  - cbn. now rewrite app_nil_r.
  - cbn [List.length Nat.add safe_cell_loop map app].
    unfold try_except at 1, cell_value at 1.
    cbn [rejections cells slides trace].
    unfold transient in He. rewrite He.
    unfold bind at 1, sleep at 1. rewrite SL.
    unfold emit at 1. cbn [rejections cells slides trace].
    rewrite IH. do 2 f_equal.
    unfold retry_events. cbn [repeat List.concat].
    now rewrite <- !app_assoc.
Qed.

(** C3. [safe_cell] retries only on the transient rejection and sleeps the
    fixed delay 0.2 before each retry.  When the host rejects [k < 5]
    times and then answers, the cell value is returned after exactly [k]
    sleeps and [k + 1] reads; when it rejects five times, the error naming
    the row and the column is raised after exactly five reads; any other
    exception leaves at once, with no sleep and no further read. *)
Theorem safe_cell_retries (row col : Z) (w : world) (es : list exn)
        (tail : list (option exn))
        (T : Forall (fun e => transient e = true) es)
        (R : rejections w = map Some es ++ tail) :
  let k := List.length es in
  let tried := trace w ++ retry_events row col default_delay k in
  let out := safe_cell row col default_retries default_delay w in
  default_retries = 5
  /\ default_delay = PyFloat.lit 2 10
  /\ ((k < 5)%nat ->
      (tail = [] \/ exists rest, tail = None :: rest) ->
      out = (Ok (cells w row col),
             mkWorld (cells w) (tl tail) (slides w)
               (tried ++ [ReadCell row col]))
      /\ sleeps (trace (snd out)) = sleeps (trace w) ++ repeat default_delay k
      /\ reads (trace (snd out))
         = reads (trace w) ++ repeat (row, col) (S k))
  /\ (k = 5%nat ->
      out = (Raise (exhausted 5 row col),
             mkWorld (cells w) tail (slides w) tried)
      /\ exc_str (exhausted 5 row col)
         = ("Excel did not respond after 5 retries for cell ("
              ++ PyFloat.str_int row ++ ", " ++ PyFloat.str_int col ++ ")")%string
      /\ reads (trace (snd out)) = reads (trace w) ++ repeat (row, col) 5)
  /\ ((k < 5)%nat ->
      forall e rest, transient e = false -> tail = Some e :: rest ->
      out = (Raise e,
             mkWorld (cells w) rest (slides w) (tried ++ [ReadCell row col]))
      /\ sleeps (trace (snd out)) = sleeps (trace w) ++ repeat default_delay k).
Proof.
  intros k tried out. destruct w as [c rj sl tr]. cbn in R. subst rj.
  cbn [cells slides trace] in *.
  split; [reflexivity|]. split; [reflexivity|].
  assert (Step : forall n, (k + S n = 5)%nat ->
            out = try_except (cell_value row col) (fun e =>
                    if str_contains "Call was rejected by callee" (exc_str e)
                    then emit (Sleep default_delay) ;;
                         safe_cell_loop n row col 5 default_delay
                    else raise e)
                    (mkWorld c tail sl tried)).
  { intros n Hn. subst out. unfold safe_cell, default_retries.
    change (Z.to_nat 5) with 5%nat. rewrite <- Hn.
    subst k tried.
    rewrite safe_cell_loop_retry
      by first [exact T | exact sleep_default].
    reflexivity. }
  split; [|split].
  - intros Hk Ht.
    assert (E : out = (Ok (c row col),
                       mkWorld c (tl tail) sl (tried ++ [ReadCell row col]))).
    { rewrite (Step (4 - k)%nat) by lia.
      destruct Ht as [-> | [rest ->]]; reflexivity. }
    rewrite E. cbn [snd trace]. subst tried.
    rewrite !sleeps_app, !reads_app, sleeps_retry_events, reads_retry_events.
    cbn. rewrite app_nil_r. repeat split.
    rewrite <- app_assoc. f_equal. symmetry. apply repeat_cons.
  - intros Hk.
    assert (E : out = (Raise (exhausted 5 row col), mkWorld c tail sl tried)).
    { subst out. unfold safe_cell, default_retries.
      change (Z.to_nat 5) with 5%nat.
      replace 5%nat with (k + 0)%nat at 1 by lia.
      subst k tried.
      rewrite safe_cell_loop_retry
        by first [exact T | exact sleep_default].
      reflexivity. }
    rewrite E. cbn [snd trace]. subst tried.
    rewrite reads_app, reads_retry_events, Hk. repeat split.
  - intros Hk e rest He ->.
    assert (E : out = (Raise e,
                       mkWorld c rest sl (tried ++ [ReadCell row col]))).
    { rewrite (Step (4 - k)%nat) by lia.
      unfold try_except, cell_value. cbn [rejections cells slides trace].
      unfold transient in He. rewrite He. reflexivity. }
    rewrite E. cbn [snd trace]. subst tried.
    rewrite !sleeps_app, sleeps_retry_events. cbn.
    rewrite app_nil_r. repeat split.
Qed.

Lemma safe_cell_retries_witness :
  Forall (fun e => transient e = true) [rejected; rejected; rejected]
  /\ rejections busy_world = map Some [rejected; rejected; rejected] ++ [None]
  /\ fst (safe_cell 3 9 default_retries default_delay busy_world)
     = Ok (VStr "Valve 7")
  /\ sleeps (trace (snd (safe_cell 3 9 default_retries default_delay
                           busy_world)))
     = [default_delay; default_delay; default_delay].
Proof.
  assert (T : Forall (fun e => transient e = true)
                [rejected; rejected; rejected])
    by (repeat constructor).
  assert (R : rejections busy_world
              = map Some [rejected; rejected; rejected] ++ [None])
    by reflexivity.
  split; [exact T|]. split; [exact R|].
  destruct (safe_cell_retries 3 9 busy_world _ _ T R)
    as (_ & _ & OK & _ & _).
  destruct OK as (E & S & _); [cbn; lia|right; eauto|].
  split; [rewrite E; reflexivity|exact S].
Defined.

(** ** Lists updated in place *)

Lemma update_nth_fixed {A} (f : A -> A) (l : list A) (i : nat) (a : A) :
  nth_error l i = Some a -> f a = a -> update_nth i f l = l.
Proof.
  revert i. induction l as [|x l IH]; intros [|i]; cbn; try discriminate.
  - intros [= ->] ->. reflexivity.
  - intros H E. now rewrite IH.
Qed.

Lemma update_nth_missing {A} (f : A -> A) (l : list A) (i : nat) :
  nth_error l i = None -> update_nth i f l = l.
Proof.
  revert i. induction l as [|x l IH]; intros [|i]; cbn; try discriminate;
    try reflexivity.
  intros H. now rewrite IH.
Qed.

Lemma nth_error_update_nth {A} (f : A -> A) (l : list A) (i : nat) :
  nth_error (update_nth i f l) i = option_map f (nth_error l i).
Proof.
  revert i. induction l as [|x l IH]; intros [|i]; cbn; auto.
Qed.

Lemma nth_error_update_nth_other {A} (f : A -> A) (l : list A) (i j : nat) :
  i <> j -> nth_error (update_nth i f l) j = nth_error l j.
Proof.
  revert i j. induction l as [|x l IH]; intros [|i] [|j] H; cbn; auto;
    try congruence.
Qed.

Lemma update_nth_ext {A} (f g : A -> A) (l : list A) (i : nat) :
  (forall a, f a = g a) -> update_nth i f l = update_nth i g l.
Proof.
  intros E. revert i. induction l as [|x l IH]; intros [|i]; cbn;
    try reflexivity; [now rewrite E|now rewrite IH].
Qed.

Lemma update_nth_twice {A} (f g : A -> A) (l : list A) (i : nat) :
  update_nth i f (update_nth i g l) = update_nth i (fun a => f (g a)) l.
Proof.
  revert i. induction l as [|x l IH]; intros [|i]; cbn; try reflexivity.
  now rewrite IH.
Qed.

Lemma update_nth_swap {A} (f g : A -> A) (l : list A) (i j : nat) :
  i <> j ->
  update_nth i f (update_nth j g l) = update_nth j g (update_nth i f l).
Proof.
  revert i j. induction l as [|x l IH]; intros [|i] [|j] H; cbn;
    try reflexivity; try congruence.
  rewrite IH; [reflexivity|congruence].
Qed.

Lemma map_update_nth {A B} (h : A -> B) (f : A -> A) (l : list A) (i : nat) :
  (forall a, h (f a) = h a) -> map h (update_nth i f l) = map h l.
Proof.
  intros E. revert i. induction l as [|x l IH]; intros [|i]; cbn;
    try reflexivity; [now rewrite E|now rewrite IH].
Qed.

(** ** The frame *)

Lemma erase_attempt (st : setting) (s : shape) :
  erase_shape (attempt st s) = erase_shape s.
Proof.
  unfold attempt. destruct (shp_fault s (op_of st)); [reflexivity|].
  destruct st; reflexivity.
Qed.

Lemma frame_apply_event (ev : event) (sl : list (list shape)) :
  frame (apply_event ev sl) = frame sl.
Proof.
  destruct ev as [d|r c|s n|r st|l]; try reflexivity.
  unfold frame, apply_event. apply map_update_nth. intros shapes.
  apply map_update_nth. intros s. apply erase_attempt.
Qed.

Lemma replay_app (a b : list event) (sl : list (list shape)) :
  replay (a ++ b) sl = replay b (replay a sl).
Proof. apply fold_left_app. Qed.

Lemma frame_replay (evs : list event) (sl : list (list shape)) :
  frame (replay evs sl) = frame sl.
Proof.
  revert sl. induction evs as [|ev evs IH]; intros sl; [reflexivity|].
  cbn [replay fold_left]. fold (replay evs (apply_event ev sl)).
  now rewrite IH, frame_apply_event.
Qed.

Lemma get_shape_frame (r : ref) (sl : list (list shape)) :
  get_shape r (frame sl) = option_map erase_shape (get_shape r sl).
Proof.
  unfold get_shape, frame. rewrite nth_error_map.
  destruct (nth_error sl (ref_slide r)) as [shapes|]; [|reflexivity].
  cbn. now rewrite nth_error_map.
Qed.

(** Whether the host accepts an access depends on the frame only. *)
Lemma access_frame {A} (g : shape -> A) (r : ref) (op : com_op)
      (sl : list (list shape)) :
  (forall s, g (erase_shape s) = g s) ->
  rbind (access r op (frame sl)) (fun s => Ok (g s))
  = rbind (access r op sl) (fun s => Ok (g s)).
Proof.
  intros E. unfold access. rewrite get_shape_frame.
  destruct (get_shape r sl) as [s|]; [|reflexivity]. cbn.
  destruct (shp_fault s op); [reflexivity|]. cbn. now rewrite E.
Qed.

Lemma find_shape_erase (name : string) (shapes : list shape) :
  find_shape name (map erase_shape shapes) = find_shape name shapes.
Proof.
  induction shapes as [|s shapes IH]; [reflexivity|]. cbn.
  now rewrite IH.
Qed.

Lemma lookup_frame (sl : list (list shape)) (slide : Z) (name : string) :
  lookup (frame sl) slide name
  = match slide_shapes sl slide with
    | Some shapes =>
        option_map (mkRef (Z.to_nat (slide - 1))) (find_shape name shapes)
    | None => None
    end.
Proof.
  unfold lookup, slide_shapes, frame.
  destruct (1 <=? slide); [|reflexivity]. rewrite nth_error_map.
  destruct (nth_error sl (Z.to_nat (slide - 1))); [|reflexivity].
  cbn. now rewrite find_shape_erase.
Qed.

(** ** Rules for [spec] *)

Section Rules.

Variable c : Z -> Z -> pyval.
Variable fr : list (list shape).

Lemma spec_conseq {A} (rj : list (option exn)) (m : M A)
      (Q Q' : result A -> list event -> list (option exn) -> Prop) :
  spec c fr rj m Q ->
  (forall r evs rj', Q r evs rj' -> Q' r evs rj') ->
  spec c fr rj m Q'.
Proof.
  intros (r & evs & rj' & HQ & E) W. exists r, evs, rj'. auto.
Qed.

Lemma spec_ret {A} (rj : list (option exn)) (a : A)
      (Q : result A -> list event -> list (option exn) -> Prop) :
  Q (Ok a) [] rj -> spec c fr rj (ret a) Q.
Proof.
  intros HQ. exists (Ok a), [], rj. split; [exact HQ|].
  intros sl tr _. unfold ret. now rewrite app_nil_r.
Qed.

Lemma spec_lift {A} (rj : list (option exn)) (r : result A)
      (Q : result A -> list event -> list (option exn) -> Prop) :
  Q r [] rj -> spec c fr rj (lift r) Q.
Proof.
  intros HQ. exists r, [], rj. split; [exact HQ|].
  intros sl tr _. unfold lift. now rewrite app_nil_r.
Qed.

Lemma spec_raise {A} (rj : list (option exn)) (e : exn)
      (Q : result A -> list event -> list (option exn) -> Prop) :
  Q (Raise e) [] rj -> spec c fr rj (raise e) Q.
Proof. apply spec_lift. Qed.

Lemma spec_bind {A B} (rj : list (option exn)) (m : M A) (k : A -> M B)
      (Q : result B -> list event -> list (option exn) -> Prop) :
  spec c fr rj m (fun r evs rj' =>
    match r with
    | Ok a =>
        spec c fr rj' (k a) (fun r2 evs2 rj2 => Q r2 (evs ++ evs2) rj2)
    | Raise e => Q (Raise e) evs rj'
    end) ->
  spec c fr rj (bind m k) Q.
Proof.
  intros (r & evs & rj' & H & E). destruct r as [a|e].
  - destruct H as (r2 & evs2 & rj2 & HQ & E2).
    exists r2, (evs ++ evs2), rj2. split; [exact HQ|].
    intros sl tr F. unfold bind. rewrite (E sl tr F).
    rewrite E2 by (rewrite frame_replay; exact F).
    now rewrite replay_app, app_assoc.
  - exists (Raise e), evs, rj'. split; [exact H|].
    intros sl tr F. unfold bind. now rewrite (E sl tr F).
Qed.

Lemma spec_try_except {A} (rj : list (option exn)) (body : M A)
      (h : exn -> M A)
      (Q : result A -> list event -> list (option exn) -> Prop) :
  spec c fr rj body (fun r evs rj' =>
    match r with
    | Ok a => Q (Ok a) evs rj'
    | Raise e =>
        spec c fr rj' (h e) (fun r2 evs2 rj2 => Q r2 (evs ++ evs2) rj2)
    end) ->
  spec c fr rj (try_except body h) Q.
Proof.
  intros (r & evs & rj' & H & E). destruct r as [a|e].
  - exists (Ok a), evs, rj'. split; [exact H|].
    intros sl tr F. unfold try_except. now rewrite (E sl tr F).
  - destruct H as (r2 & evs2 & rj2 & HQ & E2).
    exists r2, (evs ++ evs2), rj2. split; [exact HQ|].
    intros sl tr F. unfold try_except. rewrite (E sl tr F).
    rewrite E2 by (rewrite frame_replay; exact F).
    now rewrite replay_app, app_assoc.
Qed.

Lemma spec_try_pass (rj : list (option exn)) (body : M unit)
      (Q : result unit -> list event -> list (option exn) -> Prop) :
  spec c fr rj body (fun _ evs rj' => Q (Ok tt) evs rj') ->
  spec c fr rj (try_pass body) Q.
Proof.
  intros (r & evs & rj' & H & E). exists (Ok tt), evs, rj'.
  split; [exact H|]. intros sl tr F. unfold try_pass.
  rewrite (E sl tr F). destruct r as [[]|e]; reflexivity.
Qed.

Lemma spec_emit (rj : list (option exn)) (ev : event)
      (Q : result unit -> list event -> list (option exn) -> Prop) :
  silent ev -> Q (Ok tt) [ev] rj -> spec c fr rj (emit ev) Q.
Proof.
  intros S HQ. exists (Ok tt), [ev], rj. split; [exact HQ|].
  intros sl tr _. unfold emit. cbn.
  destruct ev; try reflexivity. destruct S.
Qed.

Lemma spec_sleep (rj : list (option exn)) (secs : spec_float)
      (Q : result unit -> list event -> list (option exn) -> Prop) :
  match sleep_error secs with
  | Some e => Q (Raise e) [] rj
  | None => Q (Ok tt) [Sleep secs] rj
  end ->
  spec c fr rj (sleep secs) Q.
Proof.
  unfold sleep. destruct (sleep_error secs) as [e|].
  - apply spec_raise.
  - apply spec_emit. exact I.
Qed.

Lemma spec_cell_value (rj : list (option exn)) (row col : Z)
      (Q : result pyval -> list event -> list (option exn) -> Prop) :
  match rj with
  | Some e :: rest => Q (Raise e) [ReadCell row col] rest
  | None :: rest => Q (Ok (c row col)) [ReadCell row col] rest
  | [] => Q (Ok (c row col)) [ReadCell row col] []
  end ->
  spec c fr rj (cell_value row col) Q.
Proof.
  intros HQ. unfold spec, cell_value.
  destruct rj as [|[e|] rest]; eexists; eexists; eexists;
    (split; [exact HQ|]); intros sl tr _; reflexivity.
Qed.

Lemma spec_com_get_orientation (rj : list (option exn)) (r : ref)
      (Q : result Z -> list event -> list (option exn) -> Prop) :
  Q (rbind (access r GetOrientation fr) (fun s => Ok (shp_orientation s)))
    [] rj ->
  spec c fr rj (com_get_orientation r) Q.
Proof.
  intros HQ. eexists; eexists; eexists. split; [exact HQ|].
  intros sl tr <-. unfold com_get_orientation. cbn.
  rewrite (access_frame shp_orientation) by reflexivity.
  now rewrite app_nil_r.
Qed.

Lemma spec_com_set (rj : list (option exn)) (r : ref) (st : setting)
      (Q : result unit -> list event -> list (option exn) -> Prop) :
  Q (rbind (access r (op_of st) fr) (fun _ => Ok tt)) [SetProp r st] rj ->
  spec c fr rj (com_set r st) Q.
Proof.
  intros HQ. eexists; eexists; eexists. split; [exact HQ|].
  intros sl tr <-. unfold com_set. cbn.
  now rewrite (access_frame (fun _ => tt)) by reflexivity.
Qed.

Lemma spec_slides_count (rj : list (option exn))
      (Q : result Z -> list event -> list (option exn) -> Prop) :
  Q (Ok (Z.of_nat (List.length fr))) [] rj ->
  spec c fr rj (slides_count answering) Q.
Proof.
  intros HQ. eexists; eexists; eexists. split; [exact HQ|].
  intros sl tr <-. unfold slides_count, frame. cbn.
  now rewrite length_map, app_nil_r.
Qed.

Lemma spec_get_slide (rj : list (option exn)) (slide_index : Z)
      (Q : result Z -> list event -> list (option exn) -> Prop) :
  Q (if (1 <=? slide_index) && (slide_index <=? Z.of_nat (List.length fr))
     then Ok slide_index
     else Raise (mkExn com_error "Slides.Item : Integer out of range."))
    [] rj ->
  spec c fr rj (get_slide answering slide_index) Q.
Proof.
  intros HQ. eexists; eexists; eexists. split; [exact HQ|].
  intros sl tr <-. unfold get_slide, frame. cbn.
  rewrite length_map, app_nil_r.
  destruct ((1 <=? slide_index)
            && (slide_index <=? Z.of_nat (List.length sl))); reflexivity.
Qed.

Lemma spec_safe_shape (rj : list (option exn)) (slide : Z) (name : string)
      (Q : result (option ref) -> list event -> list (option exn) -> Prop) :
  Q (Ok (lookup fr slide name)) [FindShape slide name] rj ->
  spec c fr rj (safe_shape slide name) Q.
Proof.
  intros HQ. eexists; eexists; eexists. split; [exact HQ|].
  intros sl tr <-.
  unfold safe_shape, try_except, shapes_item, bind, emit, ret. cbn.
  rewrite lookup_frame.
  destruct (slide_shapes sl slide) as [shapes|]; [|reflexivity].
  destruct (find_shape name shapes); reflexivity.
Qed.

End Rules.

(** ** Specifications of the script's functions *)

Section Functions.

Variable c : Z -> Z -> pyval.
Variable fr : list (list shape).

Lemma spec_safe_cell_loop (row col retries : Z) (delay : spec_float)
      (n : nat) (rj : list (option exn)) :
  spec c fr rj (safe_cell_loop n row col retries delay)
    (fun r evs rj' =>
       Forall (cell_event row col) evs
       /\ (rj = [] -> (0 < n)%nat -> r = Ok (c row col) /\ rj' = [])).
Proof.
  revert rj. induction n as [|n IH]; intros rj; cbn [safe_cell_loop].
  - apply spec_raise. split; [constructor|lia].
  - apply spec_try_except, spec_cell_value.
    destruct rj as [|[e|] rest].
    + split; [repeat constructor|auto].
    + destruct (str_contains "Call was rejected by callee" (exc_str e)).
      * apply spec_bind, spec_sleep.
        destruct (sleep_error delay) as [e'|];
          [split; [repeat constructor|discriminate]|].
        eapply spec_conseq; [apply IH|]. cbn beta.
        intros r evs rj' [F _]. split; [|discriminate].
        constructor; [cbn; auto|]. constructor; [exact I|exact F].
      * apply spec_raise. split; [repeat constructor|discriminate].
    + split; [repeat constructor|discriminate].
Qed.

Lemma spec_safe_cell (row col : Z) (rj : list (option exn)) :
  spec c fr rj (safe_cell row col default_retries default_delay)
    (fun r evs rj' =>
       Forall (cell_event row col) evs
       /\ (rj = [] -> r = Ok (c row col) /\ rj' = [])).
Proof.
  eapply spec_conseq; [apply spec_safe_cell_loop|]. cbn beta.
  intros r evs rj' [F H]. split; [exact F|].
  intros E. apply H; [exact E|]. cbn. lia.
Qed.

Lemma spec_write_text (shp : ref) (val_text : string)
      (rj : list (option exn)) :
  spec c fr rj (write_text shp val_text)
    (fun r evs rj' =>
       r = Ok tt /\ rj' = rj
       /\ (evs = [] \/ evs = [SetProp shp (Text val_text)])).
Proof.
  unfold write_text. apply spec_try_pass, spec_bind.
  apply spec_com_get_orientation.
  destruct (rbind (access shp GetOrientation fr) _) as [o|e]; [|auto].
  destruct (negb ((o =? 3) || (o =? 4))).
  - apply spec_com_set. auto.
  - apply spec_ret. auto.
Qed.

Lemma spec_apply_font_size (shp : ref) (size_pt : pynum)
      (rj : list (option exn)) :
  spec c fr rj (apply_font_size shp size_pt)
    (fun r evs rj' =>
       r = Ok tt /\ rj' = rj /\ evs = [SetProp shp (FontSize size_pt)]).
Proof.
  unfold apply_font_size. apply spec_try_pass, spec_com_set. auto.
Qed.

Lemma access_accepted (shp : ref) (op : com_op) (s : shape) :
  get_shape shp fr = Some s -> shp_fault s op = None ->
  rbind (access shp op fr) (fun _ => Ok tt) = Ok tt.
Proof. unfold access. intros -> ->. reflexivity. Qed.

Lemma spec_apply_coords (shp : ref) (coords : pynum * pynum * pynum * pynum)
      (rj : list (option exn)) :
  spec c fr rj (apply_coords shp coords)
    (fun r evs rj' =>
       rj' = rj /\ Forall (sets shp) evs
       /\ (geometry_accepted fr ->
           (exists s, get_shape shp fr = Some s) -> r = Ok tt)).
Proof.
  destruct coords as [[[l t] w] h]. unfold apply_coords.
  assert (S : forall st, sets shp (SetProp shp st)) by reflexivity.
  apply spec_bind, spec_com_set.
  destruct (rbind (access shp (op_of (Left l)) fr) _) as [[]|e] eqn:E1.
  2:{ repeat split; [repeat constructor|].
      intros G [s Hs]. destruct (G _ _ Hs) as (F & _).
      cbn [op_of] in E1.
      rewrite (access_accepted _ _ _ Hs F) in E1. discriminate. }
  apply spec_bind, spec_com_set.
  destruct (rbind (access shp (op_of (Top t)) fr) _) as [[]|e] eqn:E2.
  2:{ repeat split; [repeat constructor|].
      intros G [s Hs]. destruct (G _ _ Hs) as (_ & F & _).
      cbn [op_of] in E2.
      rewrite (access_accepted _ _ _ Hs F) in E2. discriminate. }
  apply spec_bind, spec_com_set.
  destruct (rbind (access shp (op_of (Width w)) fr) _) as [[]|e] eqn:E3.
  2:{ repeat split; [repeat constructor|].
      intros G [s Hs]. destruct (G _ _ Hs) as (_ & _ & F & _).
      cbn [op_of] in E3.
      rewrite (access_accepted _ _ _ Hs F) in E3. discriminate. }
  apply spec_com_set.
  repeat split; [repeat constructor|].
  intros G [s Hs]. destruct (G _ _ Hs) as (_ & _ & _ & F).
  apply (access_accepted _ _ _ Hs F).
Qed.

(** A shape that was found is there. *)
Lemma lookup_get_shape (slide : Z) (name : string) (shp : ref) :
  lookup fr slide name = Some shp ->
  exists s, get_shape shp fr = Some s /\ shp_name s = name.
Proof.
  unfold lookup, slide_shapes, get_shape.
  destruct (1 <=? slide); [|discriminate].
  destruct (nth_error fr (Z.to_nat (slide - 1))) as [shapes|] eqn:N;
    [|discriminate].
  destruct (find_shape name shapes) as [j|] eqn:F; [|discriminate].
  intros [= <-]. cbn [ref_slide ref_shape]. rewrite N.
  clear N. revert j F. induction shapes as [|s shapes IH]; intros j;
    [discriminate|].
  cbn [find_shape]. destruct (String.eqb (shp_name s) name) eqn:E.
  - intros [= <-]. exists s. split; [reflexivity|].
    now apply String.eqb_eq.
  - destruct (find_shape name shapes) as [j'|]; [|discriminate].
    intros [= <-]. apply (IH j' eq_refl).
Qed.

End Functions.

(** ** The fields of a sticker *)

Lemma coords_for_position_ok (p : Z) (size : pynum * pynum) :
  1 <= p <= 6 -> exists co, coords_for_position p size = Ok co.
Proof.
  intros H. destruct size as [w h].
  assert (D : p = 1 \/ p = 2 \/ p = 3 \/ p = 4 \/ p = 5 \/ p = 6) by lia.
  destruct D as [-> | [-> | [-> | [-> | [-> | ->]]]]]; eexists; reflexivity.
Qed.

Lemma pos_in_slide_of_range (n : Z) : 1 <= pos_in_slide_of n <= 6.
Proof.
  unfold pos_in_slide_of, stickers_per_slide.
  pose proof (Z.mod_pos_bound (n - 1) 6 ltac:(lia)). lia.
Qed.

Section Fields.

Variable force_coords : bool.
Variable c : Z -> Z -> pyval.
Variable fr : list (list shape).

(** What holds of the events of a cell read or of an assignment holds of
    the events of the field. *)
Lemma cell_field_events (target : option ref) (slide : Z) (name : string)
      (row col : Z) (evs : list event) :
  Forall (cell_event row col) evs ->
  Forall (field_event target slide name row col) evs.
Proof.
  apply Forall_impl. intros [d|r c'|s n|r st|l]; cbn; tauto.
Qed.

Lemma sets_field_events (shp : ref) (slide : Z) (name : string)
      (row col : Z) (evs : list event) :
  Forall (sets shp) evs ->
  Forall (field_event (Some shp) slide name row col) evs.
Proof.
  apply Forall_impl. intros [d|r c'|s n|r st|l]; cbn; try tauto.
  now intros ->.
Qed.

(** The shared part of a field: the shape is looked up under [name]; the
    events that follow belong to the field; and when the host answers
    every read, the cells hold host values and [after] goes through, the
    field goes through, found or missing. *)
Lemma spec_fill (G : Prop) (slide : Z) (name : string) (data_row col : Z)
      (after : ref -> M unit) :
  (forall shp rj, lookup fr slide name = Some shp ->
     spec c fr rj (after shp) (fun r evs rj' =>
       rj' = rj /\ Forall (sets shp) evs /\ (G -> r = Ok tt))) ->
  forall rj,
    spec c fr rj (fill slide slide name data_row col after)
      (fun r evs rj' =>
         field_group fr slide name data_row col evs
         /\ (rj = [] -> host_cells c -> G -> r = Ok tt /\ rj' = [])).
Proof.
  intros After rj. unfold fill, fill_on, field_group.
  apply spec_bind, spec_safe_shape.
  destruct (lookup fr slide name) as [shp|] eqn:L.
  - apply spec_bind. eapply spec_conseq; [apply spec_safe_cell|].
    cbn beta. intros r evs rj1 [F1 H1].
    pose proof (cell_field_events (Some shp) slide name _ _ _ F1) as F1'.
    destruct r as [val|e].
    2:{ split; [eexists; split; [reflexivity|exact F1']|].
        intros E _ _. destruct (H1 E). discriminate. }
    apply spec_bind, spec_lift.
    destruct (clean_value val) as [val_text|e] eqn:CV.
    2:{ split; [eexists; split; [reflexivity|]|].
        - rewrite app_nil_r. exact F1'.
        - intros E HC _. destruct (H1 E) as [[= ->] _].
          destruct (clean_value_total _ (HC data_row col)) as [t T].
          congruence. }
    apply spec_bind, spec_emit; [exact I|].
    apply spec_bind. eapply spec_conseq; [apply spec_write_text|].
    cbn beta. intros r2 evs2 rj2 (-> & -> & E2).
    eapply spec_conseq; [apply (After shp rj1 eq_refl)|].
    cbn beta. intros r3 evs3 rj3 (-> & F3 & HG).
    split.
    + eexists. split; [reflexivity|].
      apply Forall_app. split; [exact F1'|]. cbn [app].
      constructor; [cbn; auto|].
      apply Forall_app. split; [|apply sets_field_events, F3].
      destruct E2 as [-> | ->]; repeat constructor.
    + intros E _ HG'. destruct (H1 E) as [_ ->]. auto.
  - apply spec_emit; [exact I|]. split.
    + eexists. split; [reflexivity|]. repeat constructor.
    + auto.
Qed.

Lemma spec_points_after (slide : Z) (name : string) (pos : Z) (shp : ref)
      (rj : list (option exn)) :
  lookup fr slide name = Some shp ->
  spec c fr rj
    (if force_coords then
       ' (left_, top_, width, height) <-
         lift (coords_for_position pos CABINET_SIZE) ;;
       width40 <- lift (py_add width (PInt 40)) ;;
       apply_coords shp (left_, top_, width40, height)
     else ret tt)
    (fun r evs rj' =>
       rj' = rj /\ Forall (sets shp) evs /\ (geometry_fine force_coords fr pos -> r = Ok tt)).
Proof.
  intros L. remember (geometry_fine force_coords fr pos) as GF eqn:HGF.
  destruct force_coords eqn:FC; [|apply spec_ret; auto].
  apply spec_bind, spec_lift.
  destruct (coords_for_position pos CABINET_SIZE) as [[[[l t] w] h]|e] eqn:C.
  2:{ repeat split; [constructor|]. subst GF. intros [P _].
      destruct (coords_for_position_ok pos CABINET_SIZE P). congruence. }
  apply spec_bind, spec_lift.
  assert (W : w = fst CABINET_SIZE).
  { unfold coords_for_position in C.
    destruct (py_index BASE_LEFTS _); [|discriminate].
    destruct (py_index BASE_TOPS _); [|discriminate].
    cbn [rbind] in C. unfold CABINET_SIZE in *.
    injection C as _ _ <- _. reflexivity. }
  subst w. cbn [fst CABINET_SIZE py_add PyFloat.of_int].
  change (PyFloat.nearest false 40 1)
    with (Some (S754_finite false 5629499534213120 (-47))).
  cbn [rbind]. eapply spec_conseq; [apply spec_apply_coords|].
  cbn beta. intros r evs rj' (-> & F & H). repeat split; [exact F|].
  subst GF. intros [_ GA]. apply H; [auto|].
  destruct (lookup_get_shape fr slide name shp L) as (s & Hs & _). eauto.
Qed.

Lemma spec_points (slide : Z) (sticker_str : string) (data_row pos : Z)
      (rj : list (option exn)) :
  spec c fr rj (points force_coords slide slide sticker_str data_row pos)
    (fun r evs rj' =>
       (r = Ok tt ->
        exists g1 g2 g3 g4,
          evs = g1 ++ g2 ++ g3 ++ g4
          /\ field_group fr slide ("Point " ++ sticker_str ++ ".01")%string
               data_row 9 g1
          /\ field_group fr slide ("Point " ++ sticker_str ++ ".02")%string
               data_row 10 g2
          /\ field_group fr slide ("Point " ++ sticker_str ++ ".03")%string
               data_row 11 g3
          /\ field_group fr slide ("Point " ++ sticker_str ++ ".04")%string
               data_row 12 g4)
       /\ (rj = [] -> host_cells c -> geometry_fine force_coords fr pos ->
           r = Ok tt /\ rj' = [])).
Proof.
  unfold points, points_on.
  change (combine (py_range 9 13) (py_range 1 5))
    with [(9, 1); (10, 2); (11, 3); (12, 4)].
  cbn [for_each].
  change (fmt_02d 1) with "01". change (fmt_02d 2) with "02".
  change (fmt_02d 3) with "03". change (fmt_02d 4) with "04".
  apply spec_bind.
  eapply spec_conseq;
    [apply (spec_fill (geometry_fine force_coords fr pos)); intros; eapply spec_points_after; eassumption|].
  cbn beta. intros [[]|e] g1 rj1 [G1 H1].
  2:{ split; [discriminate|]. intros E HC HG. destruct (H1 E HC HG).
      discriminate. }
  apply spec_bind.
  eapply spec_conseq;
    [apply (spec_fill (geometry_fine force_coords fr pos)); intros; eapply spec_points_after; eassumption|].
  cbn beta. intros [[]|e] g2 rj2 [G2 H2].
  2:{ split; [discriminate|]. intros E HC HG.
      destruct (H1 E HC HG) as [_ ->]. destruct (H2 eq_refl HC HG).
      discriminate. }
  apply spec_bind.
  eapply spec_conseq;
    [apply (spec_fill (geometry_fine force_coords fr pos)); intros; eapply spec_points_after; eassumption|].
  cbn beta. intros [[]|e] g3 rj3 [G3 H3].
  2:{ split; [discriminate|]. intros E HC HG.
      destruct (H1 E HC HG) as [_ ->]. destruct (H2 eq_refl HC HG) as [_ ->].
      destruct (H3 eq_refl HC HG). discriminate. }
  apply spec_bind.
  eapply spec_conseq;
    [apply (spec_fill (geometry_fine force_coords fr pos)); intros; eapply spec_points_after; eassumption|].
  cbn beta. intros r g4 rj4 [G4 H4].
  assert (K : rj = [] -> host_cells c -> geometry_fine force_coords fr pos ->
              r = Ok tt /\ rj4 = []).
  { intros E HC HG.
    destruct (H1 E HC HG) as [_ ->]. destruct (H2 eq_refl HC HG) as [_ ->].
    destruct (H3 eq_refl HC HG) as [_ ->]. apply (H4 eq_refl HC HG). }
  destruct r as [[]|e].
  - apply spec_ret. split; [|exact K].
    intros _. exists g1, g2, g3, g4. rewrite !app_nil_r. auto.
  - split; [discriminate|exact K].
Qed.

Lemma spec_loto_amount (slide : Z) (sticker_str : string)
      (data_row pos : Z) (rj : list (option exn)) :
  spec c fr rj
    (loto_amount force_coords slide slide sticker_str data_row pos)
    (fun r evs rj' =>
       field_group fr slide ("LOTO Amount " ++ sticker_str)%string
         data_row 13 evs
       /\ (rj = [] -> host_cells c -> geometry_fine force_coords fr pos ->
           r = Ok tt /\ rj' = [])).
Proof.
  unfold loto_amount, loto_amount_on.
  apply (spec_fill (geometry_fine force_coords fr pos)).
  intros shp rj0 L.
  remember (geometry_fine force_coords fr pos) as GF eqn:HGF.
  destruct force_coords eqn:FC; [|apply spec_ret; auto].
  apply spec_bind, spec_lift.
  destruct (coords_for_position pos LOTO_SIZE) as [co|e] eqn:C.
  2:{ repeat split; [constructor|]. subst GF. intros [P _].
      destruct (coords_for_position_ok pos LOTO_SIZE P). congruence. }
  apply spec_bind. eapply spec_conseq; [apply spec_apply_coords|].
  cbn beta. intros r evs rj' (-> & F & H).
  assert (K : GF -> r = Ok tt).
  { subst GF. intros [_ GA]. apply H; [auto|].
    destruct (lookup_get_shape fr slide _ shp L) as (s & Hs & _). eauto. }
  destruct r as [[]|e].
  - eapply spec_conseq; [apply spec_apply_font_size|].
    cbn beta. intros r2 evs2 rj2 (-> & -> & ->). repeat split.
    cbn [app]. apply Forall_app. split; [exact F|]. repeat constructor.
  - repeat split; auto.
Qed.

Lemma spec_cabinet (slide : Z) (sticker_str : string)
      (data_row pos : Z) (rj : list (option exn)) :
  spec c fr rj
    (cabinet force_coords slide slide sticker_str data_row pos)
    (fun r evs rj' =>
       field_group fr slide ("Cabinet " ++ sticker_str)%string
         data_row 14 evs
       /\ (rj = [] -> host_cells c -> geometry_fine force_coords fr pos ->
           r = Ok tt /\ rj' = [])).
Proof.
  unfold cabinet, cabinet_on.
  apply (spec_fill (geometry_fine force_coords fr pos)).
  intros shp rj0 L. apply spec_bind.
  remember (geometry_fine force_coords fr pos) as GF eqn:HGF.
  assert (Tail : forall evs,
            Forall (sets shp) evs ->
            spec c fr rj0 (apply_font_size shp CABINET_FONT_SIZE)
              (fun r2 evs2 rj2 =>
                 rj2 = rj0 /\ Forall (sets shp) (evs ++ evs2)
                 /\ (GF -> r2 = Ok tt))).
  { intros evs F. eapply spec_conseq; [apply spec_apply_font_size|].
    cbn beta. intros r2 evs2 rj2 (-> & -> & ->). repeat split.
    apply Forall_app. split; [exact F|]. repeat constructor. }
  destruct force_coords eqn:FC; [|apply spec_ret, Tail; constructor].
  apply spec_bind, spec_lift.
  destruct (coords_for_position pos CABINET_SIZE) as [co|e] eqn:C.
  2:{ repeat split; [constructor|]. subst GF. intros [P _].
      destruct (coords_for_position_ok pos CABINET_SIZE P). congruence. }
  eapply spec_conseq; [apply spec_apply_coords|].
  cbn beta. intros r evs rj' (-> & F & H).
  assert (K : GF -> r = Ok tt).
  { subst GF. intros [_ GA]. apply H; [auto|].
    destruct (lookup_get_shape fr slide _ shp L) as (s & Hs & _). eauto. }
  destruct r as [[]|e]; [apply Tail, F|]. repeat split; auto.
Qed.

End Fields.

(** ** The row loop *)

Section Loop.

Variable force_coords : bool.
Variable c : Z -> Z -> pyval.
Variable fr : list (list shape).

(** One sticker: a warning and nothing else when its slide is missing;
    else its six fields in order; and it goes through when the host
    answers every read, the cells hold host values and the geometry
    writes are accepted. *)
Lemma spec_sticker (n : Z) (rj : list (option exn)) :
  1 <= n <= total_stickers ->
  spec c fr rj (sticker force_coords (n + 2))
    (fun r evs rj' =>
       let s := (n + 5) / 6 in
       (Z.of_nat (List.length fr) < s ->
        r = Ok tt /\ rj' = rj
        /\ evs = [Print (MissingSlide s (fmt_02d n))])
       /\ (s <= Z.of_nat (List.length fr) -> r = Ok tt ->
           sticker_events fr n evs)
       /\ (rj = [] -> host_cells c ->
           (force_coords = true -> geometry_accepted fr) ->
           r = Ok tt /\ rj' = [])).
Proof.
  intros Hn. unfold sticker, sticker_on.
  replace (n + 2 - 2) with n by lia.
  unfold total_stickers in Hn.
  rewrite slide_index_of_ok by lia.
  set (s := (n + 5) / 6).
  assert (S1 : 1 <= s).
  { subst s. apply Z.div_le_lower_bound; lia. }
  assert (GF : (force_coords = true -> geometry_accepted fr) ->
               geometry_fine force_coords fr (pos_in_slide_of n)).
  { intros G. split; [apply pos_in_slide_of_range|exact G]. }
  apply spec_bind, spec_lift, spec_bind, spec_slides_count.
  destruct (Z.of_nat (List.length fr) <? s) eqn:Miss.
  - apply Z.ltb_lt in Miss. apply spec_emit; [exact I|].
    cbn [app]. repeat split; auto. lia.
  - apply Z.ltb_ge in Miss. apply spec_bind, spec_get_slide.
    replace ((1 <=? s) && (s <=? Z.of_nat (List.length fr))) with true
      by (symmetry; apply andb_true_iff; split; apply Z.leb_le; lia).
    apply spec_bind. eapply spec_conseq; [apply spec_points|].
    cbn beta. intros [[]|e] gp rj1 [GP HP].
    2:{ cbn [app]. split; [lia|]. split; [discriminate|].
        intros E HC G. destruct (HP E HC (GF G)). discriminate. }
    apply spec_bind. eapply spec_conseq; [apply spec_loto_amount|].
    cbn beta. intros [[]|e] g5 rj2 [G5 H5].
    2:{ cbn [app]. split; [lia|]. split; [discriminate|].
        intros E HC G. destruct (HP E HC (GF G)) as [_ ->].
        destruct (H5 eq_refl HC (GF G)). discriminate. }
    eapply spec_conseq; [apply spec_cabinet|].
    cbn beta. intros r g6 rj3 [G6 H6]. cbn [app].
    split; [lia|]. split.
    + intros _ _. destruct (GP eq_refl) as (g1 & g2 & g3 & g4 & -> & F).
      exists g1, g2, g3, g4, g5, g6. rewrite <- !app_assoc. tauto.
    + intros E HC G. destruct (HP E HC (GF G)) as [_ ->].
      destruct (H5 eq_refl HC (GF G)) as [_ ->].
      apply (H6 eq_refl HC (GF G)).
Qed.

(** A loop whose every turn goes through goes through. *)
Lemma spec_for_each {A} (P : Prop) (l : list A) (body : A -> M unit) :
  (forall x rj, In x l ->
     spec c fr rj (body x)
       (fun r _ rj' => rj = [] -> P -> r = Ok tt /\ rj' = [])) ->
  forall rj,
    spec c fr rj (for_each l body)
      (fun r _ rj' => rj = [] -> P -> r = Ok tt /\ rj' = []).
Proof.
  induction l as [|x l IH]; intros B rj; cbn [for_each].
  - apply spec_ret. auto.
  - apply spec_bind. eapply spec_conseq; [apply B; left; reflexivity|].
    cbn beta. intros [[]|e] evs rj1 H.
    + eapply spec_conseq; [apply IH; intros; apply B; right; assumption|].
      cbn beta. intros r evs2 rj2 H2 E HP.
      destruct (H E HP) as [_ ->]. apply (H2 eq_refl HP).
    + exact H.
Qed.

(** The run: when the host answers every read, the cells hold host
    values and the geometry writes are accepted, it reaches its last
    line. *)
Lemma spec_main (rj : list (option exn)) :
  spec c fr rj (main force_coords)
    (fun r evs rj' =>
       rj = [] -> host_cells c ->
       (force_coords = true -> geometry_accepted fr) ->
       r = Ok tt /\ rj' = [] /\ exists evs', evs = evs' ++ [Print Done]).
Proof.
  unfold main, main_on. apply spec_bind.
  eapply spec_conseq.
  - apply (spec_for_each
             (host_cells c /\ (force_coords = true -> geometry_accepted fr))).
    intros x rj0 Hx. apply In_py_range in Hx.
    replace x with (x - 2 + 2) by lia.
    eapply spec_conseq;
      [apply spec_sticker; unfold total_stickers in *; lia|].
    cbn beta. intros r evs rj' (_ & _ & H) E [HC G]. auto.
  - cbn beta. intros [[]|e] evs rj1 H.
    + apply spec_emit; [exact I|]. intros E HC G.
      destruct (H E (conj HC G)) as [_ ->]. eauto.
    + intros E HC G. destruct (H E (conj HC G)). discriminate.
Qed.

End Loop.

(** What a computation does to a world, read off its [spec]. *)
Lemma spec_run {A} (w : world) (m : M A)
      (Q : result A -> list event -> list (option exn) -> Prop) :
  spec (cells w) (frame (slides w)) (rejections w) m Q ->
  exists r evs rj',
    Q r evs rj'
    /\ m w = (r, mkWorld (cells w) rj' (replay evs (slides w))
                   (trace w ++ evs)).
Proof.
  intros (r & evs & rj' & HQ & E). exists r, evs, rj'.
  split; [exact HQ|]. destruct w as [c rj sl tr]. now apply E.
Qed.

(** ** Assignments replayed twice *)

Lemma ref_eq_dec (a b : ref) : {a = b} + {a <> b}.
Proof. decide equality; apply Nat.eq_dec. Qed.

Lemma com_op_eq_dec (a b : com_op) : {a = b} + {a <> b}.
Proof. decide equality. Qed.

Lemma fault_assign (st : setting) (s : shape) :
  shp_fault (assign st s) = shp_fault s.
Proof. destruct st; reflexivity. Qed.

(** Two assignments to one field: the later one wins. *)
Lemma attempt_absorb (a b : setting) (s : shape) :
  op_of a = op_of b -> attempt b (attempt a s) = attempt b s.
Proof.
  intros E. unfold attempt. rewrite E.
  destruct (shp_fault s (op_of b)) eqn:F; [now rewrite F|].
  rewrite fault_assign, F.
  destruct a, b; try discriminate; reflexivity.
Qed.

(** Assignments to two fields can be swapped. *)
Lemma attempt_commute (a b : setting) (s : shape) :
  op_of a <> op_of b -> attempt b (attempt a s) = attempt a (attempt b s).
Proof.
  intros N. unfold attempt.
  destruct (shp_fault s (op_of a)) eqn:Fa;
    destruct (shp_fault s (op_of b)) eqn:Fb;
    rewrite ?fault_assign, ?Fa, ?Fb; try reflexivity.
  destruct a, b; try reflexivity; exfalso; apply N; reflexivity.
Qed.

(** Two events either commute, or the later one hides the earlier. *)
Lemma apply_event_pair (a b : event) :
  (forall sl, apply_event b (apply_event a sl)
              = apply_event a (apply_event b sl))
  \/ (forall sl, apply_event b (apply_event a sl) = apply_event b sl).
Proof.
  destruct a as [d|r c|s n|ra sa|l]; try (left; reflexivity).
  destruct b as [d|r c|s n|rb sb|l]; try (left; reflexivity).
  destruct ra as [ia ja], rb as [ib jb]. cbn [apply_event ref_slide ref_shape].
  destruct (Nat.eq_dec ia ib) as [<-|Ni].
  2:{ left. intros sl. apply update_nth_swap. congruence. }
  destruct (Nat.eq_dec ja jb) as [<-|Nj].
  2:{ left. intros sl. rewrite !update_nth_twice.
      apply update_nth_ext. intros shapes.
      apply update_nth_swap. congruence. }
  destruct (com_op_eq_dec (op_of sa) (op_of sb)) as [E|N].
  - right. intros sl. rewrite !update_nth_twice.
    apply update_nth_ext. intros shapes. rewrite update_nth_twice.
    apply update_nth_ext. intros s. now apply attempt_absorb.
  - left. intros sl. rewrite !update_nth_twice.
    apply update_nth_ext. intros shapes. rewrite !update_nth_twice.
    apply update_nth_ext. intros s. now apply attempt_commute.
Qed.

Lemma apply_event_twice (a : event) (sl : list (list shape)) :
  apply_event a (apply_event a sl) = apply_event a sl.
Proof.
  destruct a as [d|r c|s n|r st|l]; try reflexivity.
  cbn [apply_event]. rewrite update_nth_twice.
  apply update_nth_ext. intros shapes. rewrite update_nth_twice.
  apply update_nth_ext. intros s. now apply attempt_absorb.
Qed.

Lemma replay_cons (a : event) (evs : list event) (sl : list (list shape)) :
  replay (a :: evs) sl = replay evs (apply_event a sl).
Proof. reflexivity. Qed.

(** An event that is replayed at the end may be dropped at the start. *)
Lemma replay_absorb (evs : list event) (a : event) (sl : list (list shape)) :
  apply_event a (replay evs (apply_event a sl))
  = apply_event a (replay evs sl).
Proof.
  revert sl. induction evs as [|b evs IH]; intros sl.
  - apply apply_event_twice.
  - rewrite !replay_cons.
    destruct (apply_event_pair a b) as [C|H].
    + rewrite C. apply IH.
    + now rewrite H.
Qed.

(** Replaying the events of a run on its own result changes nothing. *)
Lemma replay_twice (evs : list event) (sl : list (list shape)) :
  replay evs (replay evs sl) = replay evs sl.
Proof.
  revert sl. induction evs as [|a evs IH] using rev_ind; intros sl;
    [reflexivity|].
  rewrite !replay_app. cbn [replay fold_left].
  fold (replay evs (apply_event a (replay evs sl))).
  now rewrite replay_absorb, IH.
Qed.

(** ** Idempotence *)

(** C10. A second write pass, run on the slides the first pass left, with
    the worksheet unchanged and the host answering as before, performs the
    same assignments and leaves every shape as the first pass left it:
    same texts, same coordinates, same font sizes; nothing accumulates. *)
Theorem write_pass_idempotent (force_coords : bool) (w : world)
        (tr : list event) :
  let first := main force_coords w in
  let second :=
    main force_coords
      (mkWorld (cells w) (rejections w) (slides (snd first)) tr) in
  slides (snd second) = slides (snd first)
  /\ fst second = fst first
  /\ exists evs,
      trace (snd first) = trace w ++ evs
      /\ trace (snd second) = tr ++ evs.
Proof.
  destruct (spec_main force_coords (cells w) (frame (slides w)) (rejections w))
    as (r & evs & rj' & _ & E).
  destruct w as [c rj sl t0]. cbn [cells rejections slides trace] in *.
  cbn zeta. rewrite (E sl t0 eq_refl). cbn [snd fst slides trace].
  rewrite (E (replay evs sl) tr (frame_replay evs sl)).
  cbn [snd fst slides trace]. rewrite replay_twice. eauto.
Qed.

(** ** Shape writer *)

Lemma get_shape_apply_same (r : ref) (st : setting) (sl : list (list shape)) :
  get_shape r (apply_event (SetProp r st) sl)
  = option_map (attempt st) (get_shape r sl).
Proof.
  unfold get_shape, apply_event. rewrite nth_error_update_nth.
  destruct (nth_error sl (ref_slide r)) as [shapes|]; [|reflexivity].
  cbn [option_map]. apply nth_error_update_nth.
Qed.

Lemma get_shape_apply_other (r r' : ref) (st : setting)
      (sl : list (list shape)) :
  r' <> r ->
  get_shape r' (apply_event (SetProp r st) sl) = get_shape r' sl.
Proof.
  intros N. destruct r as [i j], r' as [i' j'].
  unfold get_shape, apply_event. cbn [ref_slide ref_shape].
  destruct (Nat.eq_dec i i') as [<-|Ni].
  - rewrite nth_error_update_nth.
    destruct (nth_error sl i) as [shapes|]; [|reflexivity].
    cbn [option_map]. apply nth_error_update_nth_other. congruence.
  - now rewrite nth_error_update_nth_other.
Qed.

(** An assignment the host refuses changes no slide. *)
Lemma apply_event_refused (r : ref) (st : setting) (sl : list (list shape))
      (s : shape) (e : exn) :
  get_shape r sl = Some s -> shp_fault s (op_of st) = Some e ->
  apply_event (SetProp r st) sl = sl.
Proof.
  unfold get_shape, apply_event. intros G F.
  destruct (nth_error sl (ref_slide r)) as [shapes|] eqn:N; [|discriminate].
  apply (update_nth_fixed _ _ _ shapes N).
  apply (update_nth_fixed _ _ _ s G).
  unfold attempt. now rewrite F.
Qed.

(** C9. The text write replaces the text of a shape exactly when the
    orientation of its text frame is neither 3 nor 4: a vertical shape is
    left as it is, and a refusal of the host, on reading the orientation
    or on writing the text, is swallowed: the write returns normally and
    the slides are unchanged. *)
Theorem write_text_spec (shp : ref) (val_text : string) (w : world)
        (s : shape) (Hs : get_shape shp (slides w) = Some s) :
  let out := write_text shp val_text w in
  let vertical := (shp_orientation s =? 3) || (shp_orientation s =? 4) in
  fst out = Ok tt
  /\ cells (snd out) = cells w
  /\ rejections (snd out) = rejections w
  /\ (vertical = true -> snd out = w)
  /\ (vertical = false ->
      shp_fault s GetOrientation = None -> shp_fault s SetText = None ->
      get_shape shp (slides (snd out)) = Some (assign (Text val_text) s)
      /\ (forall r, r <> shp ->
            get_shape r (slides (snd out)) = get_shape r (slides w))
      /\ trace (snd out) = trace w ++ [SetProp shp (Text val_text)])
  /\ (shp_fault s GetOrientation <> None \/ shp_fault s SetText <> None ->
      slides (snd out) = slides w).
Proof.
  destruct w as [c rj sl tr]. cbn [slides] in Hs.
  unfold write_text, try_pass, bind, com_get_orientation, com_set, ret, access.
  cbn [slides cells rejections trace]. rewrite Hs.
  destruct (shp_fault s GetOrientation) as [e|] eqn:FO; cbn [rbind].
  - cbn [fst snd cells rejections slides trace].
    repeat split; try reflexivity; intros; discriminate.
  - destruct ((shp_orientation s =? 3) || (shp_orientation s =? 4)) eqn:V;
      cbn [negb fst snd cells rejections slides trace].
    + repeat split; try reflexivity; try discriminate.
    + cbn [op_of]. rewrite ?Hs. destruct (shp_fault s SetText) as [e|] eqn:FT;
        cbn [rbind fst snd cells rejections slides trace].
      * repeat split; try reflexivity; try discriminate.
        intros _.
        apply (apply_event_refused shp (Text val_text) sl s e Hs FT).
      * repeat split; try reflexivity; try discriminate.
        -- rewrite get_shape_apply_same, Hs. cbn [option_map].
           unfold attempt. cbn [op_of]. now rewrite FT.
        -- intros r N. now apply get_shape_apply_other.
        -- intros [N|N]; congruence.
Qed.

Lemma write_text_spec_witness :
  get_shape (mkRef 0 0) (slides cabinet_world) = Some (text_box "Cabinet 01")
  /\ get_shape (mkRef 0 0)
       (slides (snd (write_text (mkRef 0 0) "Valve 7" cabinet_world)))
     = Some (assign (Text "Valve 7") (text_box "Cabinet 01")).
Proof.
  assert (H : get_shape (mkRef 0 0) (slides cabinet_world)
              = Some (text_box "Cabinet 01")) by reflexivity.
  split; [exact H|].
  apply (write_text_spec (mkRef 0 0) "Valve 7" cabinet_world _ H);
    reflexivity.
Defined.

(** ** The force-coordinates flag *)

(** C4 (failing input). With the flag off, as the script ships, the run
    leaves the geometry of the cabinet label alone and writes its text,
    but it does set its font size: the 12-point label of sticker 1 comes
    out at [CABINET_FONT_SIZE].  Line 261 is outside the guard of line
    259, while the count label's font size (line 232) is inside the guard
    of line 230. *)
Theorem cabinet_font_without_flag :
  FORCE_COORDS = false
  /\ get_shape (mkRef 0 0) (slides cabinet_world)
     = Some (mkShape "Cabinet 01" (PInt 0) (PInt 0) (PInt 0) (PInt 0) 1
               "" (PInt 12) no_fault)
  /\ fst (main FORCE_COORDS cabinet_world) = Ok tt
  /\ get_shape (mkRef 0 0) (slides (snd (main FORCE_COORDS cabinet_world)))
     = Some (mkShape "Cabinet 01" (PInt 0) (PInt 0) (PInt 0) (PInt 0) 1
               "Valve 7" (PInt 10) no_fault)
  /\ CABINET_FONT_SIZE = PInt 10.
Proof. repeat split; vm_compute; reflexivity. Qed.

(** C5 (failing input). With the flag on, the count label and the cabinet
    label get their own entries of the size table and their own font
    sizes, but a point label gets the cabinet size widened by 40 and keeps
    its font size: [POINT_SIZE] and [POINT_FONT_SIZE] are never used
    (lines 200-203). *)
Theorem point_shape_gets_cabinet_size :
  let after := slides (snd (main true three_fields_world)) in
  let wide := PFloat (PyFloat.add (PyFloat.lit 13412 100) (PyFloat.lit 40 1)) in
  fst (main true three_fields_world) = Ok tt
  /\ py_add (fst CABINET_SIZE) (PInt 40) = Ok wide
  /\ get_shape (mkRef 0 0) after
     = Some (mkShape "Point 01.01" (PInt 2) (PInt 63) wide
               (snd CABINET_SIZE) 1 "Valve 7" (PInt 12) no_fault)
  /\ wide <> fst POINT_SIZE
  /\ snd CABINET_SIZE <> snd POINT_SIZE
  /\ PInt 12 <> POINT_FONT_SIZE
  /\ get_shape (mkRef 0 1) after
     = Some (mkShape "LOTO Amount 01" (PInt 2) (PInt 63)
               (fst LOTO_SIZE) (snd LOTO_SIZE) 1 "Valve 7" LOTO_FONT_SIZE
               no_fault)
  /\ get_shape (mkRef 0 2) after
     = Some (mkShape "Cabinet 01" (PInt 2) (PInt 63)
               (fst CABINET_SIZE) (snd CABINET_SIZE) 1 "Valve 7"
               CABINET_FONT_SIZE no_fault).
Proof.
  cbn zeta. repeat split; try (vm_compute; reflexivity);
    vm_compute; discriminate.
Qed.

(** ** Tolerated failures *)


Lemma lines_sets (shp : ref) (evs : list event) :
  Forall (sets shp) evs -> lines evs = [].
Proof.
  induction 1 as [|ev evs H _ IH]; [reflexivity|].
  destruct ev; try destruct H. exact IH.
Qed.

Lemma frame_length (sl : list (list shape)) :
  List.length (frame sl) = List.length sl.
Proof. apply length_map. Qed.






(** ** Addressing of a sticker *)

(** The index text has two digits up to 99 and three from 100 on. *)
Lemma fmt_02d_length (n : Z) :
  1 <= n <= total_stickers ->
  String.length (fmt_02d n) = (if n <? 100 then 2%nat else 3%nat).
Proof.
  intros H. unfold total_stickers in H.
  assert (C : forallb (fun k =>
                 Nat.eqb (String.length (fmt_02d k))
                   (if k <? 100 then 2%nat else 3%nat)) (py_range 1 121) = true)
    by (vm_compute; reflexivity).
  apply Nat.eqb_eq. apply (range_forallb _ _ _ C). lia.
Qed.

(** C7 (as stated, refuted). Sticker 100 is within [1 .. total_stickers];
    its index is written with three digits, and the first shape the run
    looks up for it, on slide 17, is "Point 100.01". *)
Lemma sticker_100_name :
  1 <= 100 <= total_stickers
  /\ fmt_02d 100 = "100"
  /\ String.length (fmt_02d 100) <> 2%nat
  /\ finds (trace (snd (sticker FORCE_COORDS (100 + 2) empty_deck)))
     = [(17, "Point 100.01"); (17, "Point 100.02"); (17, "Point 100.03");
        (17, "Point 100.04"); (17, "LOTO Amount 100"); (17, "Cabinet 100")].
Proof.
  split; [unfold total_stickers; lia|].
  split; [reflexivity|]. split; [vm_compute; discriminate|].
  vm_compute. reflexivity.
Qed.

(** C7 (amended). For every sticker index [n] in [1 .. total_stickers]
    whose slide exists, a pass over row [n + 2] that returns normally
    looks up, in order and on slide [ceil(n/6)], the shapes "Point NN.01"
    to "Point NN.04", "LOTO Amount NN" and "Cabinet NN", reads for each
    the cell of row [n + 2] in columns 9 to 12, 13 and 14, and assigns
    only to the shape found under that name; NN is the index in decimal,
    padded with a zero to at least two digits: two digits up to 99, three
    from 100 on.  Sticker 13 reads row 15 and looks up Point 13.01 to
    13.04, LOTO Amount 13 and Cabinet 13 on slide 3. *)
Theorem sticker_addressing (force_coords : bool) (n : Z) (w : world)
        (H : 1 <= n <= total_stickers)
        (S : (n + 5) / 6 <= Z.of_nat (List.length (slides w)))
        (N : fst (sticker force_coords (n + 2) w) = Ok tt) :
  slide_index_of n = Ok ((n + 5) / 6)
  /\ String.length (fmt_02d n) = (if n <? 100 then 2%nat else 3%nat)
  /\ (exists evs,
        trace (snd (sticker force_coords (n + 2) w)) = trace w ++ evs
        /\ sticker_events (frame (slides w)) n evs)
  /\ finds (trace (snd (sticker FORCE_COORDS (13 + 2) sticker_13_world)))
     = [(3, "Point 13.01"); (3, "Point 13.02"); (3, "Point 13.03");
        (3, "Point 13.04"); (3, "LOTO Amount 13"); (3, "Cabinet 13")]
  /\ reads (trace (snd (sticker FORCE_COORDS (13 + 2) sticker_13_world)))
     = [(15, 9); (15, 10); (15, 11); (15, 12); (15, 13); (15, 14)].
Proof.
  split; [apply slide_index_of_ok; unfold total_stickers in H; lia|].
  split; [apply fmt_02d_length, H|].
  split; [|split; vm_compute; reflexivity].
  destruct (spec_run w _ _ (spec_sticker force_coords _ _ n (rejections w) H))
    as (r & evs & rj' & (_ & E & _) & R).
  rewrite R in N |- *. cbn [fst snd trace] in N |- *.
  exists evs. split; [reflexivity|].
  cbn zeta in E. rewrite frame_length in E. apply (E S N).
Qed.

Lemma sticker_addressing_witness :
  1 <= 13 <= total_stickers
  /\ (13 + 5) / 6 <= Z.of_nat (List.length (slides sticker_13_world))
  /\ fst (sticker FORCE_COORDS (13 + 2) sticker_13_world) = Ok tt
  /\ exists evs,
      trace (snd (sticker FORCE_COORDS (13 + 2) sticker_13_world))
      = trace sticker_13_world ++ evs
      /\ sticker_events (frame (slides sticker_13_world)) 13 evs.
Proof.
  assert (H : 1 <= 13 <= total_stickers) by (unfold total_stickers; lia).
  assert (S : (13 + 5) / 6
              <= Z.of_nat (List.length (slides sticker_13_world)))
    by (vm_compute; discriminate).
  assert (N : fst (sticker FORCE_COORDS (13 + 2) sticker_13_world) = Ok tt)
    by (vm_compute; reflexivity).
  split; [exact H|]. split; [exact S|]. split; [exact N|].
  destruct (sticker_addressing FORCE_COORDS 13 sticker_13_world H S N)
    as (_ & _ & E & _).
  exact E.
Defined.

(** * Further properties of the script *)

(** ** The grid beyond its six slots *)

(** X1. [coords_for_position] answers exactly on the positions -5 to 6:
    positions 1 to 6 are the six slots, positions -5 to 0 wrap around to
    the same slots through Python's negative indices, and every other
    position raises [IndexError]. *)
Theorem coords_for_position_domain (p : Z) (w h : pynum) :
  coords_for_position p (w, h)
  = if (-5 <=? p) && (p <=? 6) then
      Ok (nth (Z.to_nat ((p - 1) mod 2)) BASE_LEFTS (PInt 0),
          nth (Z.to_nat (((p - 1) / 2) mod 3)) BASE_TOPS (PInt 0), w, h)
    else Raise (mkExn IndexError "list index out of range").
Proof.
  destruct ((-5 <=? p) && (p <=? 6)) eqn:D.
  - apply andb_true_iff in D. destruct D as [A B].
    apply Z.leb_le in A, B.
    assert (C : p = -5 \/ p = -4 \/ p = -3 \/ p = -2 \/ p = -1 \/ p = 0
                \/ p = 1 \/ p = 2 \/ p = 3 \/ p = 4 \/ p = 5 \/ p = 6) by lia.
    repeat (destruct C as [-> | C]; [reflexivity|]). subst p. reflexivity.
  - unfold coords_for_position.
    pose proof (Z.mod_pos_bound (p - 1) 2 ltac:(lia)) as M.
    assert (L : exists l, py_index BASE_LEFTS ((p - 1) mod 2) = Ok l).
    { assert (C : (p - 1) mod 2 = 0 \/ (p - 1) mod 2 = 1) by lia.
      destruct C as [-> | ->]; eexists; reflexivity. }
    destruct L as [l ->]. cbn [rbind].
    assert (R : (p - 1) / 2 < -3 \/ 3 <= (p - 1) / 2).
    { apply andb_false_iff in D. destruct D as [D | D].
      - apply Z.leb_gt in D. left.
        apply Z.div_lt_upper_bound; lia.
      - apply Z.leb_gt in D. right.
        apply Z.div_le_lower_bound; lia. }
    unfold py_index. cbn [BASE_TOPS List.length Z.of_nat Pos.of_succ_nat
                          Pos.succ].
    destruct ((p - 1) / 2 <? 0) eqn:N.
    + apply Z.ltb_lt in N.
      replace (0 <=? (p - 1) / 2 + 3) with false
        by (symmetry; apply Z.leb_gt; lia).
      reflexivity.
    + apply Z.ltb_ge in N.
      replace ((p - 1) / 2 <? 3) with false
        by (symmetry; apply Z.ltb_ge; lia).
      rewrite andb_false_r. reflexivity.
Qed.

(** ** The index mapper as a bijection *)

(** X2. The slide and the position determine the sticker: on every index
    from 1 to 720, [n = 6 * (slide - 1) + position], so two stickers with
    the same slide and the same position are the same sticker. *)
Theorem slide_and_position_give_index (n m : Z)
        (Hn : 1 <= n <= 720) (Hm : 1 <= m <= 720) :
  (exists s, slide_index_of n = Ok s /\ n = 6 * (s - 1) + pos_in_slide_of n)
  /\ (slide_index_of n = slide_index_of m ->
      pos_in_slide_of n = pos_in_slide_of m -> n = m).
Proof.
  assert (F : forall k, 1 <= k <= 720 ->
                k = 6 * ((k + 5) / 6 - 1) + pos_in_slide_of k).
  { intros k Hk. unfold pos_in_slide_of, stickers_per_slide.
    pose proof (Z.div_mod (k - 1) 6 ltac:(lia)) as D.
    replace ((k + 5) / 6) with ((k - 1) / 6 + 1); [lia|].
    replace (k + 5) with ((k - 1) + 1 * 6) by lia.
    now rewrite Z.div_add by lia. }
  split.
  - exists ((n + 5) / 6). split; [now apply slide_index_of_ok|now apply F].
  - rewrite !slide_index_of_ok by assumption. intros [= S] P.
    rewrite (F n Hn), (F m Hm), S, P. reflexivity.
Qed.

Lemma slide_and_position_give_index_witness :
  1 <= 13 <= 720 /\ 1 <= 14 <= 720
  /\ exists s, slide_index_of 13 = Ok s
               /\ 13 = 6 * (s - 1) + pos_in_slide_of 13.
Proof.
  assert (Hn : 1 <= 13 <= 720) by lia.
  assert (Hm : 1 <= 14 <= 720) by lia.
  split; [exact Hn|]. split; [exact Hm|].
  destruct (slide_and_position_give_index 13 14 Hn Hm) as [E _]. exact E.
Defined.

(** X3. No two stickers share a slot: two different indices in
    [1 .. total_stickers] differ in the slide or in the corner (left, top)
    that [coords_for_position] gives them. *)
Theorem stickers_do_not_collide (n m : Z)
        (Hn : 1 <= n <= total_stickers) (Hm : 1 <= m <= total_stickers)
        (D : n <> m) :
  exists a b, corner n = Ok a /\ corner m = Ok b /\ a <> b.
Proof.
  unfold total_stickers in *.
  assert (C : forallb (fun i => forallb (fun j =>
                 (i =? j)
                 || match corner i, corner j with
                    | Ok (s, l, t), Ok (s', l', t') =>
                        negb ((s =? s') && pynum_eqb l l' && pynum_eqb t t')
                    | _, _ => false
                    end) (py_range 1 121)) (py_range 1 121) = true)
    by (vm_compute; reflexivity).
  pose proof (range_forallb _ _ _ C n ltac:(lia)) as Cn. cbv beta in Cn.
  pose proof (range_forallb _ _ _ Cn m ltac:(lia)) as Cm. cbv beta in Cm.
  apply orb_true_iff in Cm. destruct Cm as [E | Cm].
  { apply Z.eqb_eq in E. contradiction. }
  destruct (corner n) as [[[s l] t]|]; [|discriminate].
  destruct (corner m) as [[[s' l'] t']|]; [|discriminate].
  exists (s, l, t), (s', l', t'). repeat split.
  intros [= -> -> ->]. apply negb_true_iff in Cm.
  rewrite Z.eqb_refl in Cm. cbn [andb] in Cm.
  assert (R : forall x, pynum_eqb x x = true).
  { intros [z|x]; cbn; [apply Z.eqb_refl|].
    destruct x as [[]|[]| |[] mm e]; cbn;
      rewrite ?Pos.eqb_refl, ?Z.eqb_refl; reflexivity. }
  rewrite !R in Cm. discriminate.
Qed.

Lemma stickers_do_not_collide_witness :
  1 <= 1 <= total_stickers /\ 1 <= 7 <= total_stickers /\ 1 <> 7
  /\ exists a b, corner 1 = Ok a /\ corner 7 = Ok b /\ a <> b.
Proof.
  assert (Hn : 1 <= 1 <= total_stickers) by (unfold total_stickers; lia).
  assert (Hm : 1 <= 7 <= total_stickers) by (unfold total_stickers; lia).
  assert (D : 1 <> 7) by lia.
  split; [exact Hn|]. split; [exact Hm|]. split; [exact D|].
  exact (stickers_do_not_collide 1 7 Hn Hm D).
Defined.

(** ** Names *)

Lemma str_in_In (x : string) (l : list string) :
  str_in x l = true <-> In x l.
Proof.
  unfold str_in. rewrite existsb_exists. split.
  - intros (y & I & E). apply String.eqb_eq in E. now subst.
  - intros I. exists x. split; [exact I|apply String.eqb_refl].
Qed.

Lemma distinct_NoDup (l : list string) : distinct l = true -> NoDup l.
Proof.
  induction l as [|x l IH]; cbn [distinct]; [constructor|].
  intros H. apply andb_true_iff in H. destruct H as [N D].
  constructor; [|now apply IH].
  intros I. apply str_in_In in I. rewrite I in N. discriminate.
Qed.

(** X4. The 720 shape names of a run are pairwise different: a name
    identifies its sticker and its field. *)
Theorem field_names_distinct :
  NoDup (flat_map field_names (py_range 1 (total_stickers + 1))).
Proof. apply distinct_NoDup. vm_compute. reflexivity. Qed.

(** ** Every event of a run *)

Section Events.

Variable c : Z -> Z -> pyval.
Variable fr : list (list shape).

(** The cell reader with any bound and any delay: it reads the one cell
    and sleeps the one delay, at most [n] times each; a value it returns
    is the value of the cell; and it fails either exhausted, after [n]
    reads, or with an exception of the host that is not the transient
    rejection. *)
Lemma spec_safe_cell_loop_events (row col retries : Z) (delay : spec_float)
      (n : nat) (rj : list (option exn)) :
  spec c fr rj (safe_cell_loop n row col retries delay)
    (fun r evs rj' =>
       Forall (fun ev => ev = ReadCell row col \/ ev = Sleep delay) evs
       /\ (List.length (reads evs) <= n)%nat
       /\ (List.length (sleeps evs) <= List.length (reads evs))%nat
       /\ match r with
          | Ok v => v = c row col /\ (1 <= List.length (reads evs))%nat
          | Raise e =>
              (e = exhausted retries row col
               /\ List.length (reads evs) = n)
              \/ (transient e = false /\ In (Some e) rj)
              \/ (sleep_error delay = Some e /\ sleeps evs = []
                  /\ exists e0, transient e0 = true /\ In (Some e0) rj)
          end).
Proof.
  revert rj. induction n as [|n IH]; intros rj; cbn [safe_cell_loop].
  - apply spec_raise. cbn. repeat split; auto.
  - apply spec_try_except, spec_cell_value.
    destruct rj as [|[e|] rest].
    + cbn. repeat split; auto; lia.
    + fold (transient e). destruct (transient e) eqn:T.
      * apply spec_bind, spec_sleep.
        destruct (sleep_error delay) as [e'|] eqn:SL.
        { cbn. repeat split; auto; try lia.
          right. right. repeat split; eauto. }
        eapply spec_conseq; [apply IH|]. cbn beta.
        intros r evs rj' (F & R & S & H). cbn [app].
        split; [repeat (constructor; auto)|].
        cbn [reads sleeps flat_map app List.length].
        fold (reads evs). fold (sleeps evs).
        repeat split; try lia.
        destruct r as [v|e']; [split; [apply H|lia]|].
        destruct H as [[-> L] | [[T' I'] | [SL' _]]];
          [left; split; [reflexivity|lia]| |congruence].
        right. left. split; [exact T'|right; exact I'].
      * apply spec_raise. cbn. repeat split; auto; try lia.
    + cbn. repeat split; auto; lia.
Qed.

Lemma spec_apply_coords_events (shp : ref)
      (coords : pynum * pynum * pynum * pynum) (rj : list (option exn)) :
  spec c fr rj (apply_coords shp coords)
    (fun _ evs _ => Forall geometry_event evs).
Proof.
  destruct coords as [[[l t] w] h]. unfold apply_coords.
  apply spec_bind, spec_com_set.
  destruct (rbind (access shp (op_of (Left l)) fr) _) as [[]|e];
    [|repeat constructor].
  apply spec_bind, spec_com_set.
  destruct (rbind (access shp (op_of (Top t)) fr) _) as [[]|e];
    [|repeat constructor].
  apply spec_bind, spec_com_set.
  destruct (rbind (access shp (op_of (Width w)) fr) _) as [[]|e];
    [|repeat constructor].
  apply spec_com_set. repeat constructor.
Qed.

Variable P : event -> Prop.

(** The events of a field are the lookup, then the warning, or else the
    reads and sleeps of its cell, the line, the text and what [after]
    does. *)
Lemma spec_fill_events (slide : Z) (name : string) (data_row col : Z)
      (after : ref -> M unit) :
  P (FindShape slide name) ->
  P (Print (MissingShape name slide)) ->
  P (ReadCell data_row col) ->
  P (Sleep default_delay) ->
  (forall v, clean_value (c data_row col) = Ok v ->
     P (Print (SetLine name data_row col v))
     /\ forall shp, P (SetProp shp (Text v))) ->
  (forall shp rj,
     spec c fr rj (after shp) (fun _ evs _ => Forall P evs)) ->
  forall rj,
    spec c fr rj (fill slide slide name data_row col after)
      (fun _ evs _ => Forall P evs).
Proof.
  intros PF PM PR PS PV After rj. unfold fill, fill_on.
  apply spec_bind, spec_safe_shape.
  destruct (lookup fr slide name) as [shp|].
  2:{ apply spec_emit; [exact I|]. repeat constructor; assumption. }
  apply spec_bind. unfold safe_cell.
  eapply spec_conseq; [apply spec_safe_cell_loop_events|].
  cbn beta. intros r evs rj1 (F & _ & _ & H).
  assert (F' : Forall P evs).
  { eapply Forall_impl; [|exact F]. intros ev [-> | ->]; assumption. }
  destruct r as [val|e]; [|constructor; assumption].
  destruct H as [-> _]. apply spec_bind, spec_lift.
  destruct (clean_value (c data_row col)) as [v|e] eqn:CV.
  2:{ constructor; [assumption|]. apply Forall_app. split; [exact F'|].
      constructor. }
  destruct (PV v eq_refl) as [PL PT].
  apply spec_bind, spec_emit; [exact I|].
  apply spec_bind. eapply spec_conseq; [apply spec_write_text|].
  cbn beta. intros r2 evs2 rj2 (-> & -> & E2).
  eapply spec_conseq; [apply After|].
  cbn beta. intros r3 evs3 rj3 F3.
  constructor; [assumption|]. apply Forall_app. split; [exact F'|].
  cbn [app]. constructor; [exact PL|].
  apply Forall_app. split; [|exact F3].
  destruct E2 as [-> | ->]; repeat constructor. apply PT.
Qed.

(** A loop does what its turns do. *)
Lemma spec_for_each_events {A} (Q : A -> event -> Prop) (l : list A)
      (body : A -> M unit) :
  (forall x rj, In x l ->
     spec c fr rj (body x) (fun _ evs _ => Forall (Q x) evs)) ->
  forall rj,
    spec c fr rj (for_each l body)
      (fun _ evs _ => Forall (fun ev => exists x, In x l /\ Q x ev) evs).
Proof.
  induction l as [|x l IH]; intros B rj; cbn [for_each].
  - apply spec_ret. constructor.
  - apply spec_bind. eapply spec_conseq; [apply B; left; reflexivity|].
    cbn beta. intros r evs rj1 F.
    assert (F' : Forall (fun ev => exists y, In y (x :: l) /\ Q y ev) evs).
    { eapply Forall_impl; [|exact F]. intros ev HQ. exists x.
      split; [left; reflexivity|exact HQ]. }
    destruct r as [[]|e]; [|exact F'].
    eapply spec_conseq; [apply IH; intros; apply B; right; assumption|].
    cbn beta. intros r2 evs2 rj2 F2. apply Forall_app. split; [exact F'|].
    eapply Forall_impl; [|exact F2]. intros ev (y & I & HQ).
    exists y. split; [right; exact I|exact HQ].
Qed.

End Events.

Section Allowed.

Variable force_coords : bool.
Variable c : Z -> Z -> pyval.
Variable fr : list (list shape).

Lemma geometry_allowed (n : Z) (evs : list event) :
  force_coords = true ->
  Forall geometry_event evs -> Forall (allowed force_coords c n) evs.
Proof.
  intros FC. apply Forall_impl.
  intros [d|r col|s nm|r [t|x|x|x|x|x]|l]; cbn; try tauto; discriminate.
Qed.

Lemma spec_sticker_events (n : Z) (rj : list (option exn)) :
  1 <= n <= total_stickers ->
  spec c fr rj (sticker force_coords (n + 2))
    (fun _ evs _ => Forall (allowed force_coords c n) evs).
Proof.
  intros Hn. unfold sticker, sticker_on.
  replace (n + 2 - 2) with n by lia.
  unfold total_stickers in Hn.
  rewrite slide_index_of_ok by lia.
  set (s := (n + 5) / 6).
  apply spec_bind, spec_lift, spec_bind, spec_slides_count.
  destruct (Z.of_nat (List.length fr) <? s).
  { apply spec_emit; [exact I|]. repeat constructor. }
  apply spec_bind, spec_get_slide.
  destruct ((1 <=? s) && (s <=? Z.of_nat (List.length fr)));
    [|constructor].
  assert (Names : forall name, In name (field_names n) ->
            forall col, 9 <= col <= 14 ->
              allowed force_coords c n (FindShape s name)
              /\ allowed force_coords c n (Print (MissingShape name s))
              /\ allowed force_coords c n (ReadCell (n + 2) col)
              /\ allowed force_coords c n (Sleep default_delay)
              /\ forall v, clean_value (c (n + 2) col) = Ok v ->
                   allowed force_coords c n
                     (Print (SetLine name (n + 2) col v))
                   /\ forall shp,
                        allowed force_coords c n (SetProp shp (Text v))).
  { intros name IN col Hc. cbn. repeat split; auto; try lia.
    intros shp. exists col. auto. }
  assert (Fill : forall name col after,
            In name (field_names n) -> 9 <= col <= 14 ->
            (forall shp rj0,
               spec c fr rj0 (after shp)
                 (fun _ evs _ => Forall (allowed force_coords c n) evs)) ->
            forall rj0,
              spec c fr rj0 (fill s s name (n + 2) col after)
                (fun _ evs _ => Forall (allowed force_coords c n) evs)).
  { intros name col after IN Hc After rj0.
    destruct (Names name IN col Hc) as (A1 & A2 & A3 & A4 & A5).
    apply spec_fill_events; assumption. }
  assert (Coords : forall shp size rj0 (k : M unit),
            force_coords = true ->
            (forall rj1, spec c fr rj1 k
               (fun _ evs _ => Forall (allowed force_coords c n) evs)) ->
            spec c fr rj0
              (coords <- lift (coords_for_position (pos_in_slide_of n) size) ;;
               apply_coords shp coords ;; k)
              (fun _ evs _ => Forall (allowed force_coords c n) evs)).
  { intros shp size rj0 k FC K. apply spec_bind, spec_lift.
    destruct (coords_for_position (pos_in_slide_of n) size) as [co|e];
      [|constructor].
    apply spec_bind.
    eapply spec_conseq; [apply spec_apply_coords_events|].
    cbn beta. intros r evs rj1 F.
    pose proof (geometry_allowed n evs FC F) as F'.
    destruct r as [[]|e]; [|exact F'].
    eapply spec_conseq; [apply K|]. cbn beta. intros r2 evs2 rj2 F2.
    cbn [app]. apply Forall_app. auto. }
  assert (Font : forall shp x rj0,
            x = CABINET_FONT_SIZE
            \/ (force_coords = true /\ x = LOTO_FONT_SIZE) ->
            spec c fr rj0 (apply_font_size shp x)
              (fun _ evs _ => Forall (allowed force_coords c n) evs)).
  { intros shp x rj0 HX.
    eapply spec_conseq; [apply spec_apply_font_size|].
    cbn beta. intros r evs rj1 (_ & _ & ->).
    constructor; [exact HX|constructor]. }
  apply spec_bind.
  { unfold points, points_on.
    change (combine (py_range 9 13) (py_range 1 5))
      with [(9, 1); (10, 2); (11, 3); (12, 4)].
    eapply spec_conseq.
    - apply (spec_for_each_events c fr
               (fun (_ : Z * Z) => allowed force_coords c n)).
      intros [col k] rj0 IN.
      assert (K : (col = 9 /\ k = 1) \/ (col = 10 /\ k = 2)
                  \/ (col = 11 /\ k = 3) \/ (col = 12 /\ k = 4)).
      { cbn in IN. intuition congruence. }
      apply Fill.
      + unfold field_names.
        destruct K as [[-> ->] | [[-> ->] | [[-> ->] | [-> ->]]]];
          cbn; auto.
      + lia.
      + intros shp rj1. destruct force_coords eqn:FC;
          [|apply spec_ret; constructor].
        apply spec_bind, spec_lift.
        destruct (coords_for_position (pos_in_slide_of n) CABINET_SIZE)
          as [[[[l t] w] h]|e]; [|constructor].
        apply spec_bind, spec_lift.
        destruct (py_add w (PInt 40)) as [w40|e]; [|constructor].
        eapply spec_conseq; [apply spec_apply_coords_events|].
        cbn beta. intros r evs rj2 F. cbn [app].
        eapply Forall_impl; [|exact F].
        intros [d|r0 col0|s0 nm|r0 [t0|x|x|x|x|x]|l0]; cbn; try tauto;
          discriminate.
    - cbn beta. intros r evs rj1 F.
      assert (F' : Forall (allowed force_coords c n) evs).
      { eapply Forall_impl; [|exact F]. intros ev (_ & _ & H). exact H. }
      destruct r as [[]|e]; [|exact F'].
      apply spec_bind.
      eapply spec_conseq.
      + unfold loto_amount, loto_amount_on.
        apply Fill; [do 4 right; left; reflexivity|lia|].
        intros shp rj2. destruct force_coords eqn:FC;
          [|apply spec_ret; constructor].
        apply Coords; [reflexivity|].
        intros rj3. apply Font. right. auto.
      + cbn beta. intros r2 evs2 rj2 F2.
        destruct r2 as [[]|e]; [|cbn [app]; apply Forall_app; auto].
        eapply spec_conseq.
        * unfold cabinet, cabinet_on.
          apply Fill; [do 5 right; left; reflexivity|lia|].
          intros shp rj3. destruct force_coords eqn:FC.
          -- apply spec_bind, spec_bind, spec_lift.
             destruct (coords_for_position (pos_in_slide_of n) CABINET_SIZE)
               as [co|e]; [|constructor].
             eapply spec_conseq; [apply spec_apply_coords_events|].
             cbn beta. intros r3 evs3 rj4 F3. cbn [app].
             pose proof (geometry_allowed n evs3 FC F3) as F3'.
             rewrite FC in F3'.
             destruct r3 as [[]|e]; [|exact F3'].
             eapply spec_conseq; [apply Font; left; reflexivity|].
             cbn beta. intros r4 evs4 rj5 F4. apply Forall_app. auto.
          -- apply spec_bind, spec_ret.
             eapply spec_conseq; [apply Font; left; reflexivity|].
             cbn beta. intros r4 evs4 rj5 F4. exact F4.
        * cbn beta. intros r3 evs3 rj3 F3. cbn [app].
          apply Forall_app. split; [exact F'|].
          apply Forall_app. auto. }
Qed.

End Allowed.

Lemma spec_main_events (force_coords : bool) (c : Z -> Z -> pyval)
      (fr : list (list shape)) (rj : list (option exn)) :
  spec c fr rj (main force_coords)
    (fun r evs _ =>
       exists body,
         Forall (allowed_in_run force_coords c) body
         /\ evs = body ++ match r with
                          | Ok _ => [Print Done]
                          | Raise _ => []
                          end).
Proof.
  unfold main, main_on. apply spec_bind. eapply spec_conseq.
  - apply (spec_for_each_events c fr
             (fun x => allowed force_coords c (x - 2))).
    intros x rj0 Hx. apply In_py_range in Hx.
    replace x with (x - 2 + 2) at 1 by lia.
    apply spec_sticker_events. unfold total_stickers in *. lia.
  - cbn beta. intros r evs rj1 F.
    assert (F' : Forall (allowed_in_run force_coords c) evs).
    { eapply Forall_impl; [|exact F]. intros ev (x & Hx & A).
      apply In_py_range in Hx. exists (x - 2).
      split; [unfold total_stickers in *; lia|exact A]. }
    destruct r as [[]|e].
    + apply spec_emit; [exact I|]. exists evs. auto.
    + exists evs. rewrite app_nil_r. auto.
Qed.

(** Events that assign nothing leave the slides alone. *)
Lemma replay_silent (evs : list event) (sl : list (list shape)) :
  Forall silent evs -> replay evs sl = sl.
Proof.
  induction 1 as [|ev evs S _ IH]; [reflexivity|].
  rewrite replay_cons. destruct ev; try destruct S; exact IH.
Qed.

(** A property of shapes that every assignment of a run keeps is kept by
    the run, shape by shape. *)
Lemma replay_keeps {A} (g : shape -> A) (evs : list event)
      (sl : list (list shape)) :
  Forall (fun ev => match ev with
                    | SetProp _ st => forall s, g (attempt st s) = g s
                    | _ => True
                    end) evs ->
  forall r, option_map g (get_shape r (replay evs sl))
            = option_map g (get_shape r sl).
Proof.
  intros F. revert sl. induction F as [|ev evs H _ IH]; intros sl r;
    [reflexivity|].
  rewrite replay_cons, IH.
  destruct ev as [d|row col|s n|r' st|l]; try reflexivity.
  destruct (ref_eq_dec r r') as [->|N].
  - rewrite get_shape_apply_same.
    destruct (get_shape r' sl) as [s|]; [|reflexivity].
    cbn [option_map]. now rewrite H.
  - now rewrite get_shape_apply_other.
Qed.

(** What a run does to a world: its result, the events before the closing
    line, and the world it leaves. *)
Lemma main_run (force_coords : bool) (w : world) :
  exists r body rj',
    Forall (allowed_in_run force_coords (cells w)) body
    /\ main force_coords w
       = (r, mkWorld (cells w) rj'
               (replay body (slides w))
               (trace w ++ body ++ match r with
                                   | Ok _ => [Print Done]
                                   | Raise _ => []
                                   end)).
Proof.
  destruct (spec_run w _ _
              (spec_main_events force_coords (cells w) (frame (slides w))
                 (rejections w)))
    as (r & evs & rj' & (body & F & ->) & E).
  exists r, body, rj'. split; [exact F|]. rewrite E. do 2 f_equal.
  rewrite replay_app. destruct r; reflexivity.
Qed.

(** ** The closing line *)

(** X5. The closing line is printed exactly when the run returns
    normally, and then it is the last thing the run does: a run that is
    cut short by an exception never reports success. *)
Theorem closing_line_means_success (force_coords : bool) (w : world) :
  exists evs,
    trace (snd (main force_coords w)) = trace w ++ evs
    /\ (In (Print Done) evs <-> fst (main force_coords w) = Ok tt)
    /\ (fst (main force_coords w) = Ok tt ->
        exists body, evs = body ++ [Print Done] /\ ~ In (Print Done) body).
Proof.
  destruct (main_run force_coords w) as (r & body & rj' & F & E).
  rewrite E. cbn [fst snd trace].
  assert (N : ~ In (Print Done) body).
  { intros I. rewrite Forall_forall in F.
    destruct (F _ I) as (n & _ & A). exact A. }
  eexists. split; [reflexivity|]. split; [split|].
  - intros I. apply in_app_or in I. destruct I as [I | I]; [contradiction|].
    destruct r as [[]|e]; [reflexivity|destruct I].
  - intros ->. apply in_or_app. right. left. reflexivity.
  - intros ->. exists body. auto.
Qed.

(** ** Where the data comes from and where it goes *)

(** X6. A run reads the worksheet only in rows 3 to [total_stickers + 2]
    and columns 9 to 14, looks shapes up only on the slides 1 to 20, and
    sleeps only the default delay. *)
Theorem run_stays_in_source_range (force_coords : bool) (w : world) :
  exists evs,
    trace (snd (main force_coords w)) = trace w ++ evs
    /\ Forall (fun rc => 3 <= fst rc <= total_stickers + 2
                         /\ 9 <= snd rc <= 14) (reads evs)
    /\ Forall (fun sn => 1 <= fst sn <= 20) (finds evs)
    /\ Forall (fun d => d = default_delay) (sleeps evs).
Proof.
  destruct (main_run force_coords w) as (r & body & rj' & F & E).
  rewrite E. cbn [snd trace]. eexists. split; [reflexivity|].
  assert (T : reads (match r with Ok _ => [Print Done] | Raise _ => [] end)
              = []
              /\ finds (match r with Ok _ => [Print Done] | Raise _ => [] end)
                 = []
              /\ sleeps (match r with Ok _ => [Print Done] | Raise _ => [] end)
                 = []) by (destruct r; auto).
  destruct T as (T1 & T2 & T3).
  rewrite reads_app, sleeps_app, T1, T3, !app_nil_r.
  unfold finds at 1. rewrite flat_map_app. fold (finds body).
  fold (finds (match r with Ok _ => [Print Done] | Raise _ => [] end)).
  rewrite T2, app_nil_r. clear E T1 T2 T3.
  induction F as [|ev body (n & Hn & A) _ IH]; [repeat constructor|].
  destruct IH as (I1 & I2 & I3). unfold total_stickers in *.
  destruct ev as [d|row col|s nm|r0 st|l]; cbn in A |- *.
  - split; [exact I1|split; [exact I2|constructor; [exact A|exact I3]]].
  - split; [constructor; [cbn; lia|exact I1]|auto].
  - split; [exact I1|split; [constructor; [|exact I2]|exact I3]].
    cbn. destruct A as [-> _].
    split; [apply Z.div_le_lower_bound; lia|].
    apply Z.lt_succ_r, Z.div_lt_upper_bound; lia.
  - auto.
  - auto.
Qed.

(** X7. Every text a run writes into a shape is the formatted value of a
    worksheet cell in rows 3 to [total_stickers + 2] and columns 9 to 14;
    every font size it sets is [CABINET_FONT_SIZE] or, under the flag,
    [LOTO_FONT_SIZE]: [POINT_FONT_SIZE] is never applied. *)
Theorem texts_come_from_cells (force_coords : bool) (w : world) :
  exists evs,
    trace (snd (main force_coords w)) = trace w ++ evs
    /\ (forall shp v, In (SetProp shp (Text v)) evs ->
          exists row col,
            3 <= row <= total_stickers + 2 /\ 9 <= col <= 14
            /\ clean_value (cells w row col) = Ok v)
    /\ (forall shp x, In (SetProp shp (FontSize x)) evs ->
          x = CABINET_FONT_SIZE
          \/ (force_coords = true /\ x = LOTO_FONT_SIZE)).
Proof.
  destruct (main_run force_coords w) as (r & body & rj' & F & E).
  rewrite E. cbn [snd trace]. eexists. split; [reflexivity|].
  rewrite Forall_forall in F.
  assert (B : forall ev, (forall l, ev <> Print l) ->
                In ev (body ++ match r with
                               | Ok _ => [Print Done]
                               | Raise _ => []
                               end) -> In ev body).
  { intros ev NP I. apply in_app_or in I. destruct I as [I | I]; [exact I|].
    destruct r; [destruct I as [<- | []]; now destruct (NP Done)|destruct I]. }
  split.
  - intros shp v I. apply B in I; [|discriminate].
    destruct (F _ I) as (n & Hn & col & Hc & V).
    exists (n + 2), col. repeat split; auto; lia.
  - intros shp x I. apply B in I; [|discriminate].
    destruct (F _ I) as (n & Hn & A). exact A.
Qed.

(** ** What a run leaves alone *)

Lemma get_shape_map {A} (g : shape -> A) (r : ref) (sl : list (list shape)) :
  option_map g (get_shape r sl)
  = match nth_error (map (map g) sl) (ref_slide r) with
    | Some l => nth_error l (ref_shape r)
    | None => None
    end.
Proof.
  unfold get_shape. rewrite nth_error_map.
  destruct (nth_error sl (ref_slide r)); [|reflexivity].
  cbn [option_map]. now rewrite nth_error_map.
Qed.

(** X8. A run, finished or cut short, creates, deletes, moves and renames
    no shape: the presentation keeps its number of slides, every slide its
    number of shapes, every shape its name and its text orientation; and
    the worksheet cells are not changed. *)
Theorem run_keeps_shapes (force_coords : bool) (w : world) :
  let after := snd (main force_coords w) in
  cells after = cells w
  /\ List.length (slides after) = List.length (slides w)
  /\ map (@List.length shape) (slides after)
     = map (@List.length shape) (slides w)
  /\ forall r,
       option_map shp_name (get_shape r (slides after))
       = option_map shp_name (get_shape r (slides w))
       /\ option_map shp_orientation (get_shape r (slides after))
          = option_map shp_orientation (get_shape r (slides w)).
Proof.
  destruct (main_run force_coords w) as (r & body & rj' & F & E).
  cbn zeta. rewrite E. cbn [snd cells slides].
  pose proof (frame_replay body (slides w)) as FR.
  split; [reflexivity|]. split; [|split].
  - rewrite <- (frame_length (replay body (slides w))), FR.
    apply frame_length.
  - assert (L : forall sl, map (@List.length shape) (frame sl)
                           = map (@List.length shape) sl).
    { intros sl. unfold frame. rewrite map_map. apply map_ext.
      intros l. apply length_map. }
    rewrite <- (L (replay body (slides w))), FR. apply L.
  - intros r0.
    assert (G : forall (A : Type) (g : shape -> A),
              (forall s, g (erase_shape s) = g s) ->
              option_map g (get_shape r0 (replay body (slides w)))
              = option_map g (get_shape r0 (slides w))).
    { intros A g Hg.
      assert (K : forall sl, option_map g (get_shape r0 sl)
                             = option_map g (get_shape r0 (frame sl))).
      { intros sl. rewrite get_shape_frame.
        destruct (get_shape r0 sl); [cbn; now rewrite Hg|reflexivity]. }
      rewrite (K (replay body (slides w))), FR. symmetry. apply K. }
    split; apply G; reflexivity.
Qed.

(** X9. With the flag off, no run changes the rectangle of any shape, and
    the font size of a shape is afterwards what it was or
    [CABINET_FONT_SIZE]. *)
Theorem flag_off_keeps_geometry (w : world) (r : ref) :
  let after := slides (snd (main false w)) in
  option_map geometry_of (get_shape r after)
  = option_map geometry_of (get_shape r (slides w))
  /\ match get_shape r after, get_shape r (slides w) with
     | Some s', Some s =>
         shp_font_size s' = shp_font_size s
         \/ shp_font_size s' = CABINET_FONT_SIZE
     | None, None => True
     | _, _ => False
     end.
Proof.
  destruct (main_run false w) as (res & body & rj' & F & E).
  cbn zeta. rewrite E. cbn [snd slides].
  assert (A : Forall (fun ev =>
                match ev with
                | SetProp _ st =>
                    is_geometry st = false
                    /\ forall x, st = FontSize x -> x = CABINET_FONT_SIZE
                | _ => True
                end) body).
  { eapply Forall_impl; [|exact F].
    intros [d|row col|s n|r0 [t|x|x|x|x|x]|l] (n0 & _ & H); cbn in H;
      try exact I; try discriminate H; split; try reflexivity;
      try discriminate.
    intros y [= <-]. destruct H as [H | [H _]]; [exact H|discriminate]. }
  split.
  - apply replay_keeps. eapply Forall_impl; [|exact A].
    intros [d|row col|s n|r0 st|l]; try (intros; exact I).
    intros [G _] s. unfold attempt.
    destruct (shp_fault s (op_of st)); [reflexivity|].
    destruct st; try discriminate G; reflexivity.
  - clear E F. revert A. generalize (slides w) as sl.
    induction body as [|ev body IH]; intros sl A.
    + cbn. destruct (get_shape r sl); auto.
    + rewrite replay_cons. inversion A as [|? ? H A']; subst.
      specialize (IH (apply_event ev sl) A').
      destruct ev as [d|row col|s n|r0 st|l]; try exact IH.
      destruct (ref_eq_dec r r0) as [->|N].
      * rewrite get_shape_apply_same in IH.
        destruct (get_shape r0 (replay body _)) as [s'|];
          destruct (get_shape r0 sl) as [s|]; cbn [option_map] in IH;
          try exact IH.
        destruct H as [_ HF]. unfold attempt in IH.
        destruct (shp_fault s (op_of st)); [exact IH|].
        destruct st; cbn [assign shp_font_size] in IH; try exact IH.
        rewrite (HF x eq_refl) in IH. tauto.
      * rewrite get_shape_apply_other in IH by exact N. exact IH.
Qed.

(** ** The cell reader with any bound *)

(** X10. Whatever the host answers, whatever the bound and the delay,
    [safe_cell] reads the one cell at most [retries] times and sleeps
    [delay] at most once per read; it changes neither the worksheet nor
    the slides; a value it returns is the value of the cell; and it fails
    in one of three ways: exhausted, after exactly [retries] reads (none
    at all when [retries <= 0]); with an exception of the host that is not
    the transient rejection; or, after a rejected read, with the error of
    [time.sleep] for a delay it does not accept (negative, NaN or too
    large), before any sleep. *)
Theorem safe_cell_bounded (row col retries : Z) (delay : spec_float)
        (w : world) :
  let out := safe_cell row col retries delay w in
  cells (snd out) = cells w
  /\ slides (snd out) = slides w
  /\ exists evs,
      trace (snd out) = trace w ++ evs
      /\ Forall (fun ev => ev = ReadCell row col \/ ev = Sleep delay) evs
      /\ (List.length (reads evs) <= Z.to_nat retries)%nat
      /\ (List.length (sleeps evs) <= List.length (reads evs))%nat
      /\ match fst out with
         | Ok v => v = cells w row col /\ (1 <= List.length (reads evs))%nat
         | Raise e =>
             (e = exhausted retries row col
              /\ List.length (reads evs) = Z.to_nat retries)
             \/ (transient e = false /\ In (Some e) (rejections w))
             \/ (sleep_error delay = Some e /\ sleeps evs = []
                 /\ exists e0,
                     transient e0 = true /\ In (Some e0) (rejections w))
         end.
Proof.
  destruct (spec_run w _ _
              (spec_safe_cell_loop_events (cells w) (frame (slides w))
                 row col retries delay (Z.to_nat retries) (rejections w)))
    as (r & evs & rj' & (F & R & S & H) & E).
  cbn zeta. unfold safe_cell. rewrite E. cbn [fst snd cells slides trace].
  split; [reflexivity|]. split.
  - apply replay_silent. eapply Forall_impl; [|exact F].
    intros ev [-> | ->]; exact I.
  - exists evs. auto.
Qed.

(** ** Geometry writes *)

Lemma com_set_run (shp : ref) (st : setting) (w : world) (s : shape) :
  get_shape shp (slides w) = Some s ->
  exists sl',
    com_set shp st w
    = (match shp_fault s (op_of st) with
       | Some e => Raise e
       | None => Ok tt
       end,
       mkWorld (cells w) (rejections w) sl' (trace w ++ [SetProp shp st]))
    /\ get_shape shp sl' = Some (attempt st s)
    /\ forall r, r <> shp -> get_shape r sl' = get_shape r (slides w).
Proof.
  intros G. exists (apply_event (SetProp shp st) (slides w)). split; [|split].
  - unfold com_set, access. rewrite G.
    destruct (shp_fault s (op_of st)); reflexivity.
  - rewrite get_shape_apply_same, G. reflexivity.
  - intros r N. now apply get_shape_apply_other.
Qed.

(** X12. [apply_coords] assigns left, top, width and height in this order
    and stops at the first assignment the host refuses: the refusal leaves
    the function as an exception, the assignments made before it stay, the
    later ones are not attempted.  When all four are accepted the shape
    has the new rectangle.  Its name, text and font size, and all other
    shapes, are as before. *)
Theorem apply_coords_stops_at_refusal (shp : ref) (l t wd h : pynum)
        (w : world) (s : shape) (Hs : get_shape shp (slides w) = Some s) :
  let out := apply_coords shp (l, t, wd, h) w in
  let s1 := assign (Left l) s in
  let s2 := assign (Top t) s1 in
  let s3 := assign (Width wd) s2 in
  let s4 := assign (Height h) s3 in
  let done k := firstn k [SetProp shp (Left l); SetProp shp (Top t);
                          SetProp shp (Width wd); SetProp shp (Height h)] in
  (forall r, r <> shp ->
     get_shape r (slides (snd out)) = get_shape r (slides w))
  /\ match shp_fault s SetLeft, shp_fault s SetTop,
           shp_fault s SetWidth, shp_fault s SetHeight with
     | Some e, _, _, _ =>
         fst out = Raise e /\ get_shape shp (slides (snd out)) = Some s
         /\ trace (snd out) = trace w ++ done 1%nat
     | None, Some e, _, _ =>
         fst out = Raise e /\ get_shape shp (slides (snd out)) = Some s1
         /\ trace (snd out) = trace w ++ done 2%nat
     | None, None, Some e, _ =>
         fst out = Raise e /\ get_shape shp (slides (snd out)) = Some s2
         /\ trace (snd out) = trace w ++ done 3%nat
     | None, None, None, Some e =>
         fst out = Raise e /\ get_shape shp (slides (snd out)) = Some s3
         /\ trace (snd out) = trace w ++ done 4%nat
     | None, None, None, None =>
         fst out = Ok tt /\ get_shape shp (slides (snd out)) = Some s4
         /\ trace (snd out) = trace w ++ done 4%nat
     end.
Proof.
  cbn zeta. unfold apply_coords, bind.
  destruct (com_set_run shp (Left l) w s Hs) as (sl1 & -> & G1 & O1).
  unfold attempt in G1. cbn [op_of] in *.
  destruct (shp_fault s SetLeft) as [e|] eqn:F1.
  { cbn [fst snd slides trace]. auto. }
  lazymatch goal with
  | |- context [com_set shp (Top t) ?w1] =>
      destruct (com_set_run shp (Top t) w1 _ G1) as (sl2 & -> & G2 & O2)
  end.
  unfold attempt in G2. cbn [op_of slides trace cells rejections] in *.
  rewrite fault_assign in *.
  destruct (shp_fault s SetTop) as [e|] eqn:F2.
  { cbn [fst snd slides trace]. split; [|rewrite <- app_assoc; auto].
    intros r N. rewrite O2, O1; auto. }
  lazymatch goal with
  | |- context [com_set shp (Width wd) ?w1] =>
      destruct (com_set_run shp (Width wd) w1 _ G2) as (sl3 & -> & G3 & O3)
  end.
  unfold attempt in G3. cbn [op_of slides trace cells rejections] in *.
  rewrite !fault_assign in *.
  destruct (shp_fault s SetWidth) as [e|] eqn:F3.
  { cbn [fst snd slides trace]. split; [|rewrite <- !app_assoc; auto].
    intros r N. rewrite O3, O2, O1; auto. }
  lazymatch goal with
  | |- context [com_set shp (Height h) ?w1] =>
      destruct (com_set_run shp (Height h) w1 _ G3) as (sl4 & -> & G4 & O4)
  end.
  unfold attempt in G4. cbn [op_of slides trace cells rejections] in *.
  rewrite !fault_assign in *.
  assert (O : forall r, r <> shp -> get_shape r sl4 = get_shape r (slides w)).
  { intros r N. rewrite O4, O3, O2, O1; auto. }
  destruct (shp_fault s SetHeight) as [e|] eqn:F4;
    cbn [fst snd slides trace]; (split; [exact O|]);
    rewrite <- !app_assoc; auto.
Qed.

Lemma apply_coords_stops_at_refusal_witness :
  get_shape (mkRef 0 0) (slides cabinet_world) = Some (text_box "Cabinet 01")
  /\ fst (apply_coords (mkRef 0 0) (PInt 2, PInt 63, PInt 10, PInt 20)
            cabinet_world) = Ok tt.
Proof.
  assert (H : get_shape (mkRef 0 0) (slides cabinet_world)
              = Some (text_box "Cabinet 01")) by reflexivity.
  split; [exact H|].
  destruct (apply_coords_stops_at_refusal (mkRef 0 0) (PInt 2) (PInt 63)
              (PInt 10) (PInt 20) cabinet_world _ H) as [_ E].
  cbn in E. destruct E as [E _]. exact E.
Defined.

(** ** What the formatter hands over *)

Lemma plain_app (a b : string) : plain (a ++ b) = plain a && plain b.
Proof.
  induction a as [|c a IH]; [reflexivity|]. cbn [append plain].
  rewrite IH. apply andb_assoc.
Qed.

Lemma plain_uint (u : Decimal.uint) :
  plain (NilEmpty.string_of_uint u) = true.
Proof. induction u; cbn; auto. Qed.

Lemma plain_uint0 (u : Decimal.uint) :
  plain (NilZero.string_of_uint u) = true.
Proof. destruct u; try apply plain_uint. reflexivity. Qed.

Lemma plain_str_int (z : Z) : plain (PyFloat.str_int z) = true.
Proof.
  unfold PyFloat.str_int.
  destruct z as [|p|p]; cbn [Z.to_int NilZero.string_of_int];
    [reflexivity|apply plain_uint0|].
  cbn [plain]. apply plain_uint0.
Qed.

Lemma plain_zeros (k : nat) : plain (PyFloat.zeros k) = true.
Proof. induction k; cbn; auto. Qed.

Lemma plain_substring (s : string) (n m : nat) :
  plain s = true -> plain (substring n m s) = true.
Proof.
  revert n m. induction s as [|c s IH]; intros n m H; [now destruct n, m|].
  cbn in H. apply andb_true_iff in H. destruct H as [Hc Hs].
  destruct n as [|n]; cbn.
  - destruct m as [|m]; [reflexivity|]. cbn. rewrite Hc. now apply IH.
  - now apply IH.
Qed.

Lemma plain_layout (ds : string) (decpt : Z) :
  plain ds = true -> plain (PyFloat.layout ds decpt) = true.
Proof.
  intros H. unfold PyFloat.layout.
  destruct ((decpt <=? -4) || (16 <? decpt)).
  - assert (M : plain match ds with
                      | String c (String _ _ as rest) =>
                          String c (String "." rest)
                      | _ => ds
                      end = true).
    { destruct ds as [|c [|c' r]]; exact H. }
    rewrite !plain_app, plain_str_int, M.
    destruct (decpt - 1 <? 0); destruct (Z.abs (decpt - 1) <? 10);
      reflexivity.
  - destruct (decpt <=? 0).
    + rewrite !plain_app, plain_zeros, H. reflexivity.
    + destruct (Z.of_nat (String.length ds) <=? decpt).
      * rewrite !plain_app, plain_zeros, H. reflexivity.
      * rewrite !plain_app, !plain_substring by exact H. reflexivity.
Qed.

Lemma plain_repr (x : spec_float) : plain (PyFloat.repr x) = true.
Proof.
  destruct x as [[]|[]| |s m e]; try reflexivity.
  cbn [PyFloat.repr]. unfold PyFloat.digits.
  destruct (PyFloat.frac m e) as [n d].
  destruct (PyFloat.shortest _ _ _ _ _ _) as [c j].
  rewrite plain_app, plain_layout by apply plain_uint0.
  destruct s; reflexivity.
Qed.

Lemma rstrip_plain (s : string) : plain s = true -> rstrip s = s.
Proof.
  induction s as [|c s IH]; [reflexivity|]. cbn. intros H.
  apply andb_true_iff in H. destruct H as [Hc Hs].
  rewrite (IH Hs). apply negb_true_iff in Hc. rewrite Hc.
  destruct s; reflexivity.
Qed.

Lemma strip_plain (s : string) : plain s = true -> strip s = s.
Proof.
  intros H. unfold strip.
  assert (L : lstrip s = s).
  { destruct s as [|c s]; [reflexivity|]. cbn in H |- *.
    apply andb_true_iff in H. destruct H as [Hc _].
    apply negb_true_iff in Hc. now rewrite Hc. }
  rewrite L. now apply rstrip_plain.
Qed.

Lemma rstrip_cons (c : ascii) (s : string) :
  rstrip (String c s)
  = match rstrip s with
    | EmptyString => if is_space c then EmptyString else String c EmptyString
    | String a r => String c (String a r)
    end.
Proof. reflexivity. Qed.

Lemma rstrip_twice (s : string) : rstrip (rstrip s) = rstrip s.
Proof.
  induction s as [|c s IH]; [reflexivity|]. rewrite (rstrip_cons c s).
  destruct (rstrip s) as [|c' r'] eqn:R.
  - destruct (is_space c) eqn:Sc; [reflexivity|]. cbn. now rewrite Sc.
  - rewrite rstrip_cons, IH. reflexivity.
Qed.

Lemma lstrip_head (s : string) :
  lstrip s = EmptyString
  \/ exists c r, lstrip s = String c r /\ is_space c = false.
Proof.
  induction s as [|c s IH]; [left; reflexivity|]. cbn.
  destruct (is_space c) eqn:Sc; [exact IH|]. right. eauto.
Qed.

Lemma lstrip_rstrip (s : string) :
  lstrip (rstrip (lstrip s)) = rstrip (lstrip s).
Proof.
  destruct (lstrip_head s) as [-> | (c & r & -> & Sc)]; [reflexivity|].
  rewrite rstrip_cons. destruct (rstrip r); rewrite ?Sc; cbn; now rewrite Sc.
Qed.

(** Trimming a trimmed string changes nothing. *)
Lemma strip_twice (s : string) : strip (strip s) = strip s.
Proof. unfold strip. now rewrite lstrip_rstrip, rstrip_twice. Qed.

Lemma round2_not_nan (x r : spec_float) :
  x <> S754_nan -> PyFloat.round2 x = Ok r -> r <> S754_nan.
Proof.
  destruct x as [s|s| |s m e]; cbn [PyFloat.round2];
    try (intros _ [= <-]; discriminate); [congruence|].
  intros _. destruct (PyFloat.frac m e) as [n d].
  destruct (PyFloat.rne_div (n * 100) d =? 0); [intros [= <-]; discriminate|].
  unfold PyFloat.nearest.
  destruct (PyFloat.scale _ _ _) as [a1 b1].
  destruct (PyFloat.scale _ _ _) as [a b].
  destruct (PyFloat.rne_div a b =? 0); [intros [= <-]; discriminate|].
  destruct (PyFloat.rne_div a b =? 2 ^ 53);
    match goal with |- context [971 <? ?e] => destruct (971 <? e) end;
    try discriminate; intros [= <-]; discriminate.
Qed.

Lemma plain_head_not_word (s : string) :
  plain_head s = true -> str_in s ["nan"; "None"] = false.
Proof.
  destruct s as [|c r]; [discriminate|]. cbn [plain_head]. intros H.
  apply andb_true_iff in H. destruct H as [H HN].
  apply andb_true_iff in H. destruct H as [_ Hn].
  apply negb_true_iff in Hn, HN.
  unfold str_in. cbn [existsb String.eqb]. now rewrite Hn, HN.
Qed.

(** X13. Whatever the host hands over, the text the formatter returns is
    trimmed (it has no white space at either end) and is never one of
    the words "nan" and "None": a blank or missing value reaches the
    sticker as the empty text. *)
Theorem clean_value_trimmed (raw : pyval) (text : string)
        (H : host_value raw) (C : clean_value raw = Ok text) :
  strip text = text /\ str_in text ["nan"; "None"] = false.
Proof.
  destruct (sentinel raw) eqn:S.
  { rewrite clean_value_sentinel in C by auto. injection C as <-. auto. }
  destruct (is_number raw) eqn:N.
  - assert (F : exists x, py_float raw = Ok x).
    { rewrite (clean_value_number raw N S) in C.
      destruct (py_float raw); [eauto|discriminate]. }
    destruct F as [x F].
    assert (X : x <> S754_nan).
    { intros ->. unfold sentinel in S.
      destruct raw as [|[]|z|y|s|s]; try discriminate.
      - apply of_int_is_integer in F. discriminate.
      - cbn in F. injection F as ->. discriminate. }
    destruct (PyFloat.is_integer x) eqn:I.
    + destruct (clean_value_integral raw x N F I) as (z & _ & E).
      rewrite E in C. injection C as <-.
      split; [apply strip_plain, plain_str_int|].
      apply plain_head_not_word, str_int_plain_head.
    + destruct (clean_value_rounded raw x H N F X I) as (r & R & E).
      rewrite E in C. injection C as <-.
      split; [apply strip_plain, plain_repr|].
      apply plain_head_not_word, repr_plain_head.
      apply (round2_not_nan x r X R).
  - assert (V : raw <> VNone) by (intros ->; discriminate).
    rewrite (clean_value_other raw N V S) in C. injection C as <-.
    split; [apply strip_twice|].
    unfold sentinel, str_in in S |- *. cbn [existsb] in S |- *.
    apply orb_false_iff in S. destruct S as [_ S]. exact S.
Qed.

Lemma clean_value_trimmed_witness :
  host_value (VStr "  Valve 7 ")
  /\ clean_value (VStr "  Valve 7 ") = Ok "Valve 7"
  /\ strip "Valve 7" = "Valve 7".
Proof.
  assert (H : host_value (VStr "  Valve 7 ")) by exact I.
  assert (C : clean_value (VStr "  Valve 7 ") = Ok "Valve 7") by reflexivity.
  split; [exact H|]. split; [exact C|].
  destruct (clean_value_trimmed _ _ H C) as [E _]. exact E.
Defined.

(** ** The six lookups of a sticker *)

Lemma finds_app (a b : list event) : finds (a ++ b) = finds a ++ finds b.
Proof. apply flat_map_app. Qed.

Lemma finds_field_group (fr : list (list shape)) (slide : Z) (name : string)
      (row col : Z) (evs : list event) :
  field_group fr slide name row col evs -> finds evs = [(slide, name)].
Proof.
  intros (rest & -> & F). cbn [finds flat_map app]. f_equal.
  fold (finds rest). induction F as [|ev rest H _ IH]; [reflexivity|].
  destruct ev; try destruct H; exact IH.
Qed.

(** ** Why a run fails *)

Section Outcomes.

Variable force_coords : bool.
Variable c : Z -> Z -> pyval.
Variable fr : list (list shape).

Lemma cause_earlier (e : exn) (pre rj : list (option exn)) :
  cause e rj -> cause e (pre ++ rj).
Proof.
  intros [(row & col & Hr & Hc & E & p & es & post & -> & L & F) | [T I]].
  - left. exists row, col. split; [exact Hr|]. split; [exact Hc|].
    split; [exact E|].
    exists (pre ++ p), es, post. rewrite <- app_assoc. auto.
  - right. split; [exact T|apply in_or_app; right; exact I].
Qed.

Lemma outcome_bind {A B} (rj : list (option exn)) (m : M A) (k : A -> M B)
      (Pa : A -> Prop) (Pb : B -> Prop) :
  outcome c fr rj m Pa ->
  (forall a rj', Pa a -> outcome c fr rj' (k a) Pb) ->
  outcome c fr rj (bind m k) Pb.
Proof.
  intros Hm Hk. apply spec_bind. eapply spec_conseq; [exact Hm|].
  cbn beta. intros [a|e] evs rj1 [[pre ->] H]; [|eauto].
  eapply spec_conseq; [apply (Hk a rj1 H)|].
  cbn beta. intros r2 evs2 rj2 [[pre2 ->] H2]. split.
  - exists (pre ++ pre2). now rewrite app_assoc.
  - destruct r2; [exact H2|now apply cause_earlier].
Qed.

(** A computation that goes through and leaves the answers alone. *)
Lemma outcome_steady {A} (rj : list (option exn)) (m : M A) (Pa : A -> Prop) :
  spec c fr rj m (fun r _ rj' => rj' = rj /\ exists a, r = Ok a /\ Pa a) ->
  outcome c fr rj m Pa.
Proof.
  intros H. eapply spec_conseq; [exact H|]. cbn beta.
  intros r evs rj' (-> & a & -> & HP). split; [exists []; reflexivity|exact HP].
Qed.

Lemma outcome_safe_cell_loop (row col : Z) (n : nat) (rj : list (option exn)) :
  spec c fr rj (safe_cell_loop n row col default_retries default_delay)
    (fun r _ rj' =>
       (exists pre, rj = pre ++ rj')
       /\ match r with
          | Ok v => v = c row col
          | Raise e =>
              (e = exhausted default_retries row col
               /\ exists es,
                   rj = map Some es ++ rj' /\ List.length es = n
                   /\ Forall (fun e0 => transient e0 = true) es)
              \/ (transient e = false /\ In (Some e) rj)
          end).
Proof.
  revert rj. induction n as [|n IH]; intros rj; cbn [safe_cell_loop].
  - apply spec_raise. split; [exists []; reflexivity|left].
    split; [reflexivity|]. exists []. auto.
  - apply spec_try_except, spec_cell_value.
    destruct rj as [|[e|] rest].
    + split; [exists []; reflexivity|reflexivity].
    + fold (transient e). destruct (transient e) eqn:T.
      * apply spec_bind, spec_sleep. rewrite sleep_default.
        eapply spec_conseq; [apply IH|]. cbn beta.
        intros r evs rj' [[pre ->] H]. split.
        -- exists (Some e :: pre). reflexivity.
        -- destruct r; [exact H|].
           destruct H as [(E & es & R & L & F) | [T' I']].
           ++ left. split; [exact E|]. exists (e :: es).
              cbn [map app List.length]. rewrite <- R.
              repeat split; [now rewrite L|now constructor].
           ++ right. split; [exact T'|right; exact I'].
      * apply spec_raise. split; [exists [Some e]; reflexivity|].
        right. split; [exact T|left; reflexivity].
    + split; [exists [None]; reflexivity|reflexivity].
Qed.

(** A field goes through, found or missing, unless its cell cannot be
    read. *)
Lemma outcome_fill (slide : Z) (name : string) (data_row col : Z)
      (after : ref -> M unit) :
  3 <= data_row <= total_stickers + 2 -> 9 <= col <= 14 ->
  host_value (c data_row col) ->
  (forall shp rj, lookup fr slide name = Some shp ->
     spec c fr rj (after shp) (fun r _ rj' => r = Ok tt /\ rj' = rj)) ->
  forall rj,
    outcome c fr rj (fill slide slide name data_row col after)
      (fun _ => True).
Proof.
  intros Hr Hc HV After rj. unfold fill, fill_on.
  eapply outcome_bind with (Pa := fun o => o = lookup fr slide name).
  { apply outcome_steady, spec_safe_shape. eauto. }
  intros o rj1 ->. destruct (lookup fr slide name) as [shp|] eqn:L.
  2:{ apply outcome_steady, spec_emit; [exact I|]. eauto. }
  eapply outcome_bind with (Pa := fun v => v = c data_row col).
  { eapply spec_conseq; [apply outcome_safe_cell_loop|].
    cbn beta. intros r evs rj' [S H]. split; [exact S|].
    destruct r as [v|e]; [exact H|].
    destruct H as [(-> & es & -> & Le & F) | H]; [left|right; exact H].
    exists data_row, col. split; [exact Hr|]. split; [exact Hc|].
    split; [reflexivity|]. exists [], es, rj'. auto. }
  intros v rj2 ->.
  destruct (clean_value_total _ HV) as [text CV]. rewrite CV.
  eapply outcome_bind with (Pa := fun _ => True).
  { apply outcome_steady, spec_lift. eauto. }
  intros t rj3 _.
  eapply outcome_bind with (Pa := fun _ => True).
  { apply outcome_steady, spec_emit; [exact I|]. eauto. }
  intros [] rj4 _.
  eapply outcome_bind with (Pa := fun _ => True).
  { apply outcome_steady. eapply spec_conseq; [apply spec_write_text|].
    cbn beta. intros r evs rj' (-> & -> & _). eauto. }
  intros [] rj5 _.
  apply outcome_steady. eapply spec_conseq; [apply (After shp rj5 eq_refl)|].
  cbn beta. intros r evs rj' (-> & ->). eauto.
Qed.

Lemma found_shape_there (slide : Z) (name : string) (shp : ref) :
  lookup fr slide name = Some shp -> exists s, get_shape shp fr = Some s.
Proof.
  intros L. destruct (lookup_get_shape fr slide name shp L) as (s & H & _).
  eauto.
Qed.

(** The geometry and font writes of a found shape go through when the
    geometry is fine. *)
Lemma coords_go_through (slide : Z) (name : string) (shp : ref)
      (coords : pynum * pynum * pynum * pynum) (rj : list (option exn)) :
  lookup fr slide name = Some shp -> geometry_accepted fr ->
  spec c fr rj (apply_coords shp coords)
    (fun r _ rj' => r = Ok tt /\ rj' = rj).
Proof.
  intros L G. eapply spec_conseq; [apply spec_apply_coords|].
  cbn beta. intros r evs rj' (-> & _ & H). split; [|reflexivity].
  apply H; [exact G|]. apply (found_shape_there slide name shp L).
Qed.

Lemma font_goes_through (shp : ref) (x : pynum) (rj : list (option exn)) :
  spec c fr rj (apply_font_size shp x)
    (fun r _ rj' => r = Ok tt /\ rj' = rj).
Proof.
  eapply spec_conseq; [apply spec_apply_font_size|].
  cbn beta. intros r evs rj' (-> & -> & _). auto.
Qed.

Lemma outcome_for_each {A} (l : list A) (body : A -> M unit) :
  (forall x rj, In x l -> outcome c fr rj (body x) (fun _ => True)) ->
  forall rj, outcome c fr rj (for_each l body) (fun _ => True).
Proof.
  induction l as [|x l IH]; intros B rj; cbn [for_each].
  - apply outcome_steady, spec_ret. eauto.
  - eapply outcome_bind; [apply B; left; reflexivity|].
    intros [] rj1 _. apply IH. intros y rj2 I. apply B. right. exact I.
Qed.

Lemma outcome_sticker (n : Z) (rj : list (option exn)) :
  1 <= n <= total_stickers ->
  host_cells c ->
  (force_coords = true -> geometry_accepted fr) ->
  outcome c fr rj (sticker force_coords (n + 2)) (fun _ => True).
Proof.
  intros Hn HC G. unfold sticker, sticker_on.
  replace (n + 2 - 2) with n by lia.
  assert (R : 3 <= n + 2 <= total_stickers + 2) by lia.
  unfold total_stickers in Hn.
  rewrite slide_index_of_ok by lia.
  set (s := (n + 5) / 6).
  assert (S1 : 1 <= s) by (subst s; apply Z.div_le_lower_bound; lia).
  pose proof (pos_in_slide_of_range n) as P.
  assert (GF : geometry_fine force_coords fr (pos_in_slide_of n))
    by (split; assumption).
  eapply outcome_bind with (Pa := fun x => x = s).
  { apply outcome_steady, spec_lift. eauto. }
  intros s0 rj1 ->.
  eapply outcome_bind with (Pa := fun k => k = Z.of_nat (List.length fr)).
  { apply outcome_steady, spec_slides_count. eauto. }
  intros k rj2 ->.
  destruct (Z.of_nat (List.length fr) <? s) eqn:Miss.
  { apply outcome_steady, spec_emit; [exact I|]. eauto. }
  apply Z.ltb_ge in Miss.
  eapply outcome_bind with (Pa := fun x => x = s).
  { apply outcome_steady, spec_get_slide.
    replace ((1 <=? s) && (s <=? Z.of_nat (List.length fr))) with true
      by (symmetry; apply andb_true_iff; split; apply Z.leb_le; lia).
    eauto. }
  intros s0 rj3 ->.
  eapply outcome_bind with (Pa := fun _ => True).
  { unfold points, points_on.
    change (combine (py_range 9 13) (py_range 1 5))
      with [(9, 1); (10, 2); (11, 3); (12, 4)].
    apply outcome_for_each. intros [col k] rj4 IN.
    assert (K : 9 <= col <= 12).
    { cbn in IN. destruct IN as [E | [E | [E | [E | []]]]];
        injection E as <- <-; lia. }
    apply outcome_fill; [exact R|lia|apply HC|].
    intros shp rj5 L.
    eapply spec_conseq; [apply (spec_points_after force_coords c fr s _ _ shp rj5 L)|].
    cbn beta. intros r evs rj' (-> & _ & H). auto. }
  intros [] rj4 _.
  eapply outcome_bind with (Pa := fun _ => True).
  { unfold loto_amount, loto_amount_on.
    apply outcome_fill; [exact R|lia|apply HC|].
    intros shp rj5 L. destruct force_coords eqn:FC;
      [|apply spec_ret; auto].
    apply spec_bind, spec_lift.
    destruct (coords_for_position_ok (pos_in_slide_of n) LOTO_SIZE P)
      as [co ->].
    apply spec_bind.
    eapply spec_conseq; [apply (coords_go_through s _ shp co rj5 L (G eq_refl))|].
    cbn beta. intros r evs rj' (-> & ->). apply font_goes_through. }
  intros [] rj5 _.
  unfold cabinet, cabinet_on.
  apply outcome_fill; [exact R|lia|apply HC|].
  intros shp rj6 L. apply spec_bind.
  destruct force_coords eqn:FC.
  - apply spec_bind, spec_lift.
    destruct (coords_for_position_ok (pos_in_slide_of n) CABINET_SIZE P)
      as [co ->].
    eapply spec_conseq; [apply (coords_go_through s _ shp co rj6 L (G eq_refl))|].
    cbn beta. intros r evs rj' (-> & ->). apply font_goes_through.
  - apply spec_ret. apply font_goes_through.
Qed.

Lemma outcome_main (rj : list (option exn)) :
  host_cells c ->
  (force_coords = true -> geometry_accepted fr) ->
  outcome c fr rj (main force_coords) (fun _ => True).
Proof.
  intros HC G. unfold main, main_on.
  eapply outcome_bind with (Pa := fun _ => True).
  - apply outcome_for_each. intros x rj0 Hx. apply In_py_range in Hx.
    replace x with (x - 2 + 2) by lia.
    apply outcome_sticker; [unfold total_stickers in *; lia|exact HC|exact G].
  - intros [] rj1 _. apply outcome_steady, spec_emit; [exact I|]. eauto.
Qed.

End Outcomes.

(** ** A run goes through, or fails for a cause *)

Lemma main_failure_cause (force_coords : bool) (w : world) (e : exn) :
  host_cells (cells w) ->
  (force_coords = true -> geometry_accepted (frame (slides w))) ->
  fst (main force_coords w) = Raise e ->
  cause e (rejections w).
Proof.
  intros HC G F.
  destruct (spec_run w _ _
              (outcome_main force_coords (cells w) (frame (slides w))
                 (rejections w) HC G))
    as (r & evs & rj' & (_ & H) & E).
  rewrite E in F. cbn [fst] in F. subst r. exact H.
Qed.






(** ** Hosts that refuse *)

Section Refusals.

Variable h : host.

Lemma follows_refl {A} (m : M A) : follows h m m.
Proof. intros w. left. reflexivity. Qed.

Lemma follows_bind {A B} (m' m : M A) (k' k : A -> M B) :
  follows h m' m -> (forall a, follows h (k' a) (k a)) ->
  follows h (bind m' k') (bind m k).
Proof.
  intros Hm Hk w. unfold bind.
  destruct (Hm w) as [-> | (e & w' & -> & R)].
  - destruct (m w) as [[a|e] w1]; [apply Hk|left; reflexivity].
  - right. eauto.
Qed.

Lemma follows_for_each {A} (l : list A) (body' body : A -> M unit) :
  (forall x, follows h (body' x) (body x)) ->
  follows h (for_each l body') (for_each l body).
Proof.
  intros B. induction l as [|x l IH]; cbn [for_each];
    [apply follows_refl|].
  apply follows_bind; [apply B|intros _; exact IH].
Qed.

Lemma follows_print (l : line) : follows h (print h l) (print answering l).
Proof.
  intros w. unfold print, answering.
  destruct (h (trace w) (Console l)) as [e|] eqn:E;
    [right|left; reflexivity].
  exists e, w. split; [reflexivity|]. exists (trace w), (Console l). exact E.
Qed.

Lemma follows_slides_count :
  follows h (slides_count h) (slides_count answering).
Proof.
  intros w. unfold slides_count, answering.
  destruct (h (trace w) SlidesCount) as [e|] eqn:E;
    [right|left; reflexivity].
  exists e, w. split; [reflexivity|]. exists (trace w), SlidesCount. exact E.
Qed.

Lemma follows_get_slide (slide_index : Z) :
  follows h (get_slide h slide_index) (get_slide answering slide_index).
Proof.
  intros w. unfold get_slide, answering.
  destruct (h (trace w) (SlidesItem slide_index)) as [e|] eqn:E;
    [right|left; reflexivity].
  exists e, w. split; [reflexivity|].
  exists (trace w), (SlidesItem slide_index). exact E.
Qed.

Lemma follows_fill (slide slide_index : Z) (name : string) (row col : Z)
      (after : ref -> M unit) :
  follows h (fill_on h slide slide_index name row col after)
    (fill slide slide_index name row col after).
Proof.
  unfold fill, fill_on. apply follows_bind; [apply follows_refl|].
  intros [shp|]; [|apply follows_print].
  apply follows_bind; [apply follows_refl|]. intros val.
  apply follows_bind; [apply follows_refl|]. intros val_text.
  apply follows_bind; [apply follows_print|]. intros _.
  apply follows_refl.
Qed.

Lemma follows_points (force_coords : bool) (slide slide_index : Z)
      (sticker_str : string) (row pos : Z) :
  follows h (points_on h force_coords slide slide_index sticker_str row pos)
    (points force_coords slide slide_index sticker_str row pos).
Proof.
  unfold points, points_on. apply follows_for_each.
  intros [col k]. apply follows_fill.
Qed.

Lemma follows_sticker (force_coords : bool) (data_row : Z) :
  follows h (sticker_on h force_coords data_row)
    (sticker force_coords data_row).
Proof.
  unfold sticker, sticker_on. cbv zeta.
  apply follows_bind; [apply follows_refl|]. intros slide_index.
  apply follows_bind; [apply follows_slides_count|]. intros count.
  destruct (count <? slide_index); [apply follows_print|].
  apply follows_bind; [apply follows_get_slide|]. intros slide.
  apply follows_bind; [apply follows_points|]. intros _.
  apply follows_bind; [apply follows_fill|]. intros _.
  apply follows_fill.
Qed.

Lemma follows_main (force_coords : bool) :
  follows h (main_on h force_coords) (main force_coords).
Proof.
  unfold main, main_on. apply follows_bind.
  - apply follows_for_each. intros x. apply follows_sticker.
  - intros _. apply follows_print.
Qed.


End Refusals.



(** X14. A pass over a sticker that returns normally looks up either
    exactly six shapes, whether they exist or not, or none at all: when
    the slide [ceil(n/6)] exists, the six names of the sticker, in the
    order of [field_names], all on that slide; when it is missing, the
    pass looks nothing up. *)
Theorem sticker_lookups (h : host) (force_coords : bool) (n : Z) (w : world)
        (H : 1 <= n <= total_stickers)
        (N : fst (sticker_on h force_coords (n + 2) w) = Ok tt) :
  finds (trace (snd (sticker_on h force_coords (n + 2) w)))
  = finds (trace w)
    ++ (if (n + 5) / 6 <=? Z.of_nat (List.length (slides w))
        then map (pair ((n + 5) / 6)) (field_names n)
        else []).
Proof.
  destruct (follows_sticker h force_coords (n + 2) w)
    as [E | (e & w' & E & _)].
  2:{ rewrite E in N. discriminate N. }
  rewrite E in N |- *.
  destruct (spec_run w _ _ (spec_sticker force_coords _ _ n (rejections w) H))
    as (r & evs & rj' & (M & Ev & _) & R).
  rewrite R in N |- *. cbn [fst snd trace] in N |- *.
  cbn zeta in M, Ev. rewrite frame_length in M, Ev.
  rewrite finds_app. f_equal.
  destruct ((n + 5) / 6 <=? Z.of_nat (List.length (slides w))) eqn:S.
  - apply Z.leb_le in S.
    destruct (Ev S N) as (g1 & g2 & g3 & g4 & g5 & g6 & -> & G1 & G2 & G3
                          & G4 & G5 & G6).
    rewrite !finds_app.
    rewrite (finds_field_group _ _ _ _ _ _ G1),
      (finds_field_group _ _ _ _ _ _ G2), (finds_field_group _ _ _ _ _ _ G3),
      (finds_field_group _ _ _ _ _ _ G4), (finds_field_group _ _ _ _ _ _ G5),
      (finds_field_group _ _ _ _ _ _ G6).
    reflexivity.
  - apply Z.leb_gt in S. destruct (M S) as (_ & _ & ->). reflexivity.
Qed.

Lemma sticker_lookups_witness :
  1 <= 13 <= total_stickers
  /\ fst (sticker_on answering FORCE_COORDS (13 + 2) sticker_13_world) = Ok tt
  /\ finds (trace (snd (sticker_on answering FORCE_COORDS (13 + 2)
                          sticker_13_world)))
     = finds (trace sticker_13_world)
       ++ (if (13 + 5) / 6
              <=? Z.of_nat (List.length (slides sticker_13_world))
           then map (pair ((13 + 5) / 6)) (field_names 13)
           else []).
Proof.
  assert (H : 1 <= 13 <= total_stickers) by (unfold total_stickers; lia).
  assert (N : fst (sticker_on answering FORCE_COORDS (13 + 2)
                     sticker_13_world) = Ok tt)
    by (vm_compute; reflexivity).
  split; [exact H|]. split; [exact N|].
  exact (sticker_lookups answering FORCE_COORDS 13 sticker_13_world H N).
Defined.

(** X15. With cells that hold host values and geometry writes that are
    accepted, a run fails for three reasons only: a cell of the source
    range was rejected five times in a row, and the error names that
    cell; the spreadsheet host answered a read with an exception that is
    not the transient rejection; or the presentation host refused to give
    the number of slides or a slide, or a line could not be printed.  In
    the last two cases the exception leaves the run unchanged.  Missing
    shapes, missing slides and refused text or font writes never make a
    run fail. *)
Theorem run_failures (h : host) (force_coords : bool) (w : world) (e : exn)
        (HC : host_cells (cells w))
        (G : force_coords = true -> geometry_accepted (frame (slides w)))
        (F : fst (main_on h force_coords w) = Raise e) :
  (exists row col,
      3 <= row <= total_stickers + 2 /\ 9 <= col <= 14
      /\ e = exhausted default_retries row col
      /\ exists pre es post,
          rejections w = pre ++ map Some es ++ post
          /\ List.length es = 5%nat
          /\ Forall (fun e0 => transient e0 = true) es)
  \/ (transient e = false /\ In (Some e) (rejections w))
  \/ (exists tr k, h tr k = Some e).
Proof.
  destruct (follows_main h force_coords w) as [E | (e' & w' & E & R)].
  - rewrite E in F.
    destruct (main_failure_cause force_coords w e HC G F) as [C | C];
      [left; exact C|right; left; exact C].
  - rewrite E in F. cbn [fst] in F. injection F as <-.
    right. right. exact R.
Qed.

Lemma run_failures_witness :
  host_cells (cells empty_deck)
  /\ (FORCE_COORDS = true -> geometry_accepted (frame (slides empty_deck)))
  /\ fst (main_on busy_at_slide_2 FORCE_COORDS empty_deck) = Raise rejected
  /\ ((exists row col,
          3 <= row <= total_stickers + 2 /\ 9 <= col <= 14
          /\ rejected = exhausted default_retries row col
          /\ exists pre es post,
              rejections empty_deck = pre ++ map Some es ++ post
              /\ List.length es = 5%nat
              /\ Forall (fun e0 => transient e0 = true) es)
      \/ (transient rejected = false
          /\ In (Some rejected) (rejections empty_deck))
      \/ (exists tr k, busy_at_slide_2 tr k = Some rejected)).
Proof.
  assert (HC : host_cells (cells empty_deck)) by (intros r c; exact I).
  assert (G : FORCE_COORDS = true ->
              geometry_accepted (frame (slides empty_deck)))
    by discriminate.
  assert (F : fst (main_on busy_at_slide_2 FORCE_COORDS empty_deck)
              = Raise rejected)
    by (vm_compute; reflexivity).
  split; [exact HC|]. split; [exact G|]. split; [exact F|].
  exact (run_failures busy_at_slide_2 FORCE_COORDS empty_deck _ HC G F).
Defined.

(** ** Start-up *)

Lemma attach_office_cases (d : desktop) (app_name : string) (cs : list call) :
  let progid := (app_name ++ ".Application")%string in
  match attach_office d app_name cs with
  | (Ok a, cs') =>
      (active_object d progid = Ok a /\ cs' = cs ++ [GetActiveObject progid])
      \/ ((exists e0, active_object d progid = Raise e0)
          /\ exists a0,
            ensure_dispatch d progid = Ok a0 /\ show d a0 = None
            /\ a = mkApp (app_instance a0) true
            /\ cs' = cs ++ [GetActiveObject progid; EnsureDispatch progid;
                            SetVisible progid])
  | (Raise e, cs') =>
      (exists e0, active_object d progid = Raise e0)
      /\ exists e1,
          e = attach_failed app_name e1
          /\ ((ensure_dispatch d progid = Raise e1
               /\ cs' = cs ++ [GetActiveObject progid; EnsureDispatch progid])
              \/ exists a0,
                  ensure_dispatch d progid = Ok a0 /\ show d a0 = Some e1
                  /\ cs' = cs ++ [GetActiveObject progid;
                                  EnsureDispatch progid; SetVisible progid])
  end.
Proof.
  cbn zeta. unfold attach_office.
  destruct (active_object d _) as [a|e0]; [left; auto|].
  destruct (ensure_dispatch d _) as [a0|e1].
  - destruct (show d a0) as [e1|] eqn:V.
    + split; [eauto|]. exists e1. split; [reflexivity|]. right.
      exists a0. rewrite <- !app_assoc. auto.
    + right. split; [eauto|]. exists a0. rewrite <- !app_assoc. auto.
  - split; [eauto|]. exists e1. split; [reflexivity|]. left.
    rewrite <- !app_assoc. auto.
Qed.

(** X16. [attach_office] prefers a running instance: when the host has
    one, it is returned as it is, nothing is launched and its visibility
    is not touched.  Otherwise an instance is launched and made visible.
    When that fails, at the launch or at making it visible, the exception
    is a [RuntimeError] that names the application and carries the text of
    the launch failure; the failure to find a running instance is never
    reported. *)
Theorem attach_office_contract (d : desktop) (app_name : string)
        (cs : list call) :
  let progid := (app_name ++ ".Application")%string in
  let out := attach_office d app_name cs in
  (forall a, active_object d progid = Ok a ->
     out = (Ok a, cs ++ [GetActiveObject progid]))
  /\ (forall a, fst out = Ok a ->
        active_object d progid = Ok a
        \/ (app_visible a = true
            /\ In (EnsureDispatch progid) (snd out)
            /\ exists a0, ensure_dispatch d progid = Ok a0
                          /\ app_instance a = app_instance a0))
  /\ (forall e, fst out = Raise e ->
        exc_type e = RuntimeError
        /\ exists e1,
            exc_str e
            = ("Failed to start/attach to " ++ app_name ++ ": "
                 ++ exc_str e1)%string
            /\ (ensure_dispatch d progid = Raise e1
                \/ exists a0, ensure_dispatch d progid = Ok a0
                              /\ show d a0 = Some e1)).
Proof.
  cbn zeta. pose proof (attach_office_cases d app_name cs) as C.
  cbn zeta in C. split; [|split].
  - intros a A. unfold attach_office. now rewrite A.
  - intros a E. destruct (attach_office d app_name cs) as [[a'|e] cs'];
      [|discriminate].
    cbn in E. injection E as ->.
    destruct C as [[A _] | (_ & a0 & D & _ & -> & ->)]; [auto|].
    right. split; [reflexivity|]. split.
    + cbn [snd]. apply in_or_app. right. cbn. auto.
    + eauto.
  - intros e E. destruct (attach_office d app_name cs) as [[a'|e'] cs'];
      [discriminate|].
    cbn in E. injection E as ->.
    destruct C as (_ & e1 & -> & C). split; [reflexivity|].
    exists e1. split; [reflexivity|].
    destruct C as [[D _] | (a0 & D & V & _)]; eauto.
Qed.

Lemma attach_office_calls (d : desktop) (app_name : string) (cs : list call) :
  exists cs', snd (attach_office d app_name cs) = cs ++ cs'
              /\ (attach_calls app_name cs'
                  \/ ((exists e, fst (attach_office d app_name cs) = Raise e)
                      /\ cs' = [GetActiveObject (app_name ++ ".Application");
                                EnsureDispatch (app_name ++ ".Application")])).
Proof.
  pose proof (attach_office_cases d app_name cs) as C. cbn zeta in C.
  unfold attach_calls.
  destruct (attach_office d app_name cs) as [[a|e] cs']; cbn [fst snd].
  - destruct C as [[_ ->] | (_ & a0 & _ & _ & _ & ->)]; eauto.
  - destruct C as (_ & e1 & _ & [[_ ->] | (a0 & _ & _ & ->)]); eauto 7.
Qed.

Lemma excel_calls_not_powerpoint (cs : list call) :
  attach_calls "Excel" cs
  \/ cs = [GetActiveObject "Excel.Application";
           EnsureDispatch "Excel.Application"] ->
  existsb powerpoint_call cs = false.
Proof. unfold attach_calls. intros [[-> | ->] | ->]; reflexivity. Qed.

Ltac no_powerpoint NE :=
  repeat (rewrite existsb_app || cbn [List.app existsb powerpoint_call orb]);
  rewrite ?NE; reflexivity.

(** X17. A start-up that fails ends in one of six ways, in this order of
    precedence: the exception of the cache rebuild, unchanged; a
    [RuntimeError] for Excel that could not be attached or started; a
    [RuntimeError] with the SharePoint/OneDrive hint and the text of the
    failure for the workbook that could not be opened; the exception of
    the sheet lookup, unchanged; a [RuntimeError] for PowerPoint; a
    [RuntimeError] for the presentation that could not be opened.  In the
    first four the presentation host has not been called at all. *)
Theorem startup_failures (d : desktop) (e : exn) (cs : list call)
        (F : startup d = (Raise e, cs)) :
  (rebuild d = Some e /\ existsb powerpoint_call cs = false)
  \/ ((exists e1, e = attach_failed "Excel" e1)
      /\ existsb powerpoint_call cs = false)
  \/ ((exists excel e1,
         workbooks_open d excel excel_file_path = Raise e1
         /\ e = workbook_failed e1)
      /\ existsb powerpoint_call cs = false)
  \/ ((exists excel wb,
         workbooks_open d excel excel_file_path = Ok wb
         /\ wb sheet_name = Raise e)
      /\ existsb powerpoint_call cs = false)
  \/ (exists e1, e = attach_failed "PowerPoint" e1)
  \/ (exists ppt e1,
        presentations_open d ppt ppt_file_url = Raise e1
        /\ e = presentation_failed e1).
Proof.
  unfold startup in F.
  destruct (rebuild d) as [e0|] eqn:R.
  { injection F as <- <-. left. auto. }
  right.
  pose proof (attach_office_cases d "Excel" [Rebuild]) as CE.
  destruct (attach_office_calls d "Excel" [Rebuild]) as (csE & SE & KE).
  cbn zeta in CE.
  destruct (attach_office d "Excel" [Rebuild]) as [[excel|e1] cs1];
    cbn [fst snd] in SE, KE; subst cs1.
  2:{ injection F as <- <-. left.
      destruct CE as (_ & e2 & -> & _). split; [eauto|].
      assert (NE : existsb powerpoint_call csE = false).
      { apply excel_calls_not_powerpoint. destruct KE as [K | [_ ->]]; auto. }
      no_powerpoint NE. }
  right.
  assert (NE : existsb powerpoint_call csE = false).
  { apply excel_calls_not_powerpoint. destruct KE as [K | [[? Q] _]]; auto.
    discriminate Q. }
  clear CE KE.
  change (String.eqb excel_file_path "") with false in F. cbv iota in F.
  destruct (workbooks_open d excel excel_file_path) as [wb|e1] eqn:W.
  2:{ injection F as <- <-. left. split; [eauto|]. no_powerpoint NE. }
  right.
  destruct (wb sheet_name) as [ws|e1] eqn:S.
  2:{ injection F as <- <-. left. split; [eauto|]. no_powerpoint NE. }
  right.
  match type of F with
  | context [attach_office d "PowerPoint" ?k] =>
      pose proof (attach_office_cases d "PowerPoint" k) as CP;
      cbn zeta in CP;
      destruct (attach_office d "PowerPoint" k) as [[ppt|e1] cs4]
  end.
  2:{ injection F as <- <-. left. destruct CP as (_ & e2 & -> & _). eauto. }
  right.
  destruct (presentations_open d ppt ppt_file_url) as [pres|e1] eqn:P;
    [discriminate F|].
  injection F as <- <-. eauto.
Qed.

Lemma startup_failures_witness :
  startup bare_desktop
  = (Raise (attach_failed "Excel" class_not_registered),
     [Rebuild; GetActiveObject "Excel.Application";
      EnsureDispatch "Excel.Application"])
  /\ ((rebuild bare_desktop
       = Some (attach_failed "Excel" class_not_registered)
       /\ existsb powerpoint_call
            [Rebuild; GetActiveObject "Excel.Application";
             EnsureDispatch "Excel.Application"] = false)
      \/ ((exists e1, attach_failed "Excel" class_not_registered
                      = attach_failed "Excel" e1)
          /\ existsb powerpoint_call
               [Rebuild; GetActiveObject "Excel.Application";
                EnsureDispatch "Excel.Application"] = false)
      \/ ((exists excel e1,
             workbooks_open bare_desktop excel excel_file_path = Raise e1
             /\ attach_failed "Excel" class_not_registered
                = workbook_failed e1)
          /\ existsb powerpoint_call
               [Rebuild; GetActiveObject "Excel.Application";
                EnsureDispatch "Excel.Application"] = false)
      \/ ((exists excel wb,
             workbooks_open bare_desktop excel excel_file_path = Ok wb
             /\ wb sheet_name
                = Raise (attach_failed "Excel" class_not_registered))
          /\ existsb powerpoint_call
               [Rebuild; GetActiveObject "Excel.Application";
                EnsureDispatch "Excel.Application"] = false)
      \/ (exists e1, attach_failed "Excel" class_not_registered
                     = attach_failed "PowerPoint" e1)
      \/ (exists ppt e1,
            presentations_open bare_desktop ppt ppt_file_url = Raise e1
            /\ attach_failed "Excel" class_not_registered
               = presentation_failed e1)).
Proof.
  split; [reflexivity|].
  apply (startup_failures bare_desktop). reflexivity.
Defined.

(** X18. A start-up that succeeds has opened the configured workbook and
    presentation, and hands the row loop the sheet [Info_Tags_PLC30_FCO8]
    of that workbook and the slides of that presentation.  Its host calls
    are, in this order: the cache rebuild, the calls attaching Excel, the
    opening of the workbook, the sheet lookup, the calls attaching
    PowerPoint, the opening of the presentation; each application is
    attached by one lookup of a running instance, followed, when there is
    none, by a launch and by making the launched instance visible. *)
Theorem startup_success (d : desktop) (ws : Z -> Z -> pyval)
        (pres : list (list shape)) (cs : list call)
        (S : startup d = (Ok (ws, pres), cs)) :
  exists excel wb ppt csE csP,
    rebuild d = None
    /\ workbooks_open d excel excel_file_path = Ok wb
    /\ wb sheet_name = Ok ws
    /\ presentations_open d ppt ppt_file_url = Ok pres
    /\ attach_calls "Excel" csE /\ attach_calls "PowerPoint" csP
    /\ cs = [Rebuild] ++ csE
              ++ [WorkbooksOpen excel_file_path; Sheets sheet_name]
              ++ csP ++ [PresentationsOpen ppt_file_url]
    /\ (active_object d "Excel.Application" = Ok excel
        \/ app_visible excel = true)
    /\ (active_object d "PowerPoint.Application" = Ok ppt
        \/ app_visible ppt = true).
Proof.
  unfold startup in S.
  destruct (rebuild d) as [e0|] eqn:R; [discriminate S|].
  pose proof (attach_office_cases d "Excel" [Rebuild]) as CE.
  cbn zeta in CE.
  destruct (attach_office d "Excel" [Rebuild]) as [[excel|e1] cs1];
    [|discriminate S].
  change (String.eqb excel_file_path "") with false in S. cbv iota in S.
  destruct (workbooks_open d excel excel_file_path) as [wb|e1] eqn:W;
    [|discriminate S].
  destruct (wb sheet_name) as [ws'|e1] eqn:SH; [|discriminate S].
  match type of S with
  | context [attach_office d "PowerPoint" ?k] =>
      pose proof (attach_office_cases d "PowerPoint" k) as CP;
      cbn zeta in CP;
      destruct (attach_office d "PowerPoint" k) as [[ppt|e1] cs4];
      [|discriminate S]
  end.
  destruct (presentations_open d ppt ppt_file_url) as [pres'|e1] eqn:P;
    [|discriminate S].
  injection S as <- <- <-.
  assert (E : exists csE, cs1 = [Rebuild] ++ csE /\ attach_calls "Excel" csE
                          /\ (active_object d "Excel.Application" = Ok excel
                              \/ app_visible excel = true)).
  { unfold attach_calls.
    destruct CE as [[A ->] | (_ & a0 & _ & _ & -> & ->)]; eauto 6. }
  destruct E as (csE & -> & KE & VE).
  assert (E : exists csP,
             cs4 = ((([Rebuild] ++ csE) ++ [WorkbooksOpen excel_file_path])
                      ++ [Sheets sheet_name]) ++ csP
             /\ attach_calls "PowerPoint" csP
             /\ (active_object d "PowerPoint.Application" = Ok ppt
                 \/ app_visible ppt = true)).
  { unfold attach_calls.
    destruct CP as [[A ->] | (_ & a0 & _ & _ & -> & ->)]; eauto 6. }
  destruct E as (csP & -> & KP & VP).
  exists excel, wb, ppt, csE, csP.
  repeat (split; [assumption || reflexivity|]).
  split; [|auto].
  rewrite <- !app_assoc. reflexivity.
Qed.

Lemma startup_success_witness :
  startup stuck_desktop
  = (Ok (label_cells, [[text_box "Point 01.01"]]),
     [Rebuild; GetActiveObject "Excel.Application";
      WorkbooksOpen excel_file_path; Sheets sheet_name;
      GetActiveObject "PowerPoint.Application";
      EnsureDispatch "PowerPoint.Application";
      SetVisible "PowerPoint.Application";
      PresentationsOpen ppt_file_url])
  /\ exists excel wb ppt csE csP,
      rebuild stuck_desktop = None
      /\ workbooks_open stuck_desktop excel excel_file_path = Ok wb
      /\ wb sheet_name = Ok label_cells
      /\ presentations_open stuck_desktop ppt ppt_file_url
         = Ok [[text_box "Point 01.01"]]
      /\ attach_calls "Excel" csE /\ attach_calls "PowerPoint" csP
      /\ [Rebuild; GetActiveObject "Excel.Application";
          WorkbooksOpen excel_file_path; Sheets sheet_name;
          GetActiveObject "PowerPoint.Application";
          EnsureDispatch "PowerPoint.Application";
          SetVisible "PowerPoint.Application";
          PresentationsOpen ppt_file_url]
         = [Rebuild] ++ csE
             ++ [WorkbooksOpen excel_file_path; Sheets sheet_name]
             ++ csP ++ [PresentationsOpen ppt_file_url]
      /\ (active_object stuck_desktop "Excel.Application" = Ok excel
          \/ app_visible excel = true)
      /\ (active_object stuck_desktop "PowerPoint.Application" = Ok ppt
          \/ app_visible ppt = true).
Proof.
  split; [reflexivity|].
  apply (startup_success stuck_desktop). reflexivity.
Defined.

(** X19. Every exception that leaves the script as a whole, on a
    worksheet of host values and (with the force-coordinates flag on)
    shapes that accept their geometry, is one of these.  From the
    start-up, before any cell is read and any shape is looked up: the
    exception of the cache rebuild or of the sheet lookup, unchanged, or a
    [RuntimeError] whose text begins with "Failed to ".  From the row
    loop: the [RuntimeError] of the read of a cell of rows 3 to
    [total_stickers + 2] and columns 9 to 14 that was rejected
    [default_retries] times in a row; an exception of the worksheet host
    that is not a rejected call, unchanged; or an exception of the
    presentation host asked for the number of slides or for a slide, or
    of the console, unchanged. *)
Theorem script_failures (h : host) (force_coords : bool) (d : desktop)
        (e : exn)
        (HC : forall excel wb ws,
            workbooks_open d excel excel_file_path = Ok wb ->
            wb sheet_name = Ok ws -> host_cells ws)
        (G : force_coords = true ->
             forall ppt pres,
               presentations_open d ppt ppt_file_url = Ok pres ->
               geometry_accepted (frame pres))
        (F : fst (fst (script h force_coords d)) = Raise e) :
  (snd (script h force_coords d) = None
   /\ (rebuild d = Some e
       \/ (exists excel wb,
              workbooks_open d excel excel_file_path = Ok wb
              /\ wb sheet_name = Raise e)
       \/ (exc_type e = RuntimeError
           /\ String.prefix "Failed to " (exc_str e) = true)))
  \/ ((exists w, snd (script h force_coords d) = Some w)
      /\ ((exists row col,
              3 <= row <= total_stickers + 2 /\ 9 <= col <= 14
              /\ e = exhausted default_retries row col
              /\ exists pre es post,
                  answers d = pre ++ map Some es ++ post
                  /\ List.length es = 5%nat
                  /\ Forall (fun e0 => transient e0 = true) es)
          \/ (transient e = false /\ In (Some e) (answers d))
          \/ (exists tr k, h tr k = Some e))).
Proof.
  unfold script in *. unfold startup in *.
  destruct (rebuild d) as [e0|] eqn:R.
  { cbn [fst snd] in *. injection F as <-. left. auto. }
  pose proof (attach_office_cases d "Excel" [Rebuild]) as CE.
  cbn zeta in CE.
  destruct (attach_office d "Excel" [Rebuild]) as [[excel|e1] cs1].
  2:{ cbn [fst snd] in *. injection F as <-. left. split; [reflexivity|].
      destruct CE as (_ & e2 & -> & _). right. right.
      split; reflexivity. }
  clear CE.
  change (String.eqb excel_file_path "") with false in *. cbv iota in *.
  destruct (workbooks_open d excel excel_file_path) as [wb|e1] eqn:W.
  2:{ cbn [fst snd] in *. injection F as <-. left. split; [reflexivity|].
      right. right. split; reflexivity. }
  destruct (wb sheet_name) as [ws|e1] eqn:S.
  2:{ cbn [fst snd] in *. injection F as <-. left. split; [reflexivity|].
      right. left. eauto. }
  match type of F with
  | context [attach_office d "PowerPoint" ?k] =>
      pose proof (attach_office_cases d "PowerPoint" k) as CP;
      cbn zeta in CP;
      destruct (attach_office d "PowerPoint" k) as [[ppt|e1] cs4]
  end.
  2:{ cbn [fst snd] in *. injection F as <-. left. split; [reflexivity|].
      destruct CP as (_ & e2 & -> & _). right. right.
      split; reflexivity. }
  clear CP.
  destruct (presentations_open d ppt ppt_file_url) as [pres|e1] eqn:P.
  2:{ cbn [fst snd] in *. injection F as <-. left. split; [reflexivity|].
      right. right. split; reflexivity. }
  right.
  set (w := mkWorld ws (answers d) pres []) in *.
  assert (HCw : host_cells (cells w)) by exact (HC _ _ _ W S).
  assert (Gw : force_coords = true -> geometry_accepted (frame (slides w)))
    by exact (fun fc => G fc _ _ P).
  destruct (follows_main h force_coords w) as [E | (e' & w' & E & Rf)].
  - rewrite E in F |- *.
    pose proof (main_failure_cause force_coords w e HCw Gw) as C.
    destruct (main force_coords w) as [r0 w0].
    cbn [fst snd] in *. split; [eauto|].
    destruct (C F) as [C1 | C1]; [left; exact C1|right; left; exact C1].
  - rewrite E in F |- *. cbn [fst snd] in *. injection F as <-.
    split; [eauto|]. right. right. exact Rf.
Qed.

Lemma script_failures_witness :
  fst (fst (script answering FORCE_COORDS stuck_desktop))
  = Raise (exhausted 5 3 9)
  /\ ((snd (script answering FORCE_COORDS stuck_desktop) = None
       /\ (rebuild stuck_desktop = Some (exhausted 5 3 9)
           \/ (exists excel wb,
                  workbooks_open stuck_desktop excel excel_file_path = Ok wb
                  /\ wb sheet_name = Raise (exhausted 5 3 9))
           \/ (exc_type (exhausted 5 3 9) = RuntimeError
               /\ String.prefix "Failed to " (exc_str (exhausted 5 3 9))
                  = true)))
      \/ ((exists w, snd (script answering FORCE_COORDS stuck_desktop)
                     = Some w)
          /\ ((exists row col,
                  3 <= row <= total_stickers + 2 /\ 9 <= col <= 14
                  /\ exhausted 5 3 9 = exhausted default_retries row col
                  /\ exists pre es post,
                      answers stuck_desktop = pre ++ map Some es ++ post
                      /\ List.length es = 5%nat
                      /\ Forall (fun e0 => transient e0 = true) es)
              \/ (transient (exhausted 5 3 9) = false
                  /\ In (Some (exhausted 5 3 9)) (answers stuck_desktop))
              \/ (exists tr k, answering tr k = Some (exhausted 5 3 9))))).
Proof.
  assert (F : fst (fst (script answering FORCE_COORDS stuck_desktop))
              = Raise (exhausted 5 3 9)) by (vm_compute; reflexivity).
  split; [exact F|].
  refine (script_failures answering FORCE_COORDS stuck_desktop _ _ _ F).
  - intros excel wb ws W S. injection W as <-. cbn in S. injection S as <-.
    intros r c. exact I.
  - discriminate.
Defined.

(** X20. [apply_font_size] never raises and touches nothing but the font
    size of its shape: every other shape, the cells and the pending
    answers of the worksheet host are as before; the shape gets the size
    when the host accepts the write, and when it refuses (a shape without
    text frame, text range or font, or any other failure) the slides are
    unchanged. *)
Theorem apply_font_size_contained (shp : ref) (size_pt : pynum) (w : world)
        (s : shape) (Hs : get_shape shp (slides w) = Some s) :
  let out := apply_font_size shp size_pt w in
  fst out = Ok tt
  /\ cells (snd out) = cells w
  /\ rejections (snd out) = rejections w
  /\ (forall r, r <> shp ->
        get_shape r (slides (snd out)) = get_shape r (slides w))
  /\ (shp_fault s SetFontSize = None ->
      get_shape shp (slides (snd out))
      = Some (mkShape (shp_name s) (shp_left s) (shp_top s) (shp_width s)
                (shp_height s) (shp_orientation s) (shp_text s) size_pt
                (shp_fault s)))
  /\ (shp_fault s SetFontSize <> None -> slides (snd out) = slides w).
Proof.
  destruct w as [c rj sl tr]. cbn [slides] in Hs.
  unfold apply_font_size, try_pass, com_set, access.
  cbn [slides cells rejections trace op_of]. rewrite Hs.
  destruct (shp_fault s SetFontSize) as [e|] eqn:FS;
    cbn [rbind fst snd cells rejections slides trace].
  - repeat split; try reflexivity; try discriminate.
    + intros r N. now apply get_shape_apply_other.
    + intros _. apply (apply_event_refused shp (FontSize size_pt) sl s e Hs FS).
  - repeat split; try reflexivity.
    + intros r N. now apply get_shape_apply_other.
    + intros _. rewrite get_shape_apply_same, Hs. cbn [option_map].
      unfold attempt. cbn [op_of]. now rewrite FS.
    + congruence.
Qed.

Lemma apply_font_size_contained_witness :
  get_shape (mkRef 0 0) (slides cabinet_world) = Some (text_box "Cabinet 01")
  /\ fst (apply_font_size (mkRef 0 0) CABINET_FONT_SIZE cabinet_world) = Ok tt.
Proof.
  assert (H : get_shape (mkRef 0 0) (slides cabinet_world)
              = Some (text_box "Cabinet 01")) by reflexivity.
  split; [exact H|].
  apply (apply_font_size_contained (mkRef 0 0) CABINET_FONT_SIZE
           cabinet_world _ H).
Defined.
